(** * image-reflector-controller: the ImageRepository reconciler

  A shallow embedding of [controllers/imagerepository_controller.go].
  The source file holds two variants of the controller; they are
  embedded side by side as the modules [V1] (lines 1-623) and [V2]
  (lines 624-1052).

  Go values are modelled as follows.
  - [time.Duration] is an [int64] count of nanoseconds: a [Z] with the
    wrap-around of Go's integer arithmetic written out ([time.wrap]).
  - [time.Time] is an instant, as a [Z] count of nanoseconds on the wall
    clock; [Time.Sub] saturates as the Go standard library documents.
  - [string] is Rocq's [string]; [[]byte] is [list Byte.byte];
    [map[string]T] is [gmap string T].
  - A Go result pair [(T, error)] is a [result T]; an [error] is
    represented by its message.
  - Packages outside this repository (net/url, regexp, crypto/tls,
    go-containerregistry, the Kubernetes client) are interfaces: type
    classes whose methods the controller calls.  Small executable
    instances of them are given in the module [Model]. *)

From Stdlib Require Import ZArith Lia Ascii String DecimalString.
From stdpp Require Import base strings list gmap.


(** ** Go basics *)

Definition error := string.

Inductive result (A : Type) : Type :=
| Ok (a : A)
| Err (e : error).
Arguments Ok {A} a.
Arguments Err {A} e.

Definition bytes := list Byte.byte.

Module time.

Abbreviation Duration := Z.
Abbreviation Time := Z.

Definition minDuration : Duration := (- 2 ^ 63)%Z.
Definition maxDuration : Duration := (2 ^ 63 - 1)%Z.
Definition Nanosecond : Duration := 1%Z.
Definition Second : Duration := 1000000000%Z.

(** A value that a variable of type [time.Duration] can hold. *)
Definition wf (d : Duration) : Prop :=
  (minDuration <= d <= maxDuration)%Z.

(** Two's complement reduction to 64 bits. *)
Definition wrap (z : Z) : Duration :=
  ((z - minDuration) mod 2 ^ 64 + minDuration)%Z.

(** [a - b] and [a + b] on [Duration]s. *)
Definition sub (a b : Duration) : Duration := wrap (a - b).
Definition add (a b : Duration) : Duration := wrap (a + b).

(** [t.Sub(u)]: "If the result exceeds the maximum (or minimum) value
    that can be stored in a Duration, the maximum (or minimum) duration
    will be returned." *)
Definition Sub (t u : Time) : Duration :=
  if (t - u <? minDuration)%Z then minDuration
  else if (maxDuration <? t - u)%Z then maxDuration
  else (t - u)%Z.

(** [t.Add(d)]. *)
Definition Add (t : Time) (d : Duration) : Time := (t + d)%Z.

End time.

(** The functions of Go's package [strings] that the controller calls. *)
Module strings.

(** [HasPrefix(s, prefix)] *)
Fixpoint HasPrefix (s prefix : string) {struct prefix} : bool :=
  match prefix with
  | EmptyString => true
  | String c prefix' =>
      match s with
      | EmptyString => false
      | String d s' => if Ascii.eqb c d then HasPrefix s' prefix' else false
      end
  end.

(** [s[n:]], for [n <= len(s)] *)
Fixpoint drop (n : nat) (s : string) : string :=
  match n, s with
  | O, _ => s
  | S _, EmptyString => EmptyString
  | S n', String _ s' => drop n' s'
  end.

(** [TrimPrefix(s, prefix)] *)
Definition TrimPrefix (s prefix : string) : string :=
  if HasPrefix s prefix then drop (String.length prefix) s else s.

(** [Cut(s, sep)]: the text before and after the first instance of [sep],
    which is where [Index(s, sep)] points. *)
Fixpoint Cut (s sep : string) : option (string * string) :=
  if HasPrefix s sep then Some (EmptyString, drop (String.length sep) s)
  else
    match s with
    | EmptyString => None
    | String c s' =>
        match Cut s' sep with
        | Some (before, after) => Some (String c before, after)
        | None => None
        end
    end.

(** The loop of [genSplit]: cut at [sep] at most [n] times. *)
Fixpoint splitN (n : nat) (s sep : string) : list string :=
  match n with
  | O => [s]
  | S n' =>
      match Cut s sep with
      | None => [s]
      | Some (before, after) => before :: splitN n' after sep
      end
  end.

(** [Split(s, sep)] for a separator that is not empty, which is how the
    controller calls it: [s] has at most [len(s)] instances of [sep]. *)
Definition Split (s sep : string) : list string :=
  splitN (String.length s) s sep.

(** [s] has an instance of [sep]. *)
Definition Contains (s sep : string) : Prop :=
  ∃ a b, s = a +:+ sep +:+ b.

End strings.

(** [%v] of a count. *)
Definition itoa (n : nat) : string :=
  NilEmpty.string_of_uint (Nat.to_uint n).

(** ** The API types

  Modelled from the spec: the package [api/v1beta1] (the types
  ImageRepository, ImageRepositorySpec, ImageRepositoryStatus, ScanResult
  and the helper SetImageRepositoryReadiness) is not among the sources;
  the fields are those of section 3 of the specification, under the names
  the controller uses for them. *)

Module metav1.

Inductive ConditionStatus := ConditionTrue | ConditionFalse | ConditionUnknown.

(** The reasons the controller writes; their string values are declared
    outside the controller. *)
Inductive ConditionReason :=
| SuspendedReason
| ImageURLInvalidReason
| ReconciliationFailedReason
| ReconciliationSucceededReason
| FailedReason
| SucceededReason.

Record Condition := {
  Type_ : string;
  Status : ConditionStatus;
  Reason : ConditionReason;
  Message : string }.

Record ObjectMeta := {
  Name : string;
  Namespace : string;
  Annotations : gmap string string;
  Finalizers : list string;
  DeletionTimestamp : option time.Time }.

End metav1.

Module imagev1.

Record ScanResult := {
  TagCount : Z;
  ScanTime : time.Time }.

Record LocalObjectReference := { RefName : string }.

Record ImageRepositorySpec := {
  Image : string;
  Interval : time.Duration;
  SecretRef : option LocalObjectReference;
  ServiceAccountName : string;
  CertSecretRef : option LocalObjectReference;
  Suspend : bool;
  ExclusionList : list string }.

Record ImageRepositoryStatus := {
  Conditions : list metav1.Condition;
  CanonicalImageName : string;
  LastScanResult : option ScanResult;
  LastHandledReconcileRequest : string }.

Record ImageRepository := {
  ObjectMeta : metav1.ObjectMeta;
  Spec : ImageRepositorySpec;
  Status : ImageRepositoryStatus }.

Definition ImageRepositoryFinalizer : string := "finalizers.fluxcd.io".
Definition ReadyCondition : string := "Ready".

Definition GetAnnotations (r : ImageRepository) : gmap string string :=
  metav1.Annotations (ObjectMeta r).
Definition GetNamespace (r : ImageRepository) : string :=
  metav1.Namespace (ObjectMeta r).
Definition GetLastHandledReconcileRequest (s : ImageRepositoryStatus) : string :=
  LastHandledReconcileRequest s.

(** Field updates, written [x.f = v] in Go. *)
Definition with_Status (r : ImageRepository) (s : ImageRepositoryStatus) :=
  {| ObjectMeta := ObjectMeta r; Spec := Spec r; Status := s |}.
Definition with_Spec (r : ImageRepository) (s : ImageRepositorySpec) :=
  {| ObjectMeta := ObjectMeta r; Spec := s; Status := Status r |}.
Definition with_ObjectMeta (r : ImageRepository) (m : metav1.ObjectMeta) :=
  {| ObjectMeta := m; Spec := Spec r; Status := Status r |}.

Definition with_Conditions (s : ImageRepositoryStatus) (c : list metav1.Condition) :=
  {| Conditions := c; CanonicalImageName := CanonicalImageName s;
     LastScanResult := LastScanResult s;
     LastHandledReconcileRequest := LastHandledReconcileRequest s |}.
Definition with_CanonicalImageName (s : ImageRepositoryStatus) (c : string) :=
  {| Conditions := Conditions s; CanonicalImageName := c;
     LastScanResult := LastScanResult s;
     LastHandledReconcileRequest := LastHandledReconcileRequest s |}.
Definition with_LastScanResult (s : ImageRepositoryStatus) (r : option ScanResult) :=
  {| Conditions := Conditions s; CanonicalImageName := CanonicalImageName s;
     LastScanResult := r;
     LastHandledReconcileRequest := LastHandledReconcileRequest s |}.
Definition SetLastHandledReconcileRequest (s : ImageRepositoryStatus) (token : string) :=
  {| Conditions := Conditions s; CanonicalImageName := CanonicalImageName s;
     LastScanResult := LastScanResult s;
     LastHandledReconcileRequest := token |}.

Definition with_ExclusionList (s : ImageRepositorySpec) (l : list string) :=
  {| Image := Image s; Interval := Interval s; SecretRef := SecretRef s;
     ServiceAccountName := ServiceAccountName s;
     CertSecretRef := CertSecretRef s; Suspend := Suspend s;
     ExclusionList := l |}.

(** The readiness condition among the conditions of a status. *)
Definition FindStatusCondition (cs : list metav1.Condition) (ty : string)
  : option metav1.Condition :=
  List.find (λ c, bool_decide (metav1.Type_ c = ty)) cs.

Fixpoint SetStatusCondition (cs : list metav1.Condition) (new : metav1.Condition)
  : list metav1.Condition :=
  match cs with
  | [] => [new]
  | c :: cs' =>
      if bool_decide (metav1.Type_ c = metav1.Type_ new) then new :: cs'
      else c :: SetStatusCondition cs' new
  end.

(** Modelled from the spec: SetImageRepositoryReadiness is declared in
    [api/v1beta1], which is not among the sources.  It records the
    readiness state with its reason and message in [status.conditions]
    and leaves the other status fields as they are. *)
Definition SetImageRepositoryReadiness (ir : ImageRepository)
    (status : metav1.ConditionStatus) (reason : metav1.ConditionReason)
    (message : string) : ImageRepository :=
  with_Status ir
    (with_Conditions (Status ir)
       (SetStatusCondition (Conditions (Status ir))
          {| metav1.Type_ := ReadyCondition; metav1.Status := status;
             metav1.Reason := reason; metav1.Message := message |})).

End imagev1.

(** ** Interfaces of the controller's collaborators *)

Module corev1.

Record Secret := {
  Name : string;
  Namespace : string;
  Type_ : string;
  Data : gmap string bytes }.

Record ServiceAccount := {
  ImagePullSecrets : list imagev1.LocalObjectReference }.

End corev1.

(** The types of the imported packages whose values the controller only
    hands on: [name.Reference], [name.Repository], [*url.URL],
    [*regexp.Regexp], [tls.Certificate], [*x509.CertPool],
    [authn.AuthConfig], [authn.Authenticator], [authn.Keychain] and
    [login.ProviderOptions]. *)
Class Imported := {
  Reference : Type;
  Repository : Type;
  URL : Type;
  Regexp : Type;
  Certificate : Type;
  CertPool : Type;
  AuthConfig : Type;
  Authenticator : Type;
  Keychain : Type;
  ProviderOptions : Type }.

Module tls.
Section config.
Context `{Imported}.

(** The fields of [tls.Config] that the controller sets. *)
Record Config := {
  Certificates : list Certificate;
  RootCAs : option CertPool }.

End config.
End tls.

Module http.
Section transport.
Context `{Imported}.

Record Transport := { TLSClientConfig : tls.Config }.

End transport.
End http.

Module remote.
Section options.
Context `{Imported}.

(** [remote.Option], by the function that makes it. *)
Inductive Option :=
| WithAuth (auth : Authenticator)
| WithTransport (tr : http.Transport)
| WithAuthFromKeychain (keychain : Keychain)
| WithContext.

End options.
End remote.

Section docker.
Context `{Imported}.

(** [dockerConfig] (lines 88-90); [Auths] lists the entries of the map in
    the order in which a [range] statement visits them. *)
Record dockerConfig := { Auths : list (string * AuthConfig) }.

End docker.

(** The functions of the imported packages, by package:
    go-containerregistry's [name] and [authn], [net/url], [regexp],
    [crypto/tls] and [crypto/x509], [encoding/json]. *)
Class Packages `{Imported} := {
  name_ParseReference : string → result Reference;
  Reference_Context : Reference → Repository;
  Repository_RegistryStr : Repository → string;
  Repository_String : Repository → string;
  authn_FromConfig : AuthConfig → Authenticator;
  url_Parse : string → result URL;
  URL_Host : URL → string;
  regexp_Compile : string → result Regexp;
  Regexp_MatchString : Regexp → string → bool;
  tls_X509KeyPair : bytes → bytes → result Certificate;
  CertPool_AppendCertsFromPEM : CertPool → bytes → CertPool;
  json_Decode : bytes → result dockerConfig;
  strconv_isPrintTables : Z → bool }.

(** ** Quoted texts

  The verb [%q] of [fmt] prints a string as [strconv.Quote] does: as a
  string literal of Go, with the escapes of the language.  The packages
  [unicode/utf8] and [strconv] are followed function by function; the
  tables of [strconv] for the runes above Latin-1 ([isPrint16],
  [isNotPrint16], [isPrint32], [isNotPrint32]) are the field
  [strconv_isPrintTables] of [Packages]. *)

Module utf8.

Definition RuneError : Z := 0xFFFD.
Definition RuneSelf : Z := 0x80.
Definition MaxRune : Z := 0x10FFFF.
Definition surrogateMin : Z := 0xD800.
Definition surrogateMax : Z := 0xDFFF.

Definition t2 : Z := 0xC0.
Definition t3 : Z := 0xE0.
Definition t4 : Z := 0xF0.
Definition tx : Z := 0x80.
Definition maskx : Z := 0x3F.
Definition mask2 : Z := 0x1F.
Definition mask3 : Z := 0x0F.
Definition mask4 : Z := 0x07.
Definition rune1Max : Z := 0x7F.
Definition rune2Max : Z := 0x7FF.
Definition rune3Max : Z := 0xFFFF.
Definition locb : Z := 0x80.
Definition hicb : Z := 0xBF.

(** A byte of a string as a number, and [byte(x)] of a number. *)
Definition code (c : ascii) : Z := Z.of_N (N_of_ascii c).
Definition byte (x : Z) : ascii := ascii_of_N (Z.to_N (Z.land x 0xFF)).

(** [s[i]], where the caller has checked [i < len(s)]. *)
Definition index (s : string) (i : nat) : Z :=
  match String.get i s with
  | Some c => code c
  | None => 0%Z
  end.

(** The table [first] with [acceptRanges]: for a byte from [RuneSelf] up,
    the length of the sequence that it starts and the range in which the
    second byte has to be; [None] is the entry [xx] of the bytes that
    start no sequence. *)
Definition first (s0 : Z) : option (nat * (Z * Z)) :=
  if (s0 <? 0xC2)%Z then None
  else if (s0 <=? 0xDF)%Z then Some (2%nat, (locb, hicb))
  else if (s0 =? 0xE0)%Z then Some (3%nat, (0xA0%Z, hicb))
  else if (s0 <=? 0xEC)%Z then Some (3%nat, (locb, hicb))
  else if (s0 =? 0xED)%Z then Some (3%nat, (locb, 0x9F%Z))
  else if (s0 <=? 0xEF)%Z then Some (3%nat, (locb, hicb))
  else if (s0 =? 0xF0)%Z then Some (4%nat, (0x90%Z, hicb))
  else if (s0 <=? 0xF3)%Z then Some (4%nat, (locb, hicb))
  else if (s0 =? 0xF4)%Z then Some (4%nat, (locb, 0x8F%Z))
  else None.

(** [utf8.DecodeRuneInString]: the first rune of [s] and its width in
    bytes; [(RuneError, 1)] for an encoding that is not valid. *)
Definition DecodeRuneInString (s : string) : Z * nat :=
  match s with
  | EmptyString => (RuneError, 0%nat)
  | String c0 _ =>
      let s0 := code c0 in
      if (s0 <? RuneSelf)%Z then (s0, 1%nat)
      else
        match first s0 with
        | None => (RuneError, 1%nat)
        | Some (sz, (lo, hi)) =>
            if (String.length s <? sz)%nat then (RuneError, 1%nat)
            else
              let s1 := index s 1 in
              if (s1 <? lo)%Z || (hi <? s1)%Z then (RuneError, 1%nat)
              else if (sz <=? 2)%nat
              then (Z.lor (Z.shiftl (Z.land s0 mask2) 6) (Z.land s1 maskx), 2%nat)
              else
                let s2 := index s 2 in
                if (s2 <? locb)%Z || (hicb <? s2)%Z then (RuneError, 1%nat)
                else if (sz <=? 3)%nat
                then (Z.lor (Z.lor (Z.shiftl (Z.land s0 mask3) 12)
                                   (Z.shiftl (Z.land s1 maskx) 6))
                            (Z.land s2 maskx), 3%nat)
                else
                  let s3 := index s 3 in
                  if (s3 <? locb)%Z || (hicb <? s3)%Z then (RuneError, 1%nat)
                  else (Z.lor (Z.lor (Z.lor (Z.shiftl (Z.land s0 mask4) 18)
                                            (Z.shiftl (Z.land s1 maskx) 12))
                                     (Z.shiftl (Z.land s2 maskx) 6))
                              (Z.land s3 maskx), 4%nat)
        end
  end.

(** [utf8.ValidRune]. *)
Definition ValidRune (r : Z) : bool :=
  ((0 <=? r)%Z && (r <? surrogateMin)%Z)
  || ((surrogateMax <? r)%Z && (r <=? MaxRune)%Z).

(** The bytes that [utf8.AppendRune] appends for the rune [r], an
    [int32]. *)
Definition AppendRune (r : Z) : string :=
  let i := (r mod 2 ^ 32)%Z in
  let three (r : Z) : string :=
    String (byte (Z.lor t3 (Z.land (Z.shiftr r 12) 0xFF)))
      (String (byte (Z.lor tx (Z.land (Z.land (Z.shiftr r 6) 0xFF) maskx)))
         (String (byte (Z.lor tx (Z.land (Z.land r 0xFF) maskx))) EmptyString)) in
  if (i <=? rune1Max)%Z then String (byte r) EmptyString
  else if (i <=? rune2Max)%Z
  then String (byte (Z.lor t2 (Z.land (Z.shiftr r 6) 0xFF)))
         (String (byte (Z.lor tx (Z.land (Z.land r 0xFF) maskx))) EmptyString)
  else if (MaxRune <? i)%Z || ((surrogateMin <=? i)%Z && (i <=? surrogateMax)%Z)
  then three RuneError
  else if (i <=? rune3Max)%Z then three r
  else
    String (byte (Z.lor t4 (Z.land (Z.shiftr r 18) 0xFF)))
      (String (byte (Z.lor tx (Z.land (Z.land (Z.shiftr r 12) 0xFF) maskx)))
         (String (byte (Z.lor tx (Z.land (Z.land (Z.shiftr r 6) 0xFF) maskx)))
            (String (byte (Z.lor tx (Z.land (Z.land r 0xFF) maskx))) EmptyString))).

End utf8.

Module strconv.
Section quote.
Context `{Imported} `{!Packages}.

Definition lowerhex (d : Z) : ascii :=
  nth (Z.to_nat d) (list_ascii_of_string "0123456789abcdef") "0"%char.

(** [strconv.IsPrint]: Latin-1 is decided on the spot, the other runes by
    the tables. *)
Definition IsPrint (r : Z) : bool :=
  if (r <=? 0xFF)%Z then
    if (0x20 <=? r)%Z && (r <=? 0x7E)%Z then true
    else if (0xA1 <=? r)%Z && (r <=? 0xFF)%Z then negb (r =? 0xAD)%Z
    else false
  else strconv_isPrintTables r.

(** The digits [lowerhex[r>>s&0xF]] for the shifts [s]. *)
Definition hex (r : Z) (shifts : list Z) : string :=
  string_of_list_ascii (map (λ s, lowerhex (Z.land (Z.shiftr r s) 0xF)) shifts).

(** What [appendEscapedRune] appends for the rune [r], with the double
    quote as the quote and neither [ASCIIonly] nor [graphicOnly]. *)
Definition appendEscapedRune (r : Z) : string :=
  if (r =? 34)%Z || (r =? 92)%Z
  then String "092"%char (String (utf8.byte r) EmptyString)
  else if IsPrint r then utf8.AppendRune r
  else if (r =? 7)%Z then "\a"
  else if (r =? 8)%Z then "\b"
  else if (r =? 12)%Z then "\f"
  else if (r =? 10)%Z then "\n"
  else if (r =? 13)%Z then "\r"
  else if (r =? 9)%Z then "\t"
  else if (r =? 11)%Z then "\v"
  else if (r <? 32)%Z || (r =? 0x7F)%Z
  then "\x" +:+ hex (Z.land r 0xFF) [4; 0]%Z
  else if negb (utf8.ValidRune r) then "\u" +:+ hex 0xFFFD [12; 8; 4; 0]%Z
  else if (r <? 0x10000)%Z then "\u" +:+ hex r [12; 8; 4; 0]%Z
  else "\U" +:+ hex r [28; 24; 20; 16; 12; 8; 4; 0]%Z.

(** The loop of [appendQuotedWith] over [s]; [width] counts the bytes of
    the rune in hand that are still to be passed over. *)
Fixpoint appendQuoted (width : nat) (s : string) : string :=
  match s with
  | EmptyString => EmptyString
  | String c rest =>
      match width with
      | S width => appendQuoted width rest
      | O =>
          let '(r, width) :=
            if (utf8.code c <? utf8.RuneSelf)%Z then (utf8.code c, 1%nat)
            else utf8.DecodeRuneInString s in
          (if (width =? 1)%nat && (r =? utf8.RuneError)%Z
           then "\x" +:+ hex (utf8.code c) [4; 0]%Z
           else appendEscapedRune r)
          +:+ appendQuoted (width - 1) rest
      end
  end.

(** [strconv.Quote], which is [%q] of a string. *)
Definition Quote (s : string) : string :=
  String "034"%char (appendQuoted 0 s +:+ String "034"%char EmptyString).

End quote.
End strconv.

(** What one pass reads from outside the process: the system's
    certificates, the objects of the cluster by namespace and name, the
    login of the cloud provider, and the registry.  The cluster is taken
    not to change while a pass runs. *)
Class Environment `{Imported} := {
  x509_SystemCertPool : result CertPool;
  Get_Secret : string → string → result corev1.Secret;
  Get_ServiceAccount : string → string → result corev1.ServiceAccount;
  login_Login : string → Reference → ProviderOptions → result (option Authenticator);
  k8schain_NewFromPullSecrets : list corev1.Secret → result Keychain;
  remote_List : Repository → list remote.Option → result (list string) }.

(** The answer of the API server to [r.Get] of the ImageRepository. *)
Inductive GetResult :=
| Found (obj : imagev1.ImageRepository)
| NotFound (err : error)
| GetFailed (err : error).

(** The API server as one pass sees it: the object under the request's
    name, and whether a write of the object, of its status, or through the
    patch helper is refused.  [MetricsRecorder] tells whether the
    reconciler has one, and [reference_GetReference] is then asked for the
    object's reference. *)
Class APIServer := {
  Get_ImageRepository : GetResult;
  Patch : imagev1.ImageRepository → option error;
  Update : imagev1.ImageRepository → option error;
  Status_Patch : imagev1.ImageRepository → option error;
  MetricsRecorder : bool;
  reference_GetReference : imagev1.ImageRepository → option error;
  patch_NewHelper : imagev1.ImageRepository → option error;
  Helper_Patch : imagev1.ImageRepository → option error }.

(** [DatabaseReader] and [DatabaseWriter], the field [Database] of the
    reconciler.  [DB] is the state of the store; a write returns the state
    the store is left in, together with the error if there was one. *)
Class Database (DB : Type) := {
  Tags : DB → string → result (list string);
  SetTags : DB → string → list string → DB * option error }.

(** [github.com/fluxcd/pkg/apis/meta]: the value of the annotation that
    requests a reconciliation, if it is set. *)
Class FluxMeta := {
  ReconcileAnnotationValue : gmap string string → option string }.

(** [ctrl.Result] *)
Module ctrl.

Record Result := {
  Requeue : bool;
  RequeueAfter : time.Duration }.

End ctrl.

(** [controllerutil]: finalizers are the strings of [metadata.finalizers]. *)
Module controllerutil.

Definition ContainsFinalizer (o : imagev1.ImageRepository) (finalizer : string) : bool :=
  bool_decide (finalizer ∈ metav1.Finalizers (imagev1.ObjectMeta o)).

Definition set_Finalizers (o : imagev1.ImageRepository) (f : list string)
  : imagev1.ImageRepository :=
  let m := imagev1.ObjectMeta o in
  imagev1.with_ObjectMeta o
    {| metav1.Name := metav1.Name m; metav1.Namespace := metav1.Namespace m;
       metav1.Annotations := metav1.Annotations m;
       metav1.Finalizers := f;
       metav1.DeletionTimestamp := metav1.DeletionTimestamp m |}.

Definition AddFinalizer (o : imagev1.ImageRepository) (finalizer : string)
  : imagev1.ImageRepository :=
  if ContainsFinalizer o finalizer then o
  else set_Finalizers o (metav1.Finalizers (imagev1.ObjectMeta o) ++ [finalizer]).

Definition RemoveFinalizer (o : imagev1.ImageRepository) (finalizer : string)
  : imagev1.ImageRepository :=
  set_Finalizers o
    (filter (λ f, f ≠ finalizer) (metav1.Finalizers (imagev1.ObjectMeta o))).

End controllerutil.

(** How a part of a function ends: it returns from the function, with the
    repository object as it then is and an error, or control goes on with
    the values computed so far. *)
Inductive step (A : Type) : Type :=
| Return (imageRepo : imagev1.ImageRepository) (err : error)
| Continue (a : A).
Arguments Return {A} imageRepo err.
Arguments Continue {A} a.

(** What one pass of [Reconcile] leaves behind: its two results, the
    object in memory when it returns (if it was fetched), the store, and
    the statuses and objects it submitted to the API server, oldest
    first. *)
Record Outcome (DB : Type) := {
  out_result : ctrl.Result;
  out_err : option error;
  out_imageRepo : option imagev1.ImageRepository;
  out_db : DB;
  out_patched : list imagev1.ImageRepositoryStatus }.
Arguments out_result {DB} o.
Arguments out_err {DB} o.
Arguments out_imageRepo {DB} o.
Arguments out_db {DB} o.
Arguments out_patched {DB} o.

(** ** First variant of the controller (lines 1-623) *)

Module V1.

(** lines 63-68 *)
Definition ClientCert : string := "certFile".
Definition ClientKey : string := "keyFile".
Definition CACert : string := "caFile".
Definition CosignObjectRegex : string := "^.*\.sig$".

Section controller.
Context `{Imported} `{!Packages} `{!Environment} `{!APIServer}.
Context {DB : Type} `{!Database DB} `{!FluxMeta}.

(** lines 213-229 *)
Definition parseImageReference (url : string) : result Reference :=
  let s := strings.Split url "://" in
  if (1 <? length s)%nat then
    Err (".spec.image value should not start with URL scheme; remove '"
         +:+ (s !!! 0%nat) +:+ "://'")
  else
    match name_ParseReference url with
    | Err err => Err err
    | Ok ref =>
        let imageName :=
          strings.TrimPrefix url (Repository_RegistryStr (Reference_Context ref)) in
        let s := strings.Split imageName ":" in
        if (1 <? length s)%nat then
          Err (".spec.image value should not contain a tag; remove ':"
               +:+ (s !!! 1%nat) +:+ "'")
        else Ok ref
    end.

(** lines 596-623 *)
Definition getURLHost (urlStr : string) : result string :=
  if String.eqb urlStr "http://" || String.eqb urlStr "https://" then
    Err "Empty url"
  else
    let urlStr :=
      if negb (strings.HasPrefix urlStr "http://")
         && negb (strings.HasPrefix urlStr "https://")
      then "https://" +:+ urlStr +:+ "/"
      else urlStr in
    match url_Parse urlStr with
    | Err err => Err err
    | Ok u =>
        if String.eqb (URL_Host u) "" then
          Err ("Invalid registry auth key: " +:+ urlStr
               +:+ ". Expected an HTTPS URL (e.g. 'https://index.docker.io/v2/' or 'https://index.docker.io'), or the same without the 'https://' (e.g., 'index.docker.io/v2/' or 'index.docker.io')")
        else Ok (URL_Host u)
    end.

(** lines 582-594; the loop, over the entries in the order of the range *)
Fixpoint parseAuthMap_range (auths : list (string * AuthConfig))
    (auth : gmap string AuthConfig) : result (gmap string AuthConfig) :=
  match auths with
  | [] => Ok auth
  | (url, entry) :: auths' =>
      match getURLHost url with
      | Err err => Err err
      | Ok host => parseAuthMap_range auths' (<[host := entry]> auth)
      end
  end.

Definition parseAuthMap (config : dockerConfig) : result (gmap string AuthConfig) :=
  parseAuthMap_range (Auths config) ∅.

(** lines 497-519 *)
Definition authFromSecret (secret : corev1.Secret) (ref : Reference)
  : result Authenticator :=
  if String.eqb (corev1.Type_ secret) "kubernetes.io/dockerconfigjson" then
    let configData := default [] (corev1.Data secret !! ".dockerconfigjson") in
    match json_Decode configData with
    | Err err => Err err
    | Ok dockerconfig =>
        match parseAuthMap dockerconfig with
        | Err err => Err err
        | Ok authMap =>
            let registry := Repository_RegistryStr (Reference_Context ref) in
            match authMap !! registry with
            | None =>
                Err ("auth for " +:+ strconv.Quote registry +:+ " not found in secret "
                     +:+ corev1.Namespace secret +:+ "/" +:+ corev1.Name secret)
            | Some auth => Ok (authn_FromConfig auth)
            end
        end
    end
  else Err ("unknown secret type " +:+ strconv.Quote (corev1.Type_ secret)).

(** lines 407-438 *)
Definition transportFromSecret (certSecret : corev1.Secret) : result http.Transport :=
  let tlsConfig := {| tls.Certificates := []; tls.RootCAs := None |} in
  let withCert : result tls.Config :=
    match corev1.Data certSecret !! ClientCert with
    | Some clientCert =>
        match corev1.Data certSecret !! ClientKey with
        | Some clientKey =>
            match tls_X509KeyPair clientCert clientKey with
            | Err err => Err err
            | Ok cert =>
                Ok {| tls.Certificates := tls.Certificates tlsConfig ++ [cert];
                      tls.RootCAs := tls.RootCAs tlsConfig |}
            end
        | None => Err "client certificate found, but no key"
        end
    | None => Ok tlsConfig
    end in
  match withCert with
  | Err err => Err err
  | Ok tlsConfig =>
      match corev1.Data certSecret !! CACert with
      | Some caCert =>
          match x509_SystemCertPool with
          | Err err => Err err
          | Ok syscerts =>
              Ok {| http.TLSClientConfig :=
                     {| tls.Certificates := tls.Certificates tlsConfig;
                        tls.RootCAs := Some (CertPool_AppendCertsFromPEM syscerts caCert) |} |}
          end
      | None => Ok {| http.TLSClientConfig := tlsConfig |}
      end
  end.

(** lines 443-482 *)
Definition shouldScan (db : DB) (repo : imagev1.ImageRepository) (now : time.Time)
  : bool * time.Duration * option error :=
  let scanInterval := imagev1.Interval (imagev1.Spec repo) in
  match imagev1.LastScanResult (imagev1.Status repo) with
  | None => (true, scanInterval, None)
  | Some lastScanResult =>
      let lastScanTime := imagev1.ScanTime lastScanResult in
      let tweaked :=
        match ReconcileAnnotationValue (imagev1.GetAnnotations repo) with
        | Some syncAt =>
            negb (String.eqb syncAt
                    (imagev1.GetLastHandledReconcileRequest (imagev1.Status repo)))
        | None => false
        end in
      if tweaked then (true, scanInterval, None)
      else
        match Tags db (imagev1.CanonicalImageName (imagev1.Status repo)) with
        | Err err => (false, scanInterval, Some err)
        | Ok tags =>
            if (length tags =? 0)%nat then (true, scanInterval, None)
            else
              let when := time.sub scanInterval (time.Sub now lastScanTime) in
              if (when <? time.Second)%Z then (true, scanInterval, None)
              else (false, when, None)
        end
  end.

(** [scan], lines 319-336: the secrets that a service account names are
    read in order, up to the first that cannot be read. *)
Fixpoint getPullSecrets (namespace : string)
    (ips : list imagev1.LocalObjectReference) : result (list corev1.Secret) :=
  match ips with
  | [] => Ok []
  | r :: ips' =>
      match Get_Secret namespace (imagev1.RefName r) with
      | Err err => Err err
      | Ok saAuthSecret =>
          match getPullSecrets namespace ips' with
          | Err err => Err err
          | Ok secrets => Ok (saAuthSecret :: secrets)
          end
      end
  end.

Definition notReady (imageRepo : imagev1.ImageRepository) (err : error)
  : imagev1.ImageRepository :=
  imagev1.SetImageRepositoryReadiness imageRepo
    metav1.ConditionFalse metav1.ReconciliationFailedReason err.

(** [scan], lines 236-270: the authentication strategy.  Gives the
    options and the secret that was read for them. *)
Definition scanAuth (imageRepo : imagev1.ImageRepository) (ref : Reference)
    (providerOptions : ProviderOptions)
  : step (list remote.Option * corev1.Secret) :=
  let options : list remote.Option := [] in
  let authSecret : corev1.Secret :=
    {| corev1.Name := ""; corev1.Namespace := ""; corev1.Type_ := "";
       corev1.Data := ∅ |} in
  match imagev1.SecretRef (imagev1.Spec imageRepo) with
  | Some secretRef =>
      match Get_Secret (imagev1.GetNamespace imageRepo) (imagev1.RefName secretRef) with
      | Err err => Return (notReady imageRepo err) err
      | Ok authSecret =>
          match authFromSecret authSecret ref with
          | Err authErr => Return (notReady imageRepo authErr) authErr
          | Ok auth => Continue (options ++ [remote.WithAuth auth], authSecret)
          end
      end
  | None =>
      match login_Login (imagev1.Image (imagev1.Spec imageRepo)) ref providerOptions with
      | Err authErr => Return (notReady imageRepo authErr) authErr
      | Ok (Some auth) => Continue (options ++ [remote.WithAuth auth], authSecret)
      | Ok None => Continue (options, authSecret)
      end
  end.

(** [scan], lines 272-297: the certificate. *)
Definition scanCert (imageRepo : imagev1.ImageRepository)
    (options : list remote.Option) (authSecret : corev1.Secret)
  : step (list remote.Option) :=
  match imagev1.CertSecretRef (imagev1.Spec imageRepo) with
  | Some certSecretRef =>
      let fetched :=
        if match imagev1.SecretRef (imagev1.Spec imageRepo) with
           | Some secretRef =>
               String.eqb (imagev1.RefName secretRef) (imagev1.RefName certSecretRef)
           | None => false
           end
        then Ok authSecret
        else Get_Secret (imagev1.GetNamespace imageRepo) (imagev1.RefName certSecretRef) in
      match fetched with
      | Err err => Return (notReady imageRepo err) err
      | Ok certSecret =>
          match transportFromSecret certSecret with
          | Err err => Return imageRepo err
          | Ok tr => Continue (options ++ [remote.WithTransport tr])
          end
      end
  | None => Continue options
  end.

(** [scan], lines 299-345: the pull secrets of the service account. *)
Definition scanServiceAccount (imageRepo : imagev1.ImageRepository)
    (options : list remote.Option) : step (list remote.Option) :=
  if negb (String.eqb (imagev1.ServiceAccountName (imagev1.Spec imageRepo)) "") then
    match Get_ServiceAccount (imagev1.GetNamespace imageRepo)
            (imagev1.ServiceAccountName (imagev1.Spec imageRepo)) with
    | Err err => Return (notReady imageRepo err) err
    | Ok serviceAccount =>
        if (0 <? length (corev1.ImagePullSecrets serviceAccount))%nat then
          match getPullSecrets (imagev1.GetNamespace imageRepo)
                  (corev1.ImagePullSecrets serviceAccount) with
          | Err err => Return (notReady imageRepo err) err
          | Ok imagePullSecrets =>
              match k8schain_NewFromPullSecrets imagePullSecrets with
              | Err err => Return imageRepo err
              | Ok keychain => Continue (options ++ [remote.WithAuthFromKeychain keychain])
              end
          end
        else Continue options
    end
  else Continue options.

(** [scan], lines 236-347: the options with which the registry is asked. *)
Definition scanOptions (imageRepo : imagev1.ImageRepository) (ref : Reference)
    (providerOptions : ProviderOptions) : step (list remote.Option) :=
  match scanAuth imageRepo ref providerOptions with
  | Return imageRepo err => Return imageRepo err
  | Continue (options, authSecret) =>
      match scanCert imageRepo options authSecret with
      | Return imageRepo err => Return imageRepo err
      | Continue options =>
          match scanServiceAccount imageRepo options with
          | Return imageRepo err => Return imageRepo err
          | Continue options => Continue (options ++ [remote.WithContext])
          end
      end
  end.

(** [scan], lines 366-377: the loops over the patterns and over the tags. *)
Fixpoint filterTags (exclusionList : list string) (tags : list string)
    (filteredTags : list string) : result (list string) :=
  match exclusionList with
  | [] => Ok filteredTags
  | regex :: exclusionList' =>
      match regexp_Compile regex with
      | Err err => Err ("failed to compile regex " +:+ regex +:+ ": " +:+ err)
      | Ok r =>
          filterTags exclusionList' tags
            (fold_left
               (λ filteredTags tag,
                  if negb (Regexp_MatchString r tag) then filteredTags ++ [tag]
                  else filteredTags)
               tags filteredTags)
      end
  end.

(** lines 231-405; [scanTime] is what [metav1.Now()] gives at line 384. *)
Definition scan (db : DB) (scanTime : time.Time) (providerOptions : ProviderOptions)
    (imageRepo : imagev1.ImageRepository) (ref : Reference)
  : imagev1.ImageRepository * DB * option error :=
  match scanOptions imageRepo ref providerOptions with
  | Return imageRepo err => (imageRepo, db, Some err)
  | Continue options =>
      match remote_List (Reference_Context ref) options with
      | Err err => (notReady imageRepo err, db, Some err)
      | Ok tags =>
          let imageRepo :=
            if (length (imagev1.ExclusionList (imagev1.Spec imageRepo)) =? 0)%nat then
              imagev1.with_Spec imageRepo
                (imagev1.with_ExclusionList (imagev1.Spec imageRepo)
                   (imagev1.ExclusionList (imagev1.Spec imageRepo) ++ [CosignObjectRegex]))
            else imageRepo in
          match filterTags (imagev1.ExclusionList (imagev1.Spec imageRepo)) tags [] with
          | Err err => (imageRepo, db, Some err)
          | Ok filteredTags =>
              let canonicalName := Repository_String (Reference_Context ref) in
              match SetTags db canonicalName filteredTags with
              | (db, Some err) =>
                  (imageRepo, db,
                   Some ("failed to set tags for " +:+ strconv.Quote canonicalName +:+ ": " +:+ err))
              | (db, None) =>
                  let imageRepo :=
                    imagev1.with_Status imageRepo
                      (imagev1.with_LastScanResult (imagev1.Status imageRepo)
                         (Some {| imagev1.TagCount := Z.of_nat (length filteredTags);
                                  imagev1.ScanTime := scanTime |})) in
                  let imageRepo :=
                    match ReconcileAnnotationValue (imagev1.GetAnnotations imageRepo) with
                    | Some token =>
                        imagev1.with_Status imageRepo
                          (imagev1.SetLastHandledReconcileRequest
                             (imagev1.Status imageRepo) token)
                    | None => imageRepo
                    end in
                  (imagev1.SetImageRepositoryReadiness imageRepo
                     metav1.ConditionTrue metav1.ReconciliationSucceededReason
                     ("successful scan, found " +:+ itoa (length filteredTags) +:+ " tags"),
                   db, None)
              end
          end
      end
  end.

(** lines 569-580 *)
Definition patchStatus (newStatus : imagev1.ImageRepositoryStatus) : option error :=
  match Get_ImageRepository with
  | Found res => Status_Patch (imagev1.with_Status res newStatus)
  | NotFound err => Some err
  | GetFailed err => Some err
  end.

(** lines 97-211.  [reconcileStart] is what [time.Now()] gives at line 98.
    Events and metrics are sinks and are left out; what is kept of the
    metrics is the return at line 156. *)
Definition Reconcile (db : DB) (reconcileStart scanTime : time.Time)
    (providerOptions : ProviderOptions) : Outcome DB :=
  let result (requeue : bool) (after : time.Duration) :=
    {| ctrl.Requeue := requeue; ctrl.RequeueAfter := after |} in
  let done res err imageRepo db patched :=
    {| out_result := res; out_err := err; out_imageRepo := imageRepo;
       out_db := db; out_patched := patched |} in
  match Get_ImageRepository with
  | NotFound _ => done (result false 0%Z) None None db []
  | GetFailed err => done (result false 0%Z) (Some err) None db []
  | Found imageRepo =>
  (* lines 114-122 *)
  let registered : step imagev1.ImageRepository :=
    if negb (controllerutil.ContainsFinalizer imageRepo imagev1.ImageRepositoryFinalizer) then
      let imageRepo :=
        controllerutil.AddFinalizer imageRepo imagev1.ImageRepositoryFinalizer in
      match Patch imageRepo with
      | Some err => Return imageRepo err
      | None => Continue imageRepo
      end
    else Continue imageRepo in
  match registered with
  | Return imageRepo err => done (result false 0%Z) (Some err) (Some imageRepo) db []
  | Continue imageRepo =>
  (* lines 124-132 *)
  if bool_decide (metav1.DeletionTimestamp (imagev1.ObjectMeta imageRepo) ≠ None) then
    let imageRepo :=
      controllerutil.RemoveFinalizer imageRepo imagev1.ImageRepositoryFinalizer in
    match Update imageRepo with
    | Some err => done (result false 0%Z) (Some err) (Some imageRepo) db []
    | None => done (result false 0%Z) None (Some imageRepo) db []
    end
  (* lines 134-148 *)
  else if imagev1.Suspend (imagev1.Spec imageRepo) then
    let msg := "ImageRepository is suspended, skipping reconciliation" in
    let imageRepo :=
      imagev1.SetImageRepositoryReadiness imageRepo
        metav1.ConditionFalse metav1.SuspendedReason msg in
    match patchStatus (imagev1.Status imageRepo) with
    | Some err =>
        done (result true 0%Z) (Some err) (Some imageRepo) db [imagev1.Status imageRepo]
    | None =>
        done (result false 0%Z) None (Some imageRepo) db [imagev1.Status imageRepo]
    end
  else
  (* lines 150-159 *)
  match (if MetricsRecorder then reference_GetReference imageRepo else None) with
  | Some err => done (result false 0%Z) (Some err) (Some imageRepo) db []
  | None =>
  (* lines 161-175 *)
  match parseImageReference (imagev1.Image (imagev1.Spec imageRepo)) with
  | Err err =>
      let imageRepo :=
        imagev1.SetImageRepositoryReadiness imageRepo
          metav1.ConditionFalse metav1.ImageURLInvalidReason err in
      match patchStatus (imagev1.Status imageRepo) with
      | Some err =>
          done (result true 0%Z) (Some err) (Some imageRepo) db [imagev1.Status imageRepo]
      | None =>
          done (result true 0%Z)
            (Some ("Unable to parse image name: "
                   +:+ imagev1.Image (imagev1.Spec imageRepo) +:+ ": " +:+ err))
            (Some imageRepo) db [imagev1.Status imageRepo]
      end
  | Ok ref =>
  (* lines 177-183 *)
  let c := Repository_String (Reference_Context ref) in
  let named : step (imagev1.ImageRepository * list imagev1.ImageRepositoryStatus) :=
    if negb (String.eqb (imagev1.CanonicalImageName (imagev1.Status imageRepo)) c) then
      let imageRepo :=
        imagev1.with_Status imageRepo
          (imagev1.with_CanonicalImageName (imagev1.Status imageRepo) c) in
      match patchStatus (imagev1.Status imageRepo) with
      | Some err => Return imageRepo err
      | None => Continue (imageRepo, [imagev1.Status imageRepo])
      end
    else Continue (imageRepo, []) in
  match named with
  | Return imageRepo err =>
      done (result true 0%Z) (Some err) (Some imageRepo) db [imagev1.Status imageRepo]
  | Continue (imageRepo, patched) =>
  (* lines 185-210 *)
  match shouldScan db imageRepo reconcileStart with
  | (_, _, Some err) => done (result true 0%Z) (Some err) (Some imageRepo) db patched
  | (ok, when, None) =>
      if ok then
        let '(imageRepo, db, reconcileErr) :=
          scan db scanTime providerOptions imageRepo ref in
        let patched := patched ++ [imagev1.Status imageRepo] in
        match patchStatus (imagev1.Status imageRepo) with
        | Some err => done (result true 0%Z) (Some err) (Some imageRepo) db patched
        | None =>
            match reconcileErr with
            | Some reconcileErr =>
                done (result true 0%Z) (Some reconcileErr) (Some imageRepo) db patched
            | None => done (result false when) None (Some imageRepo) db patched
            end
        end
      else done (result false when) None (Some imageRepo) db patched
  end end end end end end.

End controller.
End V1.

(** [github.com/fluxcd/pkg/runtime/conditions], used by the second
    variant: the condition of the given type is set on the object. *)
Module conditions.

Definition Set_ (o : imagev1.ImageRepository) (c : metav1.Condition)
  : imagev1.ImageRepository :=
  imagev1.with_Status o
    (imagev1.with_Conditions (imagev1.Status o)
       (imagev1.SetStatusCondition (imagev1.Conditions (imagev1.Status o)) c)).

Definition MarkFalse (o : imagev1.ImageRepository) (t : string)
    (reason : metav1.ConditionReason) (message : string) : imagev1.ImageRepository :=
  Set_ o {| metav1.Type_ := t; metav1.Status := metav1.ConditionFalse;
            metav1.Reason := reason; metav1.Message := message |}.

Definition MarkTrue (o : imagev1.ImageRepository) (t : string)
    (reason : metav1.ConditionReason) (message : string) : imagev1.ImageRepository :=
  Set_ o {| metav1.Type_ := t; metav1.Status := metav1.ConditionTrue;
            metav1.Reason := reason; metav1.Message := message |}.

End conditions.

(** [kerrors.NewAggregate] of the error of the pass and the error of the
    patch: an absent error is dropped, one error stands for itself, equal
    messages are given once. *)
Definition kerrors_NewAggregate (retErr : option error) (err : error) : error :=
  match retErr with
  | None => err
  | Some e => if String.eqb e err then e else "[" +:+ e +:+ ", " +:+ err +:+ "]"
  end.

(** ** Second variant of the controller (lines 624-1052) *)

Module V2.

(** lines 684-688 *)
Definition ClientCert : string := "certFile".
Definition ClientKey : string := "keyFile".
Definition CACert : string := "caFile".

Section controller.
Context `{Imported} `{!Packages} `{!Environment} `{!APIServer}.
Context {DB : Type} `{!Database DB} `{!FluxMeta}.

(** lines 1025-1052 *)
Definition getURLHost (urlStr : string) : result string :=
  if String.eqb urlStr "http://" || String.eqb urlStr "https://" then
    Err "Empty url"
  else
    let urlStr :=
      if negb (strings.HasPrefix urlStr "http://")
         && negb (strings.HasPrefix urlStr "https://")
      then "https://" +:+ urlStr +:+ "/"
      else urlStr in
    match url_Parse urlStr with
    | Err err => Err err
    | Ok u =>
        if String.eqb (URL_Host u) "" then
          Err ("Invalid registry auth key: " +:+ urlStr
               +:+ ". Expected an HTTPS URL (e.g. 'https://index.docker.io/v2/' or 'https://index.docker.io'), or the same without the 'https://' (e.g., 'index.docker.io/v2/' or 'index.docker.io')")
        else Ok (URL_Host u)
    end.

(** lines 1011-1023 *)
Fixpoint parseAuthMap_range (auths : list (string * AuthConfig))
    (auth : gmap string AuthConfig) : result (gmap string AuthConfig) :=
  match auths with
  | [] => Ok auth
  | (url, entry) :: auths' =>
      match getURLHost url with
      | Err err => Err err
      | Ok host => parseAuthMap_range auths' (<[host := entry]> auth)
      end
  end.

Definition parseAuthMap (config : dockerConfig) : result (gmap string AuthConfig) :=
  parseAuthMap_range (Auths config) ∅.

(** lines 987-1009 *)
Definition authFromSecret (secret : corev1.Secret) (ref : Reference)
  : result Authenticator :=
  if String.eqb (corev1.Type_ secret) "kubernetes.io/dockerconfigjson" then
    let configData := default [] (corev1.Data secret !! ".dockerconfigjson") in
    match json_Decode configData with
    | Err err => Err err
    | Ok dockerconfig =>
        match parseAuthMap dockerconfig with
        | Err err => Err err
        | Ok authMap =>
            let registry := Repository_RegistryStr (Reference_Context ref) in
            match authMap !! registry with
            | None =>
                Err ("auth for " +:+ strconv.Quote registry +:+ " not found in secret "
                     +:+ corev1.Namespace secret +:+ "/" +:+ corev1.Name secret)
            | Some auth => Ok (authn_FromConfig auth)
            end
        end
    end
  else Err ("unknown secret type " +:+ strconv.Quote (corev1.Type_ secret)).

(** lines 897-928 *)
Definition transportFromSecret (certSecret : corev1.Secret) : result http.Transport :=
  let tlsConfig := {| tls.Certificates := []; tls.RootCAs := None |} in
  let withCert : result tls.Config :=
    match corev1.Data certSecret !! ClientCert with
    | Some clientCert =>
        match corev1.Data certSecret !! ClientKey with
        | Some clientKey =>
            match tls_X509KeyPair clientCert clientKey with
            | Err err => Err err
            | Ok cert =>
                Ok {| tls.Certificates := tls.Certificates tlsConfig ++ [cert];
                      tls.RootCAs := tls.RootCAs tlsConfig |}
            end
        | None => Err "client certificate found, but no key"
        end
    | None => Ok tlsConfig
    end in
  match withCert with
  | Err err => Err err
  | Ok tlsConfig =>
      match corev1.Data certSecret !! CACert with
      | Some caCert =>
          match x509_SystemCertPool with
          | Err err => Err err
          | Ok syscerts =>
              Ok {| http.TLSClientConfig :=
                     {| tls.Certificates := tls.Certificates tlsConfig;
                        tls.RootCAs := Some (CertPool_AppendCertsFromPEM syscerts caCert) |} |}
          end
      | None => Ok {| http.TLSClientConfig := tlsConfig |}
      end
  end.

(** lines 933-972 *)
Definition shouldScan (db : DB) (repo : imagev1.ImageRepository) (now : time.Time)
  : bool * time.Duration * option error :=
  let scanInterval := imagev1.Interval (imagev1.Spec repo) in
  match imagev1.LastScanResult (imagev1.Status repo) with
  | None => (true, scanInterval, None)
  | Some lastScanResult =>
      let lastScanTime := imagev1.ScanTime lastScanResult in
      let tweaked :=
        match ReconcileAnnotationValue (imagev1.GetAnnotations repo) with
        | Some syncAt =>
            negb (String.eqb syncAt
                    (imagev1.GetLastHandledReconcileRequest (imagev1.Status repo)))
        | None => false
        end in
      if tweaked then (true, scanInterval, None)
      else
        match Tags db (imagev1.CanonicalImageName (imagev1.Status repo)) with
        | Err err => (false, scanInterval, Some err)
        | Ok tags =>
            if (length tags =? 0)%nat then (true, scanInterval, None)
            else
              let when := time.sub scanInterval (time.Sub now lastScanTime) in
              if (when <? time.Second)%Z then (true, scanInterval, None)
              else (false, when, None)
        end
  end.

Definition notReady (imageRepo : imagev1.ImageRepository) (err : error)
  : imagev1.ImageRepository :=
  conditions.MarkFalse imageRepo imagev1.ReadyCondition metav1.FailedReason err.

(** [remote.ListWithContext(ctx, repo, options...)] is
    [remote.List(repo, append(options, WithContext(ctx))...)]. *)
Definition remote_ListWithContext (repo : Repository) (options : list remote.Option)
  : result (list string) :=
  remote_List repo (options ++ [remote.WithContext]).

(** [scan], lines 811-863: the options with which the registry is asked. *)
Definition scanOptions (imageRepo : imagev1.ImageRepository) (ref : Reference)
  : step (list remote.Option) :=
  let options : list remote.Option := [] in
  let authSecret : corev1.Secret :=
    {| corev1.Name := ""; corev1.Namespace := ""; corev1.Type_ := "";
       corev1.Data := ∅ |} in
  let withAuth : step (list remote.Option * corev1.Secret) :=
    match imagev1.SecretRef (imagev1.Spec imageRepo) with
    | Some secretRef =>
        match Get_Secret (imagev1.GetNamespace imageRepo) (imagev1.RefName secretRef) with
        | Err err => Return (notReady imageRepo err) err
        | Ok authSecret =>
            match authFromSecret authSecret ref with
            | Err err => Return (notReady imageRepo err) err
            | Ok auth => Continue (options ++ [remote.WithAuth auth], authSecret)
            end
        end
    | None => Continue (options, authSecret)
    end in
  match withAuth with
  | Return imageRepo err => Return imageRepo err
  | Continue (options, authSecret) =>
      match imagev1.CertSecretRef (imagev1.Spec imageRepo) with
      | Some certSecretRef =>
          let fetched :=
            if match imagev1.SecretRef (imagev1.Spec imageRepo) with
               | Some secretRef =>
                   String.eqb (imagev1.RefName secretRef) (imagev1.RefName certSecretRef)
               | None => false
               end
            then Ok authSecret
            else Get_Secret (imagev1.GetNamespace imageRepo)
                   (imagev1.RefName certSecretRef) in
          match fetched with
          | Err err => Return (notReady imageRepo err) err
          | Ok certSecret =>
              match transportFromSecret certSecret with
              | Err err => Return imageRepo err
              | Ok tr => Continue (options ++ [remote.WithTransport tr])
              end
          end
      | None => Continue options
      end
  end.

(** lines 806-895; [scanTime] is what [metav1.Now()] gives at line 881. *)
Definition scan (db : DB) (scanTime : time.Time)
    (imageRepo : imagev1.ImageRepository) (ref : Reference)
  : imagev1.ImageRepository * DB * option error :=
  match scanOptions imageRepo ref with
  | Return imageRepo err => (imageRepo, db, Some err)
  | Continue options =>
      match remote_ListWithContext (Reference_Context ref) options with
      | Err err => (notReady imageRepo err, db, Some err)
      | Ok tags =>
          let canonicalName := Repository_String (Reference_Context ref) in
          match SetTags db canonicalName tags with
          | (db, Some err) =>
              (imageRepo, db,
               Some ("failed to set tags for " +:+ strconv.Quote canonicalName +:+ ": " +:+ err))
          | (db, None) =>
              let imageRepo :=
                imagev1.with_Status imageRepo
                  (imagev1.with_LastScanResult (imagev1.Status imageRepo)
                     (Some {| imagev1.TagCount := Z.of_nat (length tags);
                              imagev1.ScanTime := scanTime |})) in
              (conditions.MarkTrue imageRepo imagev1.ReadyCondition metav1.SucceededReason
                 ("successful scan, found " +:+ itoa (length tags) +:+ " tags"),
               db, None)
          end
      end
  end.

(** lines 762-803: the pass between the registration of the deferred
    function and the return; gives the two results, the object and the
    store. *)
Definition reconcile (db : DB) (reconcileStart scanTime : time.Time)
    (imageRepo : imagev1.ImageRepository)
  : ctrl.Result * option error * imagev1.ImageRepository * DB :=
  let result (requeue : bool) (after : time.Duration) :=
    {| ctrl.Requeue := requeue; ctrl.RequeueAfter := after |} in
  match name_ParseReference (imagev1.Image (imagev1.Spec imageRepo)) with
  | Err err =>
      (result true 0%Z, Some err,
       conditions.MarkFalse imageRepo imagev1.ReadyCondition
         metav1.ImageURLInvalidReason err,
       db)
  | Ok ref =>
      let c := Repository_String (Reference_Context ref) in
      let imageRepo :=
        if negb (String.eqb (imagev1.CanonicalImageName (imagev1.Status imageRepo)) c) then
          imagev1.with_Status imageRepo
            (imagev1.with_CanonicalImageName (imagev1.Status imageRepo) c)
        else imageRepo in
      match shouldScan db imageRepo reconcileStart with
      | (_, _, Some err) => (result true 0%Z, Some err, imageRepo, db)
      | (ok, when, None) =>
          if ok then
            match scan db scanTime imageRepo ref with
            | (imageRepo, db, Some reconcileErr) =>
                (result true 0%Z, Some reconcileErr, imageRepo, db)
            | (imageRepo, db, None) => (result false when, None, imageRepo, db)
            end
          else (result false when, None, imageRepo, db)
      end
  end.

(** lines 721-804.  The deferred function of lines 743-760 runs on every
    return after its registration: it sets the token on the object, then
    submits the object through the patch helper.  Events and metrics are
    sinks and are left out. *)
Definition Reconcile (db : DB) (reconcileStart scanTime : time.Time) : Outcome DB :=
  let result (requeue : bool) (after : time.Duration) :=
    {| ctrl.Requeue := requeue; ctrl.RequeueAfter := after |} in
  match Get_ImageRepository with
  | NotFound _ =>
      {| out_result := result false 0%Z; out_err := None; out_imageRepo := None;
         out_db := db; out_patched := [] |}
  | GetFailed err =>
      {| out_result := result false 0%Z; out_err := Some err; out_imageRepo := None;
         out_db := db; out_patched := [] |}
  | Found imageRepo =>
      if imagev1.Suspend (imagev1.Spec imageRepo) then
        {| out_result := result false 0%Z; out_err := None;
           out_imageRepo := Some imageRepo; out_db := db; out_patched := [] |}
      else
        match patch_NewHelper imageRepo with
        | Some err =>
            {| out_result := result true 0%Z; out_err := Some err;
               out_imageRepo := Some imageRepo; out_db := db; out_patched := [] |}
        | None =>
            let '(res, retErr, imageRepo, db) :=
              reconcile db reconcileStart scanTime imageRepo in
            let imageRepo :=
              match ReconcileAnnotationValue (imagev1.GetAnnotations imageRepo) with
              | Some token =>
                  imagev1.with_Status imageRepo
                    (imagev1.SetLastHandledReconcileRequest (imagev1.Status imageRepo) token)
              | None => imageRepo
              end in
            let retErr :=
              match Helper_Patch imageRepo with
              | Some err => Some (kerrors_NewAggregate retErr err)
              | None => retErr
              end in
            {| out_result := res; out_err := retErr; out_imageRepo := Some imageRepo;
               out_db := db; out_patched := [imagev1.Status imageRepo] |}
        end
  end.

End controller.
End V2.

(** ** The helper of the tests ([controllers/suite_test.go])

    [math/rand] is a source of numbers with a state: [rand_Intn g n] is
    the number that [rand.Intn(n)] gives in the state [g], and the state
    after it. *)

Class Rand (G : Type) := {
  rand_Intn : G → nat → nat * G }.

Module suite_test.

(** line 122 *)
Definition letterRunes : list ascii :=
  list_ascii_of_string "abcdefghijklmnopqrstuvwxyz1234567890".

Section rand.
Context {G : Type} `{!Rand G}.

(** lines 125-128: the runes [b[0]], ..., [b[n-1]], drawn in this order;
    [None] is the panic of an index outside [letterRunes]. *)
Fixpoint randRunes (n : nat) (g : G) : option (list ascii) * G :=
  match n with
  | O => (Some [], g)
  | S n' =>
      let '(k, g) := rand_Intn g (length letterRunes) in
      match letterRunes !! k with
      | None => (None, g)
      | Some c =>
          let '(b, g) := randRunes n' g in
          (cons c <$> b, g)
      end
  end.

(** lines 124-130 *)
Definition randStringRunes (n : nat) (g : G) : option string * G :=
  let '(b, g) := randRunes n g in
  (string_of_list_ascii <$> b, g).

End rand.
End suite_test.

(** ** Executable instances of the interfaces

    A small reading of each imported package, enough to run the
    controller on concrete inputs: references with a tag but no digest,
    URLs of the form [scheme://host/path], patterns made of literal
    characters, [.], [\c] and [*] between an optional [^] and an optional
    [$].  The theorems about the controller do not depend on them. *)

Module Model.

Record Repository := {
  registry : string;
  repository : string }.

Record Tag := {
  tag_Repository : Repository;
  tag : string }.

Record URL := {
  Scheme : string;
  Host : string;
  Path : string }.

Inductive atom := AnyChar | Lit (c : ascii).

Record item := {
  item_atom : atom;
  item_star : bool }.

Record Regexp := {
  from_start : bool;
  items : list item;
  to_end : bool }.

Record AuthConfig := {
  Username : string;
  Password : string }.

Definition imported : Imported :=
  Build_Imported Tag Repository URL Regexp (bytes * bytes)%type (list bytes)
    AuthConfig AuthConfig (list corev1.Secret) unit.

(** *** package name *)

Definition DefaultRegistry : string := "index.docker.io".
Definition defaultRegistryAlias : string := "docker.io".
Definition defaultTag : string := "latest".

Fixpoint all_chars (ok : ascii → bool) (s : string) : bool :=
  match s with
  | EmptyString => true
  | String c s' => ok c && all_chars ok s'
  end.

Fixpoint has_char (c : ascii) (s : string) : bool :=
  match s with
  | EmptyString => false
  | String d s' => Ascii.eqb c d || has_char c s'
  end.

Definition repositoryChars : string := "abcdefghijklmnopqrstuvwxyz0123456789_-./".
Definition tagChars : string :=
  "abcdefghijklmnopqrstuvwxyzABCDEFGHIJKLMNOPQRSTUVWXYZ0123456789_-.".

Definition checkElement (what s allowed : string) (minLen maxLen : nat) : option error :=
  if negb (all_chars (λ c, has_char c allowed) s) then
    Some (what +:+ " can only contain the characters `" +:+ allowed +:+ "`: " +:+ s)
  else if ((String.length s <? minLen) || (maxLen <? String.length s))%nat then
    Some (what +:+ " must be between " +:+ itoa minLen +:+ " and " +:+ itoa maxLen
          +:+ " characters in length: " +:+ s)
  else None.

Definition NewRegistry (name : string) : string :=
  let name := if String.eqb name "" then DefaultRegistry else name in
  if String.eqb name defaultRegistryAlias then DefaultRegistry else name.

Definition NewRepository (name : string) : result Repository :=
  if String.eqb name "" then Err "a repository name must be specified"
  else
    let '(reg, repo) :=
      match strings.Cut name "/" with
      | Some (first, rest) =>
          if has_char "."%char first || has_char ":"%char first then (first, rest)
          else (EmptyString, name)
      | None => (EmptyString, name)
      end in
    match checkElement "repository" repo repositoryChars 2 255 with
    | Some err => Err err
    | None => Ok {| registry := NewRegistry reg; repository := repo |}
    end.

Fixpoint join (sep : string) (parts : list string) : string :=
  match parts with
  | [] => EmptyString
  | [p] => p
  | p :: parts' => p +:+ sep +:+ join sep parts'
  end.

Definition NewTag (name : string) : result Tag :=
  let parts := strings.Split name ":" in
  let last_part := List.last parts EmptyString in
  let '(base, tag) :=
    if (1 <? length parts)%nat && negb (has_char "/"%char last_part)
    then (join ":" (List.removelast parts), last_part)
    else (name, EmptyString) in
  match (if String.eqb tag "" then None else checkElement "tag" tag tagChars 1 128) with
  | Some err => Err err
  | None =>
      let tag := if String.eqb tag "" then defaultTag else tag in
      match NewRepository base with
      | Err err => Err err
      | Ok repo => Ok {| tag_Repository := repo; tag := tag |}
      end
  end.

Definition ParseReference (s : string) : result Tag :=
  match NewTag s with
  | Ok t => Ok t
  | Err _ => Err ("could not parse reference: " +:+ s)
  end.

Definition RepositoryStr (r : Repository) : string :=
  if String.eqb (registry r) DefaultRegistry && negb (has_char "/"%char (repository r))
  then "library/" +:+ repository r
  else repository r.

Definition Repository_String (r : Repository) : string :=
  registry r +:+ "/" +:+ RepositoryStr r.

(** *** package net/url *)

Fixpoint span_authority (s : string) : string * string :=
  match s with
  | EmptyString => (EmptyString, EmptyString)
  | String c s' =>
      if Ascii.eqb c "/" || Ascii.eqb c "?" || Ascii.eqb c "#" then (EmptyString, s)
      else let '(a, rest) := span_authority s' in (String c a, rest)
  end.

Definition url_Parse (rawURL : string) : result URL :=
  match strings.Cut rawURL "://" with
  | Some (scheme, rest) =>
      let '(authority, path) := span_authority rest in
      Ok {| Scheme := scheme; Host := authority; Path := path |}
  | None => Ok {| Scheme := EmptyString; Host := EmptyString; Path := rawURL |}
  end.

(** *** package regexp *)

Inductive token := TAtom (a : atom) | TStar | TDollar.

Definition is_meta (c : ascii) : bool := has_char c "()[]{}+?|^".

Fixpoint tokens (s : string) : result (list token) :=
  let cons (t : token) (r : result (list token)) :=
    match r with
    | Ok ts => Ok (t :: ts)
    | Err err => Err err
    end in
  match s with
  | EmptyString => Ok []
  | String "\" (String c rest) => cons (TAtom (Lit c)) (tokens rest)
  | String "\" EmptyString => Err "error parsing regexp: trailing backslash"
  | String "." rest => cons (TAtom AnyChar) (tokens rest)
  | String "*" rest => cons TStar (tokens rest)
  | String "$" rest => cons TDollar (tokens rest)
  | String c rest =>
      if is_meta c then Err "error parsing regexp" else cons (TAtom (Lit c)) (tokens rest)
  end.

Fixpoint to_items (ts : list token) : result (list item * bool) :=
  let cons (a : atom) (star : bool) (r : result (list item * bool)) :=
    match r with
    | Ok (its, e) => Ok ({| item_atom := a; item_star := star |} :: its, e)
    | Err err => Err err
    end in
  match ts with
  | [] => Ok ([], false)
  | [TDollar] => Ok ([], true)
  | TAtom a :: TStar :: ts' => cons a true (to_items ts')
  | TAtom a :: ts' => cons a false (to_items ts')
  | _ => Err "error parsing regexp"
  end.

Definition regexp_Compile (expr : string) : result Regexp :=
  let '(start, body) :=
    match expr with
    | String "^" body => (true, body)
    | _ => (false, expr)
    end in
  match tokens body with
  | Err err => Err err
  | Ok ts =>
      match to_items ts with
      | Err err => Err err
      | Ok (its, e) => Ok {| from_start := start; items := its; to_end := e |}
      end
  end.

Definition atom_matches (a : atom) (c : ascii) : bool :=
  match a with
  | AnyChar => negb (Ascii.eqb c "010")
  | Lit d => Ascii.eqb c d
  end.

(** Zero or more characters that [a] matches, then [k]. *)
Fixpoint match_star (k : string → bool) (a : atom) (s : string) : bool :=
  k s ||
  match s with
  | EmptyString => false
  | String c s' => atom_matches a c && match_star k a s'
  end.

Fixpoint match_here (its : list item) (e : bool) (s : string) : bool :=
  match its with
  | [] => if e then String.eqb s "" else true
  | it :: its' =>
      if item_star it then match_star (match_here its' e) (item_atom it) s
      else
        match s with
        | EmptyString => false
        | String c s' => atom_matches (item_atom it) c && match_here its' e s'
        end
  end.

Fixpoint match_anywhere (k : string → bool) (s : string) : bool :=
  k s ||
  match s with
  | EmptyString => false
  | String _ s' => match_anywhere k s'
  end.

Definition MatchString (re : Regexp) (s : string) : bool :=
  if from_start re then match_here (items re) (to_end re) s
  else match_anywhere (match_here (items re) (to_end re)) s.

(** *** packages crypto/tls, crypto/x509, encoding/json, authn *)

Definition X509KeyPair (certPEMBlock keyPEMBlock : bytes) : result (bytes * bytes) :=
  if (length certPEMBlock =? 0)%nat then
    Err "tls: failed to find any PEM data in certificate input"
  else if (length keyPEMBlock =? 0)%nat then
    Err "tls: failed to find any PEM data in key input"
  else Ok (certPEMBlock, keyPEMBlock).

Definition AppendCertsFromPEM (pool : list bytes) (pemCerts : bytes) : list bytes :=
  pool ++ [pemCerts].

(** No reading of JSON is modelled: a document that is not empty decodes
    to a configuration without entries. *)
Definition json_Decode (data : bytes) : result (@dockerConfig imported) :=
  if (length data =? 0)%nat then Err "EOF" else Ok {| Auths := [] |}.

(** The tables of printable runes, cut down to the first range of
    [isPrint16] above Latin-1, which ends at U+0377. *)
Definition isPrintTables (r : Z) : bool := (r <=? 0x377)%Z.

Definition packages : @Packages imported :=
  @Build_Packages imported
    ParseReference tag_Repository registry Repository_String (λ a, a)
    url_Parse Host regexp_Compile MatchString
    X509KeyPair AppendCertsFromPEM json_Decode isPrintTables.

(** *** the cluster, the registry, the API server, the store *)

(** A cluster that holds the given secrets and service accounts under
    their names, no login of a cloud provider, and a registry that answers
    every listing with [listing]. *)
Definition environment (secrets : gmap string corev1.Secret)
    (accounts : gmap string corev1.ServiceAccount)
    (listing : result (list string)) : @Environment imported :=
  @Build_Environment imported
    (Ok [])
    (λ namespace name,
       match secrets !! name with
       | Some s => Ok s
       | None => Err ("secrets " +:+ @strconv.Quote imported packages name +:+ " not found")
       end)
    (λ namespace name,
       match accounts !! name with
       | Some a => Ok a
       | None => Err ("serviceaccounts " +:+ @strconv.Quote imported packages name
                     +:+ " not found")
       end)
    (λ image ref opts, Ok None)
    (λ pullSecrets, Ok pullSecrets)
    (λ repo options, listing).

(** An API server that holds [obj] and accepts every write; the
    reconciler has no metrics recorder. *)
Definition apiserver (obj : imagev1.ImageRepository) : APIServer :=
  Build_APIServer (Found obj) (λ _, None) (λ _, None) (λ _, None)
    false (λ _, None) (λ _, None) (λ _, None).

(** Modelled from the spec: the store behind [Database] is not among the
    sources.  It maps a canonical name to its tags; a write replaces the
    entry, and a name without entry has no tags (section 6).  [writes]
    keeps the calls of SetTags, oldest first. *)
Record store := {
  entries : gmap string (list string);
  writes : list (string * list string) }.

Definition database : Database store :=
  {| Tags db name := Ok (default [] (entries db !! name));
     SetTags db name tags :=
       ({| entries := <[name := tags]> (entries db);
           writes := writes db ++ [(name, tags)] |}, None) |}.

(** A store that cannot be read or written. *)
Definition closed_database : Database store :=
  {| Tags db name := Err "DB Closed";
     SetTags db name tags := (db, Some "DB Closed") |}.

Definition ReconcileRequestAnnotation : string := "reconcile.fluxcd.io/requestedAt".

Definition fluxmeta : FluxMeta :=
  {| ReconcileAnnotationValue annotations := annotations !! ReconcileRequestAnnotation |}.

(** *** a repository object *)

Definition alpine (interval : time.Duration)
    (annotations : gmap string string)
    (lastScan : option imagev1.ScanResult) (lastHandled : string)
  : imagev1.ImageRepository :=
  {| imagev1.ObjectMeta :=
       {| metav1.Name := "alpine"; metav1.Namespace := "flux-system";
          metav1.Annotations := annotations;
          metav1.Finalizers := [imagev1.ImageRepositoryFinalizer];
          metav1.DeletionTimestamp := None |};
     imagev1.Spec :=
       {| imagev1.Image := "docker.io/library/alpine";
          imagev1.Interval := interval;
          imagev1.SecretRef := None;
          imagev1.ServiceAccountName := "";
          imagev1.CertSecretRef := None;
          imagev1.Suspend := false;
          imagev1.ExclusionList := [] |};
     imagev1.Status :=
       {| imagev1.Conditions := [];
          imagev1.CanonicalImageName := "index.docker.io/library/alpine";
          imagev1.LastScanResult := lastScan;
          imagev1.LastHandledReconcileRequest := lastHandled |} |}.

Definition alpine_store : store :=
  {| entries := {[ "index.docker.io/library/alpine" := ["3.18"; "3.19"] ]};
     writes := [] |}.

Definition minute : time.Duration := (60 * time.Second)%Z.

Definition last_scan : option imagev1.ScanResult :=
  Some {| imagev1.TagCount := 2%Z; imagev1.ScanTime := 1000%Z |}.

(** The annotation with which a scan is requested by hand. *)
Definition requested : gmap string string :=
  {[ ReconcileRequestAnnotation := "t1" ]}.

(** A registry that cannot be reached, and one that lists three tags. *)
Definition unreachable : @Environment imported :=
  environment ∅ ∅ (Err "registry unreachable").

Definition listing : @Environment imported :=
  environment ∅ ∅ (Ok ["v1.0.0"; "v1.0.0.sig"; "latest"]).

(** Secrets with a certificate only, and with a key only. *)
Definition cert_only : corev1.Secret :=
  {| corev1.Name := "tls"; corev1.Namespace := "flux-system";
     corev1.Type_ := "Opaque";
     corev1.Data := {[ "certFile" := [Byte.x2d; Byte.x2d] ]} |}.

Definition key_only : corev1.Secret :=
  {| corev1.Name := "tls"; corev1.Namespace := "flux-system";
     corev1.Type_ := "Opaque";
     corev1.Data := {[ "keyFile" := [Byte.x2d; Byte.x2d] ]} |}.

End Model.

(** ** More instances, for the properties beyond the claims *)

Module Fixtures.

(** A source of numbers: a linear congruential generator. *)
Definition lcg : Rand nat :=
  {| rand_Intn g n := ((g `mod` n)%nat, (g * 7 + 3)%nat) |}.

(** A document with two keys for one host and a key for another. *)
Definition admin : @AuthConfig Model.imported :=
  Model.Build_AuthConfig "admin" "s3cret".
Definition guest : @AuthConfig Model.imported :=
  Model.Build_AuthConfig "guest" "".

Definition two_keys : @dockerConfig Model.imported :=
  {| Auths := [ ("https://index.docker.io/v1/", guest);
                ("ghcr.io", guest);
                ("index.docker.io", admin) ] |}.

(** Packages that decode every document to [two_keys]. *)
Definition packages : @Packages Model.imported :=
  @Build_Packages Model.imported
    Model.ParseReference Model.tag_Repository Model.registry Model.Repository_String
    (λ a, a) Model.url_Parse Model.Host Model.regexp_Compile Model.MatchString
    Model.X509KeyPair Model.AppendCertsFromPEM (λ _, Ok two_keys)
    Model.isPrintTables.

Definition pull_secret : corev1.Secret :=
  {| corev1.Name := "regcred"; corev1.Namespace := "flux-system";
     corev1.Type_ := "kubernetes.io/dockerconfigjson";
     corev1.Data := {[ ".dockerconfigjson" := [Byte.x7b; Byte.x7d] ]} |}.

(** A secret whose type has a backslash in it. *)
Definition odd_secret : corev1.Secret :=
  {| corev1.Name := "regcred"; corev1.Namespace := "flux-system";
     corev1.Type_ := "a\b";
     corev1.Data := ∅ |}.

Definition alpine_ref : Model.Tag :=
  {| Model.tag_Repository :=
       {| Model.registry := "index.docker.io";
          Model.repository := "library/alpine" |};
     Model.tag := "latest" |}.

(** A cluster with the pull secret and a service account that names it. *)
Definition cluster : @Environment Model.imported :=
  Model.environment {[ "regcred" := pull_secret ]}
    {[ "default" :=
         {| corev1.ImagePullSecrets := [ {| imagev1.RefName := "regcred" |} ] |} ]}
    (Ok ["v1.0.0"; "v1.0.0.sig"; "latest"]).

(** A registry without tags. *)
Definition empty_registry : @Environment Model.imported :=
  Model.environment ∅ ∅ (Ok []).

(** The repository object with an exclusion list, suspended, or deleted. *)
Definition with_exclusions (o : imagev1.ImageRepository) (l : list string)
  : imagev1.ImageRepository :=
  imagev1.with_Spec o (imagev1.with_ExclusionList (imagev1.Spec o) l).

Definition suspended (o : imagev1.ImageRepository) : imagev1.ImageRepository :=
  imagev1.with_Spec o
    {| imagev1.Image := imagev1.Image (imagev1.Spec o);
       imagev1.Interval := imagev1.Interval (imagev1.Spec o);
       imagev1.SecretRef := imagev1.SecretRef (imagev1.Spec o);
       imagev1.ServiceAccountName := imagev1.ServiceAccountName (imagev1.Spec o);
       imagev1.CertSecretRef := imagev1.CertSecretRef (imagev1.Spec o);
       imagev1.Suspend := true;
       imagev1.ExclusionList := imagev1.ExclusionList (imagev1.Spec o) |}.

Definition deleted (o : imagev1.ImageRepository) : imagev1.ImageRepository :=
  imagev1.with_ObjectMeta o
    {| metav1.Name := metav1.Name (imagev1.ObjectMeta o);
       metav1.Namespace := metav1.Namespace (imagev1.ObjectMeta o);
       metav1.Annotations := metav1.Annotations (imagev1.ObjectMeta o);
       metav1.Finalizers := metav1.Finalizers (imagev1.ObjectMeta o);
       metav1.DeletionTimestamp := Some 4000%Z |}.

Definition with_image (o : imagev1.ImageRepository) (image : string)
  : imagev1.ImageRepository :=
  imagev1.with_Spec o
    {| imagev1.Image := image;
       imagev1.Interval := imagev1.Interval (imagev1.Spec o);
       imagev1.SecretRef := imagev1.SecretRef (imagev1.Spec o);
       imagev1.ServiceAccountName := imagev1.ServiceAccountName (imagev1.Spec o);
       imagev1.CertSecretRef := imagev1.CertSecretRef (imagev1.Spec o);
       imagev1.Suspend := imagev1.Suspend (imagev1.Spec o);
       imagev1.ExclusionList := imagev1.ExclusionList (imagev1.Spec o) |}.

(** An API server that refuses the patch of the helper. *)
Definition refusing (obj : imagev1.ImageRepository) : APIServer :=
  Build_APIServer (Found obj) (λ _, None) (λ _, None) (λ _, None)
    false (λ _, None) (λ _, None) (λ _, Some "conflict").

(** The pattern that [Model.regexp_Compile] makes of a text. *)
Definition compiled (expr : string) : Model.Regexp :=
  match Model.regexp_Compile expr with
  | Ok re => re
  | Err _ => {| Model.from_start := false; Model.items := []; Model.to_end := false |}
  end.

(** The object with a pending request, and some scans of it. *)
Definition requested_alpine : imagev1.ImageRepository :=
  Model.alpine Model.minute Model.requested Model.last_scan "".

Definition listing_scan :=
  @V1.scan Model.imported Model.packages Model.listing Model.store Model.database
    Model.fluxmeta Model.alpine_store 9000%Z tt requested_alpine alpine_ref.

Definition empty_scan :=
  @V1.scan Model.imported Model.packages empty_registry Model.store Model.database
    Model.fluxmeta Model.alpine_store 9000%Z tt requested_alpine alpine_ref.

Definition failed_scan :=
  @V1.scan Model.imported Model.packages Model.unreachable Model.store Model.database
    Model.fluxmeta Model.alpine_store 9000%Z tt requested_alpine alpine_ref.

Definition second_scan :=
  @V2.scan Model.imported Model.packages Model.listing Model.store Model.database
    Model.alpine_store 9000%Z requested_alpine alpine_ref.

End Fixtures.

(** ** Vocabulary of the properties *)

(** A request for reconciliation is pending: the annotation is set and
    differs from the request that was handled last. *)
Definition trigger_pending `{FluxMeta} (repo : imagev1.ImageRepository) : Prop :=
  ∃ syncAt,
    ReconcileAnnotationValue (imagev1.GetAnnotations repo) = Some syncAt
    ∧ syncAt ≠ imagev1.LastHandledReconcileRequest (imagev1.Status repo).

(** The readiness that a status shows. *)
Definition readiness (s : imagev1.ImageRepositoryStatus) : option metav1.Condition :=
  imagev1.FindStatusCondition (imagev1.Conditions s) imagev1.ReadyCondition.

(** Two objects that differ at most in their conditions. *)
Definition same_but_conditions (a b : imagev1.ImageRepository) : Prop :=
  imagev1.ObjectMeta a = imagev1.ObjectMeta b
  ∧ imagev1.Spec a = imagev1.Spec b
  ∧ imagev1.CanonicalImageName (imagev1.Status a)
    = imagev1.CanonicalImageName (imagev1.Status b)
  ∧ imagev1.LastScanResult (imagev1.Status a)
    = imagev1.LastScanResult (imagev1.Status b)
  ∧ imagev1.LastHandledReconcileRequest (imagev1.Status a)
    = imagev1.LastHandledReconcileRequest (imagev1.Status b).

(** What one pattern keeps of the tags. *)
Definition kept `{Imported} `{!Packages} (r : Regexp) (tags : list string)
  : list string :=
  List.filter (λ tag, negb (Regexp_MatchString r tag)) tags.

(** The number of patterns among [res] that a tag does not match. *)
Definition survived `{Imported} `{!Packages} (res : list Regexp) (tag : string) : nat :=
  length (List.filter (λ r, negb (Regexp_MatchString r tag)) res).

(** The credentials that the entries of a docker configuration give for
    a host: those of the last entry, in the order of the range, whose key
    [hostOf] turns into that host. *)
Definition host_entry `{Imported} (hostOf : string → result string)
    (auths : list (string * AuthConfig)) (host : string) : option AuthConfig :=
  snd <$>
    List.find
      (λ kv, match hostOf kv.1 with
             | Ok h => String.eqb h host
             | Err _ => false
             end)
      (rev auths).

(** The key as [getURLHost] hands it to the parser of URLs. *)
Definition with_scheme (urlStr : string) : string :=
  if negb (strings.HasPrefix urlStr "http://")
     && negb (strings.HasPrefix urlStr "https://")
  then "https://" +:+ urlStr +:+ "/"
  else urlStr.

(** The object in memory once [Reconcile] of the first variant has seen to
    the finalizer (lines 114-122), provided the API server took the
    patch. *)
Definition registered `{APIServer} (obj : imagev1.ImageRepository) : Prop :=
  controllerutil.ContainsFinalizer obj imagev1.ImageRepositoryFinalizer = true
  ∨ Patch (controllerutil.AddFinalizer obj imagev1.ImageRepositoryFinalizer) = None.

(** The object once [scan] has seen to the exclusion list (lines
    360-364). *)
Definition defaulted (imageRepo : imagev1.ImageRepository) : imagev1.ImageRepository :=
  if (length (imagev1.ExclusionList (imagev1.Spec imageRepo)) =? 0)%nat
  then imagev1.with_Spec imageRepo
         (imagev1.with_ExclusionList (imagev1.Spec imageRepo)
            (imagev1.ExclusionList (imagev1.Spec imageRepo) ++ [V1.CosignObjectRegex]))
  else imageRepo.

(** An object on which a pass of the first variant gets as far as the
    reference (lines 105-159): the finalizer is seen to, the object is
    neither being deleted nor suspended, and the reference for the metrics
    is there if a recorder is. *)
Definition at_work `{APIServer} (obj : imagev1.ImageRepository) : Prop :=
  registered obj
  ∧ metav1.DeletionTimestamp (imagev1.ObjectMeta obj) = None
  ∧ imagev1.Suspend (imagev1.Spec obj) = false
  ∧ (MetricsRecorder = false
     ∨ reference_GetReference
         (controllerutil.AddFinalizer obj imagev1.ImageRepositoryFinalizer) = None).

(** * Properties *)

(** ** Durations *)

Lemma wrap_wf (z : Z) : time.wf z → time.wrap z = z.
Proof.
  unfold time.wf, time.wrap, time.minDuration, time.maxDuration.
  intros Hz. rewrite Z.mod_small; lia.
Qed.

Lemma Sub_wf (t u : Z) : time.wf (t - u) → time.Sub t u = (t - u)%Z.
Proof.
  unfold time.wf, time.Sub. intros [Hlo Hhi].
  destruct (Z.ltb_spec (t - u) time.minDuration); [lia|].
  destruct (Z.ltb_spec time.maxDuration (t - u)); [lia|]. reflexivity.
Qed.

Lemma Sub_saturates_high (t u : Z) :
  (time.maxDuration < t - u)%Z → time.Sub t u = time.maxDuration.
Proof.
  unfold time.Sub, time.minDuration, time.maxDuration. intros Hhi.
  destruct (Z.ltb_spec (t - u) (- 2 ^ 63)); [lia|].
  destruct (Z.ltb_spec (2 ^ 63 - 1) (t - u)); [reflexivity|lia].
Qed.

(** ** Strings *)

#[local] Arguments String.append !s1 s2 / : simpl nomatch.

Lemma app_assoc_string (a b c : string) : (a +:+ b) +:+ c = a +:+ (b +:+ c).
Proof. induction a as [|x a IH]; simpl; [reflexivity|]. f_equal. exact IH. Qed.

Lemma HasPrefix_app (p r : string) : strings.HasPrefix (p +:+ r) p = true.
Proof.
  induction p as [|c p IH]; simpl; [reflexivity|].
  by rewrite Ascii.eqb_refl.
Qed.

Lemma HasPrefix_inv (s p : string) :
  strings.HasPrefix s p = true → s = p +:+ strings.drop (String.length p) s.
Proof.
  revert s. induction p as [|c p IH]; intros s; simpl.
  - reflexivity.
  - destruct s as [|d s]; [discriminate|].
    destruct (Ascii.eqb_spec c d) as [->|]; [|discriminate].
    intros Hp. simpl. f_equal. by apply IH.
Qed.

Lemma Contains_cons_inv (c : ascii) (s sep : string) :
  strings.Contains (String c s) sep →
  strings.HasPrefix (String c s) sep = true ∨ strings.Contains s sep.
Proof.
  intros ([|x a] & b & Heq); simpl in Heq.
  - left. rewrite Heq. apply HasPrefix_app.
  - right. injection Heq as _ ->. by exists a, b.
Qed.

Lemma Cut_None (s sep : string) :
  strings.Cut s sep = None → ¬ strings.Contains s sep.
Proof.
  induction s as [|c s IH]; simpl.
  - destruct sep as [|d sep]; simpl; [discriminate|].
    intros _ ([|x a] & b & Heq); discriminate.
  - destruct (strings.HasPrefix (String c s) sep) eqn:Hp; [discriminate|].
    destruct (strings.Cut s sep) as [[a b]|] eqn:Hc; [discriminate|].
    intros _ [Hp'|Hs]%Contains_cons_inv; [congruence|].
    by apply IH.
Qed.

Lemma Cut_Some (s sep a b : string) :
  sep ≠ EmptyString → strings.Cut s sep = Some (a, b) →
  s = a +:+ sep +:+ b ∧ ¬ strings.Contains a sep.
Proof.
  intros Hsep. revert a b. induction s as [|c s IH]; intros a b; simpl.
  - destruct sep as [|d sep]; [done|]. simpl. discriminate.
  - destruct (strings.HasPrefix (String c s) sep) eqn:Hp.
    + intros [= <- <-]. split.
      * simpl. by apply HasPrefix_inv.
      * intros ([|x a] & b & Heq); [|discriminate].
        destruct sep; [done|discriminate].
    + destruct (strings.Cut s sep) as [[a' b']|] eqn:Hc; [|discriminate].
      intros [= <- <-]. destruct (IH a' b' eq_refl) as [-> Hno]. split.
      * reflexivity.
      * intros [Hp'|Ha]%Contains_cons_inv; [|done].
        apply HasPrefix_inv in Hp'.
        assert (strings.HasPrefix (String c (a' +:+ sep +:+ b')) sep = true) as Hq.
        { change (String c (a' +:+ sep +:+ b')) with (String c a' +:+ (sep +:+ b')).
          rewrite Hp', app_assoc_string. apply HasPrefix_app. }
        congruence.
Qed.

Lemma Cut_Contains (s sep : string) :
  strings.Contains s sep → ∃ a b, strings.Cut s sep = Some (a, b).
Proof.
  intros Hc. destruct (strings.Cut s sep) as [[a b]|] eqn:Hcut; [by eauto|].
  by apply Cut_None in Hcut.
Qed.

Lemma length_app_string (a b : string) :
  String.length (a +:+ b) = (String.length a + String.length b)%nat.
Proof. induction a as [|c a IH]; simpl; [reflexivity|]. f_equal. exact IH. Qed.

(** The first two fields of a split text that has the separator. *)
Lemma Split_Cut (s sep a b : string) :
  sep ≠ EmptyString → strings.Cut s sep = Some (a, b) →
  ∃ rest,
    strings.Split s sep
    = a :: match strings.Cut b sep with Some (t, _) => t | None => b end :: rest.
Proof.
  intros Hsep Hcut. destruct (Cut_Some _ _ _ _ Hsep Hcut) as [Hs _].
  assert (String.length b < String.length s)%nat as Hlen.
  { rewrite Hs, !length_app_string. destruct sep; [done|simpl; lia]. }
  unfold strings.Split. destruct (String.length s) as [|n] eqn:Hn; [lia|].
  simpl. rewrite Hcut. destruct n as [|n]; simpl.
  - destruct b; [|simpl in Hlen; lia].
    exists []. destruct sep; [done|reflexivity].
  - destruct (strings.Cut b sep) as [[t b']|]; eauto.
Qed.

Lemma Split_no_sep (s sep : string) :
  strings.Cut s sep = None → strings.Split s sep = [s].
Proof.
  intros Hcut. unfold strings.Split.
  destruct (String.length s); simpl; [reflexivity|]. by rewrite Hcut.
Qed.

(** ** The scan scheduler *)

Section scheduler.
Context {DB : Type} `{!Database DB} `{!FluxMeta}.

Lemma tweaked_false (repo : imagev1.ImageRepository) :
  ¬ trigger_pending repo →
  match ReconcileAnnotationValue (imagev1.GetAnnotations repo) with
  | Some syncAt =>
      negb (String.eqb syncAt
              (imagev1.GetLastHandledReconcileRequest (imagev1.Status repo)))
  | None => false
  end = false.
Proof.
  intros Hno. destruct (ReconcileAnnotationValue _) as [syncAt|] eqn:Ha; [|reflexivity].
  destruct (String.eqb_spec syncAt
              (imagev1.GetLastHandledReconcileRequest (imagev1.Status repo))) as [|Hne];
    [reflexivity|].
  exfalso. apply Hno. by exists syncAt.
Qed.

(** Once a scan is on record, no request is pending and the store has
    tags for the name, the answer of [shouldScan] is decided by the
    remainder alone. *)
Lemma shouldScan_remainder (db : DB) (repo : imagev1.ImageRepository)
    (last : imagev1.ScanResult) (tags : list string) (now : Z) :
  imagev1.LastScanResult (imagev1.Status repo) = Some last →
  ¬ trigger_pending repo →
  Tags db (imagev1.CanonicalImageName (imagev1.Status repo)) = Ok tags →
  tags ≠ [] →
  V1.shouldScan db repo now
  = let remaining :=
      time.sub (imagev1.Interval (imagev1.Spec repo))
        (time.Sub now (imagev1.ScanTime last)) in
    if (remaining <? time.Second)%Z
    then (true, imagev1.Interval (imagev1.Spec repo), None)
    else (false, remaining, None).
Proof.
  intros Hlast Hno Htags Hne. unfold V1.shouldScan.
  rewrite Hlast, (tweaked_false _ Hno), Htags.
  destruct tags; [done|]. reflexivity.
Qed.

(** C1.  A repository whose status has no lastScanResult is due whatever
    the time is, and the recommended wait is the whole scan interval; the
    store is not even consulted. *)
Theorem shouldScan_never_scanned (db : DB) (repo : imagev1.ImageRepository) (now : Z) :
  imagev1.LastScanResult (imagev1.Status repo) = None →
  V1.shouldScan db repo now = (true, imagev1.Interval (imagev1.Spec repo), None).
Proof. intros Hlast. unfold V1.shouldScan. by rewrite Hlast. Qed.

(** C2.  For a repository with a scan on record at time T, a scan
    interval I that is a [time.Duration], no pending request and tags in
    the store.  Whenever now - T and I - (now - T) are durations, and
    also whenever I is not negative and now is not before T, the scan is
    due with the whole interval as wait when I - (now - T) is under a
    second, and otherwise not due with I - (now - T) as wait.  At
    T + I - 2s the scan is not due and the wait is 2s, provided I - 2s is
    a duration; at T + I + 1s it is due. *)
Theorem shouldScan_interval (db : DB) (repo : imagev1.ImageRepository)
    (last : imagev1.ScanResult) (tags : list string) :
  imagev1.LastScanResult (imagev1.Status repo) = Some last →
  ¬ trigger_pending repo →
  Tags db (imagev1.CanonicalImageName (imagev1.Status repo)) = Ok tags →
  tags ≠ [] →
  time.wf (imagev1.Interval (imagev1.Spec repo)) →
  let I := imagev1.Interval (imagev1.Spec repo) in
  let T := imagev1.ScanTime last in
  let by_remainder (now : Z) : bool * Z * option error :=
    if (I - (now - T) <? time.Second)%Z then (true, I, None)
    else (false, (I - (now - T))%Z, None) in
  (∀ now, time.wf (now - T) → time.wf (I - (now - T)) →
     V1.shouldScan db repo now = by_remainder now)
  ∧ (∀ now, (0 ≤ I)%Z → (T ≤ now)%Z →
       V1.shouldScan db repo now = by_remainder now)
  ∧ (time.wf (I - 2 * time.Second) →
     V1.shouldScan db repo (T + I - 2 * time.Second) = (false, 2 * time.Second, None))%Z
  ∧ V1.shouldScan db repo (T + I + 1 * time.Second)%Z = (true, I, None).
Proof.
  intros Hlast Hno Htags Hne HI I T by_remainder.
  pose proof (shouldScan_remainder db repo last tags) as Hrem.
  specialize (λ now, Hrem now Hlast Hno Htags Hne). fold I T in Hrem.
  cbv zeta in Hrem.
  assert (∀ now, time.wf (now - T) → time.wf (I - (now - T)) →
            time.sub I (time.Sub now T) = (I - (now - T))%Z) as Hexact.
  { intros now H1 H2. unfold time.sub. rewrite (Sub_wf _ _ H1). by apply wrap_wf. }
  assert (∀ now, time.wf (now - T) → time.wf (I - (now - T)) →
            V1.shouldScan db repo now = by_remainder now) as Hfits.
  { intros now H1 H2. rewrite Hrem, (Hexact now H1 H2). reflexivity. }
  assert (∀ now, (0 ≤ I)%Z → (time.maxDuration < now - T)%Z →
            (time.sub I (time.Sub now T) = I - time.maxDuration)%Z) as Hhigh.
  { intros now HI0 Hgt. unfold time.sub. rewrite Sub_saturates_high by exact Hgt.
    apply wrap_wf.
    unfold time.wf, time.minDuration, time.maxDuration in *. lia. }
  split; [exact Hfits|]. split; [|split].
  - intros now HI0 Hnow.
    destruct (Z_le_gt_dec (now - T) time.maxDuration) as [Hle|Hgt].
    + apply Hfits;
        unfold time.wf, time.minDuration, time.maxDuration in *; lia.
    + rewrite Hrem, Hhigh by lia. unfold by_remainder.
      unfold time.wf, time.minDuration, time.maxDuration in HI, Hgt.
      destruct (Z.ltb_spec (I - time.maxDuration) time.Second) as [_|Hge];
        [|unfold time.maxDuration, time.Second in Hge; lia].
      destruct (Z.ltb_spec (I - (now - T)) time.Second) as [_|Hge];
        [reflexivity|unfold time.Second in Hge; lia].
  - intros H2. rewrite Hfits.
    + unfold by_remainder.
      replace (I - (T + I - 2 * time.Second - T))%Z with (2 * time.Second)%Z by lia.
      reflexivity.
    + replace (T + I - 2 * time.Second - T)%Z with (I - 2 * time.Second)%Z by lia.
      exact H2.
    + unfold time.wf, time.minDuration, time.maxDuration, time.Second. lia.
  - unfold time.wf, time.minDuration, time.maxDuration in HI.
    destruct (Z_le_gt_dec (I + time.Second) time.maxDuration) as [Hle|Hgt].
    + rewrite Hfits.
      * unfold by_remainder.
        destruct (Z.ltb_spec (I - (T + I + 1 * time.Second - T)) time.Second) as [_|Hge];
          [reflexivity|unfold time.Second in Hge; lia].
      * unfold time.wf, time.minDuration, time.maxDuration, time.Second in *. lia.
      * unfold time.wf, time.minDuration, time.maxDuration, time.Second in *. lia.
    + rewrite Hrem, Hhigh by (unfold time.maxDuration, time.Second in *; lia).
      destruct (Z.ltb_spec (I - time.maxDuration) time.Second) as [_|Hge];
        [reflexivity|unfold time.maxDuration, time.Second in Hge; lia].
Qed.

(** C3.  With a scan on record and no pending request, an error of the
    store's read makes [shouldScan] answer "not due" and hand the error to
    its caller. *)
Theorem shouldScan_store_error (db : DB) (repo : imagev1.ImageRepository)
    (last : imagev1.ScanResult) (e : error) (now : Z) :
  imagev1.LastScanResult (imagev1.Status repo) = Some last →
  ¬ trigger_pending repo →
  Tags db (imagev1.CanonicalImageName (imagev1.Status repo)) = Err e →
  V1.shouldScan db repo now = (false, imagev1.Interval (imagev1.Spec repo), Some e).
Proof.
  intros Hlast Hno Htags. unfold V1.shouldScan.
  by rewrite Hlast, (tweaked_false _ Hno), Htags.
Qed.

(** C10.  The [shouldScan] of the first variant and the [shouldScan] of
    the second give the same answer, wait and error on every repository,
    time and store. *)
Theorem shouldScan_variants_agree (db : DB) (repo : imagev1.ImageRepository) (now : Z) :
  V1.shouldScan db repo now = V2.shouldScan db repo now.
Proof.
  unfold V1.shouldScan, V2.shouldScan.
  destruct (imagev1.LastScanResult (imagev1.Status repo)) as [last|]; [|reflexivity].
  destruct (ReconcileAnnotationValue (imagev1.GetAnnotations repo)) as [syncAt|];
    destruct (Tags db (imagev1.CanonicalImageName (imagev1.Status repo))) as [tags|e];
    reflexivity.
Qed.

End scheduler.

(** ** Image references and registry hosts *)

Lemma Cut_char (c : ascii) (name rest : string) :
  ¬ strings.Contains name (String c EmptyString) →
  strings.Cut (name +:+ String c EmptyString +:+ rest) (String c EmptyString)
  = Some (name, rest).
Proof.
  induction name as [|d name IH]; intros Hno.
  - simpl. by rewrite Ascii.eqb_refl.
  - change (String d name +:+ String c EmptyString +:+ rest)
      with (String d (name +:+ String c EmptyString +:+ rest)).
    cbn [strings.Cut strings.HasPrefix].
    destruct (Ascii.eqb_spec c d) as [->|Hne].
    + exfalso. apply Hno. by exists EmptyString, name.
    + rewrite IH; [reflexivity|].
      intros (a & b & ->). apply Hno. by exists (String d a), b.
Qed.

Lemma Cut_not_Contains (s sep : string) :
  sep ≠ EmptyString → ¬ strings.Contains s sep → strings.Cut s sep = None.
Proof.
  intros Hsep Hno. destruct (strings.Cut s sep) as [[a b]|] eqn:Hcut; [|reflexivity].
  exfalso. apply Hno. exists a, b. by apply Cut_Some.
Qed.

Section reference.
Context `{Imported} `{!Packages}.

Lemma parseImageReference_scheme (url scheme rest : string) :
  strings.Cut url "://" = Some (scheme, rest) →
  V1.parseImageReference url
  = Err (".spec.image value should not start with URL scheme; remove '"
         +:+ scheme +:+ "://'").
Proof.
  intros Hcut. unfold V1.parseImageReference.
  destruct (Split_Cut url "://" scheme rest) as [more ->]; done.
Qed.

Lemma parseImageReference_parsed (url : string) (ref : Reference) :
  strings.Cut url "://" = None →
  name_ParseReference url = Ok ref →
  V1.parseImageReference url
  = match strings.Cut
            (strings.TrimPrefix url (Repository_RegistryStr (Reference_Context ref)))
            ":" with
    | None => Ok ref
    | Some (_, after) =>
        Err (".spec.image value should not contain a tag; remove ':"
             +:+ match strings.Cut after ":" with Some (t, _) => t | None => after end
             +:+ "'")
    end.
Proof.
  intros Hcut Hparse. unfold V1.parseImageReference.
  rewrite (Split_no_sep _ _ Hcut), Hparse. cbn [length Nat.ltb Nat.leb].
  destruct (strings.Cut (strings.TrimPrefix url _) ":") as [[name after]|] eqn:Hc.
  - destruct (Split_Cut _ ":" name after ltac:(done) Hc) as [more ->]. reflexivity.
  - by rewrite (Split_no_sep _ _ Hc).
Qed.

(** C4.  [parseImageReference] hands on the reference that the parser of
    the registry library gives for "docker.io/library/alpine".  An input
    with "://" is refused with an error that names the scheme in front of
    it, and an input whose text after the registry host is name:tag is
    refused with an error that names the tag; so are
    "https://docker.io/library/alpine" and
    "docker.io/library/alpine:latest", the registry of which the library
    gives as index.docker.io. *)
Theorem parseImageReference_validation (ref tagged : Reference) :
  name_ParseReference "docker.io/library/alpine" = Ok ref →
  name_ParseReference "docker.io/library/alpine:latest" = Ok tagged →
  Repository_RegistryStr (Reference_Context tagged) = "index.docker.io" →
  V1.parseImageReference "docker.io/library/alpine" = Ok ref
  ∧ V1.parseImageReference "https://docker.io/library/alpine"
    = Err ".spec.image value should not start with URL scheme; remove 'https://'"
  ∧ V1.parseImageReference "docker.io/library/alpine:latest"
    = Err ".spec.image value should not contain a tag; remove ':latest'"
  ∧ (∀ url, strings.Contains url "://" →
       ∃ scheme rest,
         url = scheme +:+ "://" +:+ rest ∧ ¬ strings.Contains scheme "://"
         ∧ V1.parseImageReference url
           = Err (".spec.image value should not start with URL scheme; remove '"
                  +:+ scheme +:+ "://'"))
  ∧ (∀ url r name tag,
       ¬ strings.Contains url "://" →
       name_ParseReference url = Ok r →
       strings.TrimPrefix url (Repository_RegistryStr (Reference_Context r))
       = name +:+ ":" +:+ tag →
       ¬ strings.Contains name ":" → ¬ strings.Contains tag ":" →
       V1.parseImageReference url
       = Err (".spec.image value should not contain a tag; remove ':" +:+ tag +:+ "'")).
Proof.
  intros Href Htagged Hreg. split; [|split; [|split; [|split]]].
  - rewrite (parseImageReference_parsed _ ref); [|reflexivity|exact Href].
    destruct (strings.Cut _ ":") as [[name after]|] eqn:Hc; [|reflexivity].
    exfalso. apply Cut_Some in Hc as [Heq _]; [|done].
    assert (strings.Contains "docker.io/library/alpine" ":") as Hcontains.
    { unfold strings.TrimPrefix in Heq.
      destruct (strings.HasPrefix _ _) eqn:Hp.
      - apply HasPrefix_inv in Hp. rewrite Heq in Hp.
        eexists (_ +:+ name), after. rewrite Hp at 1. by rewrite app_assoc_string.
      - by exists name, after. }
    revert Hcontains. by apply Cut_None.
  - exact (parseImageReference_scheme "https://docker.io/library/alpine"
             "https" "docker.io/library/alpine" eq_refl).
  - rewrite (parseImageReference_parsed _ tagged); [|reflexivity|exact Htagged].
    by rewrite Hreg.
  - intros url (scheme & rest & Hcut)%Cut_Contains.
    exists scheme, rest. destruct (Cut_Some url "://" scheme rest ltac:(done) Hcut) as [-> Hno].
    split; [reflexivity|]. split; [exact Hno|].
    exact (parseImageReference_scheme _ _ _ Hcut).
  - intros url r name tag Hno Hparse Htrim Hname Htag.
    rewrite (parseImageReference_parsed _ r); [|by apply Cut_not_Contains|exact Hparse].
    rewrite Htrim, (Cut_char ":" name tag Hname).
    by rewrite (Cut_not_Contains tag ":").
Qed.

(** C5.  [getURLHost] gives the host that the URL parser finds, after it
    has put ["https://"] in front and ["/"] behind a key without scheme;
    with the hosts that the parser gives for the three keys of
    index.docker.io, each of them comes out as "index.docker.io".  The
    bare schemes "http://" and "https://" are errors, and the parser is
    not asked. *)
Theorem getURLHost_normalizes (u1 u2 u3 : URL) :
  url_Parse "https://index.docker.io/v2/" = Ok u1 →
  url_Parse "https://index.docker.io/" = Ok u2 →
  url_Parse "http://index.docker.io" = Ok u3 →
  URL_Host u1 = "index.docker.io" →
  URL_Host u2 = "index.docker.io" →
  URL_Host u3 = "index.docker.io" →
  V1.getURLHost "https://index.docker.io/v2/" = Ok "index.docker.io"
  ∧ V1.getURLHost "index.docker.io" = Ok "index.docker.io"
  ∧ V1.getURLHost "http://index.docker.io" = Ok "index.docker.io"
  ∧ V1.getURLHost "http://" = Err "Empty url"
  ∧ V1.getURLHost "https://" = Err "Empty url".
Proof.
  intros Hp1 Hp2 Hp3 Hh1 Hh2 Hh3. unfold V1.getURLHost.
  split; [|split; [|split; [|split]]]; cbn -[url_Parse URL_Host]; try reflexivity.
  - by rewrite Hp1, Hh1.
  - by rewrite Hp2, Hh2.
  - by rewrite Hp3, Hh3.
Qed.

End reference.

(** ** Exclusion of tags *)

Lemma count_occ_filter (f : string → bool) (l : list string) (t : string) :
  count_occ string_dec (List.filter f l) t
  = if f t then count_occ string_dec l t else 0%nat.
Proof.
  induction l as [|x l IH]; simpl.
  - by destruct (f t).
  - destruct (f x) eqn:Hfx; simpl; destruct (string_dec x t) as [->|Hne];
      rewrite IH; rewrite ?Hfx; reflexivity.
Qed.

Section exclusion.
Context `{Imported} `{!Packages}.

Lemma exclusion_loop (r : Regexp) (tags filteredTags : list string) :
  fold_left
    (λ filteredTags tag,
       if negb (Regexp_MatchString r tag) then filteredTags ++ [tag] else filteredTags)
    tags filteredTags
  = filteredTags ++ kept r tags.
Proof.
  revert filteredTags. induction tags as [|tag tags IH]; intros acc; simpl.
  - by rewrite app_nil_r.
  - rewrite IH. destruct (Regexp_MatchString r tag); simpl; [reflexivity|].
    by rewrite <- app_assoc.
Qed.

Lemma filterTags_compiled (exclusionList : list string) (res : list Regexp)
    (tags filteredTags : list string) :
  Forall2 (λ regex r, regexp_Compile regex = Ok r) exclusionList res →
  V1.filterTags exclusionList tags filteredTags
  = Ok (filteredTags ++ concat (map (λ r, kept r tags) res)).
Proof.
  intros Hall. revert filteredTags.
  induction Hall as [|regex r exclusionList res Hc _ IH]; intros acc; simpl.
  - by rewrite app_nil_r.
  - rewrite Hc, exclusion_loop, IH. by rewrite <- app_assoc.
Qed.

Lemma count_occ_kept (res : list Regexp) (tags : list string) (t : string) :
  count_occ string_dec (concat (map (λ r, kept r tags) res)) t
  = (survived res t * count_occ string_dec tags t)%nat.
Proof.
  unfold survived. induction res as [|r res IH]; simpl; [reflexivity|].
  rewrite count_occ_app, IH. unfold kept at 1. rewrite count_occ_filter.
  destruct (Regexp_MatchString r t); simpl; lia.
Qed.

End exclusion.

(** ** Conditions *)

Lemma Find_SetStatusCondition (cs : list metav1.Condition) (new : metav1.Condition) :
  imagev1.FindStatusCondition (imagev1.SetStatusCondition cs new) (metav1.Type_ new)
  = Some new.
Proof.
  unfold imagev1.FindStatusCondition.
  induction cs as [|c cs IH]; simpl.
  - by rewrite bool_decide_eq_true_2.
  - destruct (bool_decide (metav1.Type_ c = metav1.Type_ new)) eqn:Hc; simpl.
    + by rewrite bool_decide_eq_true_2.
    + by rewrite Hc.
Qed.

Lemma readiness_Set (ir : imagev1.ImageRepository) (status : metav1.ConditionStatus)
    (reason : metav1.ConditionReason) (message : string) :
  readiness (imagev1.Status (imagev1.SetImageRepositoryReadiness ir status reason message))
  = Some {| metav1.Type_ := imagev1.ReadyCondition; metav1.Status := status;
            metav1.Reason := reason; metav1.Message := message |}.
Proof.
  unfold readiness, imagev1.SetImageRepositoryReadiness. simpl.
  apply (Find_SetStatusCondition _
           {| metav1.Type_ := imagev1.ReadyCondition; metav1.Status := status;
              metav1.Reason := reason; metav1.Message := message |}).
Qed.

Lemma same_refl (a : imagev1.ImageRepository) : same_but_conditions a a.
Proof. by repeat split. Qed.

Lemma same_Set (ir : imagev1.ImageRepository) (status : metav1.ConditionStatus)
    (reason : metav1.ConditionReason) (message : string) :
  same_but_conditions ir (imagev1.SetImageRepositoryReadiness ir status reason message).
Proof. by repeat split. Qed.

Lemma same_conditions_Set (o : imagev1.ImageRepository) (c : metav1.Condition) :
  same_but_conditions o (conditions.Set_ o c).
Proof. by repeat split. Qed.

(** ** The scan *)

(** Case analysis on a scrutinee in [H] that is not itself a case
    analysis. *)
Ltac case_scrutinee H :=
  match type of H with
  | context [match ?x with _ => _ end] =>
      lazymatch x with
      | context [match _ with _ => _ end] => fail
      | _ => destruct x eqn:?
      end
  end.

Section scanning.
Context `{Imported} `{!Packages} `{!Environment}.
Context {DB : Type} `{!Database DB} `{!FluxMeta}.

Lemma scanOptions_Return (imageRepo r : imagev1.ImageRepository) (ref : Reference)
    (providerOptions : ProviderOptions) (err : error) :
  V1.scanOptions imageRepo ref providerOptions = Return r err →
  same_but_conditions imageRepo r.
Proof.
  unfold V1.scanOptions, V1.scanAuth, V1.scanCert, V1.scanServiceAccount, V1.notReady.
  intros Hret. repeat (case_scrutinee Hret; try discriminate);
    injection Hret as <- _; first [apply same_refl | apply same_Set].
Qed.

(** C7.  When the options of the scan have been put together and the
    listing of the registry fails, [scan] returns the error of the
    listing, the object shows not ready with the text of that error, its
    lastScanResult is the one it had, and the store is the one [scan] was
    given: SetTags has not been called. *)
Theorem scan_listing_error (db : DB) (scanTime : Z) (providerOptions : ProviderOptions)
    (imageRepo : imagev1.ImageRepository) (ref : Reference)
    (options : list remote.Option) (err : error) :
  V1.scanOptions imageRepo ref providerOptions = Continue options →
  remote_List (Reference_Context ref) options = Err err →
  ∃ imageRepo',
    V1.scan db scanTime providerOptions imageRepo ref = (imageRepo', db, Some err)
    ∧ readiness (imagev1.Status imageRepo')
      = Some {| metav1.Type_ := imagev1.ReadyCondition;
                metav1.Status := metav1.ConditionFalse;
                metav1.Reason := metav1.ReconciliationFailedReason;
                metav1.Message := err |}
    ∧ imagev1.LastScanResult (imagev1.Status imageRepo')
      = imagev1.LastScanResult (imagev1.Status imageRepo).
Proof.
  intros Hopts Hlist. exists (V1.notReady imageRepo err).
  unfold V1.scan. rewrite Hopts, Hlist. split; [reflexivity|].
  split; [apply readiness_Set|reflexivity].
Qed.

Lemma scan_stores (db : DB) (scanTime : Z) (providerOptions : ProviderOptions)
    (imageRepo : imagev1.ImageRepository) (ref : Reference)
    (options : list remote.Option) (tags : list string) (res : list Regexp) :
  V1.scanOptions imageRepo ref providerOptions = Continue options →
  remote_List (Reference_Context ref) options = Ok tags →
  Forall2 (λ regex r, regexp_Compile regex = Ok r)
    (if (length (imagev1.ExclusionList (imagev1.Spec imageRepo)) =? 0)%nat
     then [V1.CosignObjectRegex]
     else imagev1.ExclusionList (imagev1.Spec imageRepo))
    res →
  ∃ r err,
    V1.scan db scanTime providerOptions imageRepo ref
    = (r,
       (SetTags db (Repository_String (Reference_Context ref))
          (concat (map (λ re, kept re tags) res))).1,
       err).
Proof.
  intros Hopts Hlist Hall. unfold V1.scan. rewrite Hopts, Hlist.
  set (imageRepo1 := if (length _ =? 0)%nat then _ else imageRepo).
  assert (imagev1.ExclusionList (imagev1.Spec imageRepo1)
          = if (length (imagev1.ExclusionList (imagev1.Spec imageRepo)) =? 0)%nat
            then [V1.CosignObjectRegex]
            else imagev1.ExclusionList (imagev1.Spec imageRepo)) as ->.
  { subst imageRepo1.
    destruct (imagev1.ExclusionList (imagev1.Spec imageRepo)) eqn:Hex; simpl;
      [reflexivity|exact Hex]. }
  rewrite (filterTags_compiled _ res tags [] Hall). cbn [app].
  destruct (SetTags db _ _) as [db' [e|]]; eauto.
Qed.

(** C6.  [scan] stores what the patterns of the exclusion list keep, and
    an empty list stands for the one pattern [^.*\.sig$]; with a pattern
    that matches "v1.0.0.sig" and neither "v1.0.0" nor "latest", the tags
    "v1.0.0", "v1.0.0.sig", "latest" come out as "v1.0.0", "latest".  In
    general every pattern is run over the whole listing, what each keeps
    is put one after the other, and a tag is stored once for each pattern
    that it does not match (times its number in the listing). *)
Theorem scan_exclusion_filtering (re : Regexp) :
  regexp_Compile V1.CosignObjectRegex = Ok re →
  Regexp_MatchString re "v1.0.0" = false →
  Regexp_MatchString re "v1.0.0.sig" = true →
  Regexp_MatchString re "latest" = false →
  V1.filterTags [V1.CosignObjectRegex] ["v1.0.0"; "v1.0.0.sig"; "latest"] []
  = Ok ["v1.0.0"; "latest"]
  ∧ (∀ db scanTime providerOptions imageRepo ref options tags,
       V1.scanOptions imageRepo ref providerOptions = Continue options →
       remote_List (Reference_Context ref) options = Ok tags →
       imagev1.ExclusionList (imagev1.Spec imageRepo) = [] →
       ∃ r err,
         V1.scan db scanTime providerOptions imageRepo ref
         = (r, (SetTags db (Repository_String (Reference_Context ref)) (kept re tags)).1,
            err))
  ∧ (∀ db scanTime providerOptions imageRepo ref options tags res,
       V1.scanOptions imageRepo ref providerOptions = Continue options →
       remote_List (Reference_Context ref) options = Ok tags →
       imagev1.ExclusionList (imagev1.Spec imageRepo) ≠ [] →
       Forall2 (λ regex r, regexp_Compile regex = Ok r)
         (imagev1.ExclusionList (imagev1.Spec imageRepo)) res →
       ∃ r err,
         V1.scan db scanTime providerOptions imageRepo ref
         = (r,
            (SetTags db (Repository_String (Reference_Context ref))
               (concat (map (λ re, kept re tags) res))).1,
            err))
  ∧ (∀ exclusionList res tags,
       Forall2 (λ regex r, regexp_Compile regex = Ok r) exclusionList res →
       V1.filterTags exclusionList tags [] = Ok (concat (map (λ re, kept re tags) res))
       ∧ ∀ tag,
           count_occ string_dec (concat (map (λ re, kept re tags) res)) tag
           = (survived res tag * count_occ string_dec tags tag)%nat).
Proof.
  intros Hre Hm1 Hm2 Hm3. split; [|split; [|split]].
  - rewrite (filterTags_compiled _ [re]); [|by repeat constructor].
    unfold kept. simpl. by rewrite Hm1, Hm2, Hm3.
  - intros db scanTime po imageRepo ref options tags Hopts Hlist Hnil.
    destruct (scan_stores db scanTime po imageRepo ref options tags [re] Hopts Hlist)
      as (r & err & Hscan).
    { rewrite Hnil. by repeat constructor. }
    exists r, err. rewrite Hscan. simpl. by rewrite app_nil_r.
  - intros db scanTime po imageRepo ref options tags res Hopts Hlist Hne Hall.
    apply (scan_stores db scanTime po imageRepo ref options tags res Hopts Hlist).
    destruct (imagev1.ExclusionList (imagev1.Spec imageRepo)); [done|exact Hall].
  - intros exclusionList res tags Hall. split.
    + by rewrite (filterTags_compiled _ res).
    + intros tag. apply count_occ_kept.
Qed.

(** A scan that fails leaves the request that was handled last as it
    was; a scan that succeeds puts the token of the annotation there. *)
Lemma scan_error_keeps_request (db db' : DB) (scanTime : Z)
    (providerOptions : ProviderOptions) (imageRepo r : imagev1.ImageRepository)
    (ref : Reference) (err : error) :
  V1.scan db scanTime providerOptions imageRepo ref = (r, db', Some err) →
  imagev1.LastHandledReconcileRequest (imagev1.Status r)
  = imagev1.LastHandledReconcileRequest (imagev1.Status imageRepo).
Proof.
  unfold V1.scan. intros Hscan.
  destruct (V1.scanOptions imageRepo ref providerOptions) as [r0 e0|options] eqn:Hopts.
  - injection Hscan as <- _ _. symmetry. eapply scanOptions_Return, Hopts.
  - destruct (remote_List _ _) as [tags|e]; [|by injection Hscan as <- _ _].
    destruct (V1.filterTags _ _ _) as [filteredTags|e].
    + destruct (SetTags _ _ _) as [db1 [e|]]; [|discriminate].
      injection Hscan as <- _ _.
      by destruct (length _ =? 0)%nat.
    + injection Hscan as <- _ _. by destruct (length _ =? 0)%nat.
Qed.

Lemma scan_success_records_request (db db' : DB) (scanTime : Z)
    (providerOptions : ProviderOptions) (imageRepo r : imagev1.ImageRepository)
    (ref : Reference) (token : string) :
  V1.scan db scanTime providerOptions imageRepo ref = (r, db', None) →
  ReconcileAnnotationValue (imagev1.GetAnnotations imageRepo) = Some token →
  imagev1.LastHandledReconcileRequest (imagev1.Status r) = token.
Proof.
  unfold V1.scan. intros Hscan Htoken.
  destruct (V1.scanOptions imageRepo ref providerOptions) as [r0 e0|options];
    [discriminate|].
  destruct (remote_List _ _) as [tags|e]; [|discriminate].
  destruct (V1.filterTags _ _ _) as [filteredTags|e]; [|discriminate].
  destruct (SetTags _ _ _) as [db1 [e|]]; [discriminate|].
  injection Hscan as <- _.
  set (imageRepo1 := if (length _ =? 0)%nat then _ else imageRepo).
  assert (imagev1.GetAnnotations imageRepo1 = imagev1.GetAnnotations imageRepo) as Hann.
  { subst imageRepo1. by destruct (length _ =? 0)%nat. }
  unfold imagev1.GetAnnotations in *. cbn [imagev1.with_Status imagev1.ObjectMeta].
  rewrite Hann, Htoken. reflexivity.
Qed.

End scanning.

(** ** The transport *)

Section transport.
Context `{Imported} `{!Packages} `{!Environment}.

(** C8 as the code has it.  A transport that [transportFromSecret]
    returns has a client certificate only if the secret has both certFile
    and keyFile, and then it is the pair of the two; a certFile without
    keyFile is an error; without certFile the key is not looked at, and no
    certificate is set; with caFile, the root CAs of a returned transport
    are the pool of the system with the CA of the secret added. *)
Theorem transportFromSecret_certificates (certSecret : corev1.Secret) :
  let data := corev1.Data certSecret in
  (∀ tr, V1.transportFromSecret certSecret = Ok tr →
     tls.Certificates (http.TLSClientConfig tr) ≠ [] →
     is_Some (data !! V1.ClientCert) ∧ is_Some (data !! V1.ClientKey))
  ∧ (∀ clientCert clientKey cert tr,
       data !! V1.ClientCert = Some clientCert →
       data !! V1.ClientKey = Some clientKey →
       tls_X509KeyPair clientCert clientKey = Ok cert →
       V1.transportFromSecret certSecret = Ok tr →
       tls.Certificates (http.TLSClientConfig tr) = [cert])
  ∧ (is_Some (data !! V1.ClientCert) → data !! V1.ClientKey = None →
     V1.transportFromSecret certSecret = Err "client certificate found, but no key")
  ∧ (data !! V1.ClientCert = None →
     V1.transportFromSecret certSecret
     = match data !! V1.CACert with
       | Some caCert =>
           match x509_SystemCertPool with
           | Err err => Err err
           | Ok syscerts =>
               Ok {| http.TLSClientConfig :=
                      {| tls.Certificates := [];
                         tls.RootCAs :=
                           Some (CertPool_AppendCertsFromPEM syscerts caCert) |} |}
           end
       | None =>
           Ok {| http.TLSClientConfig :=
                  {| tls.Certificates := []; tls.RootCAs := None |} |}
       end)
  ∧ (∀ tr caCert,
       V1.transportFromSecret certSecret = Ok tr →
       data !! V1.CACert = Some caCert →
       ∃ syscerts,
         x509_SystemCertPool = Ok syscerts
         ∧ tls.RootCAs (http.TLSClientConfig tr)
           = Some (CertPool_AppendCertsFromPEM syscerts caCert)).
Proof.
  intros data. unfold V1.transportFromSecret. fold data.
  split; [|split; [|split; [|split]]].
  - intros tr Htr Hcerts.
    destruct (data !! V1.ClientCert) as [clientCert|].
    + destruct (data !! V1.ClientKey) as [clientKey|]; [|discriminate].
      split; by eexists.
    + exfalso. apply Hcerts.
      destruct (data !! V1.CACert); [destruct x509_SystemCertPool|];
        try discriminate; by injection Htr as <-.
  - intros clientCert clientKey cert tr -> -> -> Htr.
    destruct (data !! V1.CACert); [destruct x509_SystemCertPool|];
      try discriminate; by injection Htr as <-.
  - intros [clientCert ->] ->. reflexivity.
  - intros ->. reflexivity.
  - intros tr caCert Htr Hca. rewrite Hca in Htr.
    destruct (data !! V1.ClientCert) as [clientCert|].
    + destruct (data !! V1.ClientKey) as [clientKey|]; [|discriminate].
      destruct (tls_X509KeyPair clientCert clientKey); [|discriminate].
      destruct x509_SystemCertPool as [syscerts|]; [|discriminate].
      injection Htr as <-. by exists syscerts.
    + destruct x509_SystemCertPool as [syscerts|]; [|discriminate].
      injection Htr as <-. by exists syscerts.
Qed.

End transport.

(** ** The request for reconciliation *)

Section request.
Context `{Imported} `{!Packages} `{!Environment} `{!APIServer}.
Context {DB : Type} `{!Database DB} `{!FluxMeta}.

Lemma V2_scan_same_meta (db db' : DB) (scanTime : Z)
    (imageRepo r : imagev1.ImageRepository) (ref : Reference) (err : option error) :
  V2.scan db scanTime imageRepo ref = (r, db', err) →
  imagev1.ObjectMeta r = imagev1.ObjectMeta imageRepo.
Proof.
  unfold V2.scan, V2.scanOptions, V2.notReady. intros Hscan.
  repeat (case_scrutinee Hscan; try discriminate);
    repeat match goal with
           | Heq : Return _ _ = Return _ _ |- _ => injection Heq as <- <-
           | Heq : Continue _ = Return _ _ |- _ => discriminate Heq
           end;
    by injection Hscan as <- _ _.
Qed.

Lemma V2_reconcile_same_meta (db db' : DB) (reconcileStart scanTime : Z)
    (imageRepo r : imagev1.ImageRepository) (res : ctrl.Result) (err : option error) :
  V2.reconcile db reconcileStart scanTime imageRepo = (res, err, r, db') →
  imagev1.ObjectMeta r = imagev1.ObjectMeta imageRepo.
Proof.
  unfold V2.reconcile. intros Hrec.
  destruct (name_ParseReference _) as [ref|e]; [|by injection Hrec as _ _ <- _].
  set (imageRepo1 := if negb _ then _ else imageRepo) in Hrec.
  assert (imagev1.ObjectMeta imageRepo1 = imagev1.ObjectMeta imageRepo) as Hmeta.
  { subst imageRepo1. by destruct (negb _). }
  destruct (V2.shouldScan db imageRepo1 reconcileStart) as [[ok when] [e|]];
    [by injection Hrec as _ _ <- _|].
  destruct ok; [|by injection Hrec as _ _ <- _].
  destruct (V2.scan db scanTime imageRepo1 ref) as [[r1 db1] e] eqn:Hscan.
  apply V2_scan_same_meta in Hscan.
  destruct e; injection Hrec as _ _ <- _; congruence.
Qed.

(** A pass of the first variant on an object that has its finalizer, is
    neither deleted nor suspended and has its canonical name, when the
    scan is due: the status that the pass submits is the one that [scan]
    leaves. *)
Lemma V1_Reconcile_scans (db : DB) (reconcileStart scanTime : Z)
    (providerOptions : ProviderOptions) (obj : imagev1.ImageRepository)
    (ref : Reference) (when : Z) :
  Get_ImageRepository = Found obj →
  controllerutil.ContainsFinalizer obj imagev1.ImageRepositoryFinalizer = true →
  metav1.DeletionTimestamp (imagev1.ObjectMeta obj) = None →
  imagev1.Suspend (imagev1.Spec obj) = false →
  MetricsRecorder = false →
  V1.parseImageReference (imagev1.Image (imagev1.Spec obj)) = Ok ref →
  imagev1.CanonicalImageName (imagev1.Status obj)
  = Repository_String (Reference_Context ref) →
  V1.shouldScan db obj reconcileStart = (true, when, None) →
  out_patched (V1.Reconcile db reconcileStart scanTime providerOptions)
  = [imagev1.Status (V1.scan db scanTime providerOptions obj ref).1.1].
Proof.
  intros Hget Hfin Hdel Hsus Hmet Hparse Hname Hdue. unfold V1.Reconcile.
  rewrite Hget, Hfin. cbn [negb]. rewrite Hdel.
  rewrite bool_decide_eq_false_2 by (intros Hne; by apply Hne).
  rewrite Hsus, Hmet, Hparse, Hname, String.eqb_refl. cbn [negb].
  rewrite Hdue.
  destruct (V1.scan db scanTime providerOptions obj ref) as [[r db'] e].
  cbn [fst app]. destruct (V1.patchStatus (imagev1.Status r)); [reflexivity|].
  by destruct e.
Qed.

(** C9 as the code has it.  In the second variant, every pass that gets
    as far as the patch helper, and so every pass that attempts a scan,
    whether the scan succeeds or fails, submits the object with the token
    of the annotation as status.lastHandledReconcileRequest.  In the first
    variant it is [scan] that records the token, and it does so when it
    returns without error; a scan that returns an error leaves
    status.lastHandledReconcileRequest as it was, and the pass submits
    the status that [scan] leaves. *)
Theorem request_handled :
  (∀ (db : DB) reconcileStart scanTime obj token,
     Get_ImageRepository = Found obj →
     imagev1.Suspend (imagev1.Spec obj) = false →
     patch_NewHelper obj = None →
     ReconcileAnnotationValue (imagev1.GetAnnotations obj) = Some token →
     ∃ r,
       out_imageRepo (V2.Reconcile db reconcileStart scanTime) = Some r
       ∧ out_patched (V2.Reconcile db reconcileStart scanTime) = [imagev1.Status r]
       ∧ imagev1.LastHandledReconcileRequest (imagev1.Status r) = token)
  ∧ (∀ (db db' : DB) scanTime providerOptions imageRepo r ref token,
       V1.scan db scanTime providerOptions imageRepo ref = (r, db', None) →
       ReconcileAnnotationValue (imagev1.GetAnnotations imageRepo) = Some token →
       imagev1.LastHandledReconcileRequest (imagev1.Status r) = token)
  ∧ (∀ (db db' : DB) scanTime providerOptions imageRepo r ref err,
       V1.scan db scanTime providerOptions imageRepo ref = (r, db', Some err) →
       imagev1.LastHandledReconcileRequest (imagev1.Status r)
       = imagev1.LastHandledReconcileRequest (imagev1.Status imageRepo))
  ∧ (∀ (db : DB) reconcileStart scanTime providerOptions obj ref when,
       Get_ImageRepository = Found obj →
       controllerutil.ContainsFinalizer obj imagev1.ImageRepositoryFinalizer = true →
       metav1.DeletionTimestamp (imagev1.ObjectMeta obj) = None →
       imagev1.Suspend (imagev1.Spec obj) = false →
       MetricsRecorder = false →
       V1.parseImageReference (imagev1.Image (imagev1.Spec obj)) = Ok ref →
       imagev1.CanonicalImageName (imagev1.Status obj)
       = Repository_String (Reference_Context ref) →
       V1.shouldScan db obj reconcileStart = (true, when, None) →
       out_patched (V1.Reconcile db reconcileStart scanTime providerOptions)
       = [imagev1.Status (V1.scan db scanTime providerOptions obj ref).1.1]).
Proof.
  split; [|split; [|split]].
  - intros db reconcileStart scanTime obj token Hget Hsuspend Hhelper Htoken.
    unfold V2.Reconcile. rewrite Hget, Hsuspend, Hhelper.
    destruct (V2.reconcile db reconcileStart scanTime obj) as [[[res retErr] r] db']
      eqn:Hrec.
    apply V2_reconcile_same_meta in Hrec.
    unfold imagev1.GetAnnotations in *. rewrite Hrec, Htoken.
    eexists. cbn [out_imageRepo out_patched]. by repeat split.
  - intros. by eapply scan_success_records_request.
  - intros. by eapply scan_error_keeps_request.
  - intros. by eapply V1_Reconcile_scans.
Qed.

End request.

(** ** The properties at work on the instances of [Model] *)

Lemma shouldScan_never_scanned_witness :
  @V1.shouldScan _ Model.database Model.fluxmeta Model.alpine_store
    (Model.alpine Model.minute ∅ None "") 5000%Z
  = (true, Model.minute, None).
Proof.
  apply (@shouldScan_never_scanned _ Model.database Model.fluxmeta).
  reflexivity.
Defined.

Lemma shouldScan_interval_witness :
  @V1.shouldScan _ Model.database Model.fluxmeta Model.alpine_store
    (Model.alpine Model.minute ∅ Model.last_scan "")
    (1000 + Model.minute - 2 * time.Second)%Z
  = (false, (2 * time.Second)%Z, None)
  ∧ @V1.shouldScan _ Model.database Model.fluxmeta Model.alpine_store
      (Model.alpine Model.minute ∅ Model.last_scan "")
      (1000 + Model.minute + 1 * time.Second)%Z
    = (true, Model.minute, None)
  ∧ @V1.shouldScan _ Model.database Model.fluxmeta Model.alpine_store
      (Model.alpine Model.minute ∅ Model.last_scan "")
      (1000 + 45 * time.Second)%Z
    = (false, (15 * time.Second)%Z, None)
  ∧ @V1.shouldScan _ Model.database Model.fluxmeta Model.alpine_store
      (Model.alpine Model.minute ∅ Model.last_scan "")
      (1000 + 330 * 365 * 24 * 3600 * time.Second)%Z
    = (true, Model.minute, None).
Proof.
  destruct (@shouldScan_interval _ Model.database Model.fluxmeta Model.alpine_store
              (Model.alpine Model.minute ∅ Model.last_scan "")
              {| imagev1.TagCount := 2%Z; imagev1.ScanTime := 1000%Z |}
              ["3.18"; "3.19"])
    as (Hfits & Hforward & Hbefore & Hafter).
  - reflexivity.
  - intros (syncAt & Hset & _). vm_compute in Hset. discriminate Hset.
  - reflexivity.
  - discriminate.
  - vm_compute. split; discriminate.
  - split; [|split; [exact Hafter|split]].
    + apply Hbefore. vm_compute. split; discriminate.
    + apply (Hfits (1000 + 45 * time.Second)%Z); vm_compute; split; discriminate.
    + apply (Hforward (1000 + 330 * 365 * 24 * 3600 * time.Second)%Z);
        vm_compute; discriminate.
Defined.

(** C2 as the claim has it fails where the remainder leaves the range of
    [time.Duration].  With an interval of -2s and the clock 330 years
    after the last scan, now - T is cut to the greatest duration, the
    subtraction from the interval wraps around, and the scan is not due
    although I - (now - T) is far under a second.  With an interval 5ns
    above the least duration, at T + I - 2s the difference now - T is cut
    to the least duration and the scan is due, not to be awaited for 2s. *)
Lemma shouldScan_remainder_overflow :
  Tags (Database := Model.database) Model.alpine_store
    (imagev1.CanonicalImageName
       (imagev1.Status (Model.alpine (-2 * time.Second) ∅ Model.last_scan "")))
  = Ok ["3.18"; "3.19"]
  ∧ (-2 * time.Second - (1000 + 330 * 365 * 24 * 3600 * time.Second - 1000)
     < time.Second)%Z
  ∧ @V1.shouldScan _ Model.database Model.fluxmeta Model.alpine_store
      (Model.alpine (-2 * time.Second) ∅ Model.last_scan "")
      (1000 + 330 * 365 * 24 * 3600 * time.Second)%Z
    = (false, 9223372034854775809%Z, None)
  ∧ @V1.shouldScan _ Model.database Model.fluxmeta Model.alpine_store
      (Model.alpine (time.minDuration + 5) ∅ Model.last_scan "")
      (1000 + (time.minDuration + 5) - 2 * time.Second)%Z
    = (true, (time.minDuration + 5)%Z, None).
Proof. vm_compute. repeat split. Qed.

Lemma shouldScan_store_error_witness :
  @V1.shouldScan _ Model.closed_database Model.fluxmeta Model.alpine_store
    (Model.alpine Model.minute ∅ Model.last_scan "") 5000%Z
  = (false, Model.minute, Some "DB Closed").
Proof.
  apply (@shouldScan_store_error _ Model.closed_database Model.fluxmeta
           Model.alpine_store (Model.alpine Model.minute ∅ Model.last_scan "")
           {| imagev1.TagCount := 2%Z; imagev1.ScanTime := 1000%Z |}).
  - reflexivity.
  - intros (syncAt & Hset & _). vm_compute in Hset. discriminate Hset.
  - reflexivity.
Defined.

Lemma parseImageReference_validation_witness :
  @V1.parseImageReference Model.imported Model.packages "docker.io/library/alpine"
  = Ok {| Model.tag_Repository :=
            {| Model.registry := "index.docker.io";
               Model.repository := "library/alpine" |};
          Model.tag := "latest" |}
  ∧ @V1.parseImageReference Model.imported Model.packages
      "https://docker.io/library/alpine"
    = Err ".spec.image value should not start with URL scheme; remove 'https://'"
  ∧ @V1.parseImageReference Model.imported Model.packages
      "docker.io/library/alpine:latest"
    = Err ".spec.image value should not contain a tag; remove ':latest'".
Proof.
  destruct (@parseImageReference_validation Model.imported Model.packages
              {| Model.tag_Repository :=
                   {| Model.registry := "index.docker.io";
                      Model.repository := "library/alpine" |};
                 Model.tag := "latest" |}
              {| Model.tag_Repository :=
                   {| Model.registry := "index.docker.io";
                      Model.repository := "library/alpine" |};
                 Model.tag := "latest" |})
    as (Hplain & Hscheme & Htag & _).
  - reflexivity.
  - reflexivity.
  - reflexivity.
  - exact (conj Hplain (conj Hscheme Htag)).
Defined.

Lemma getURLHost_normalizes_witness :
  @V1.getURLHost Model.imported Model.packages "https://index.docker.io/v2/"
  = Ok "index.docker.io"
  ∧ @V1.getURLHost Model.imported Model.packages "index.docker.io"
    = Ok "index.docker.io"
  ∧ @V1.getURLHost Model.imported Model.packages "http://index.docker.io"
    = Ok "index.docker.io"
  ∧ @V1.getURLHost Model.imported Model.packages "http://" = Err "Empty url"
  ∧ @V1.getURLHost Model.imported Model.packages "https://" = Err "Empty url".
Proof.
  apply (@getURLHost_normalizes Model.imported Model.packages
           {| Model.Scheme := "https"; Model.Host := "index.docker.io";
              Model.Path := "/v2/" |}
           {| Model.Scheme := "https"; Model.Host := "index.docker.io";
              Model.Path := "/" |}
           {| Model.Scheme := "http"; Model.Host := "index.docker.io";
              Model.Path := "" |});
    reflexivity.
Defined.

Lemma scan_exclusion_filtering_witness :
  @V1.filterTags Model.imported Model.packages
    [V1.CosignObjectRegex] ["v1.0.0"; "v1.0.0.sig"; "latest"] []
  = Ok ["v1.0.0"; "latest"]
  ∧ ∃ r err,
      @V1.scan Model.imported Model.packages Model.listing
        Model.store Model.database Model.fluxmeta
        Model.alpine_store 9000%Z tt
        (Model.alpine Model.minute ∅ Model.last_scan "")
        {| Model.tag_Repository :=
             {| Model.registry := "index.docker.io";
                Model.repository := "library/alpine" |};
           Model.tag := "latest" |}
      = (r,
         {| Model.entries :=
              {[ "index.docker.io/library/alpine" := ["v1.0.0"; "latest"] ]};
            Model.writes :=
              [("index.docker.io/library/alpine", ["v1.0.0"; "latest"])] |},
         err).
Proof.
  destruct (@scan_exclusion_filtering Model.imported Model.packages Model.listing
              Model.store Model.database Model.fluxmeta
              {| Model.from_start := true;
                 Model.items :=
                   [ {| Model.item_atom := Model.AnyChar; Model.item_star := true |};
                     {| Model.item_atom := Model.Lit "."; Model.item_star := false |};
                     {| Model.item_atom := Model.Lit "s"; Model.item_star := false |};
                     {| Model.item_atom := Model.Lit "i"; Model.item_star := false |};
                     {| Model.item_atom := Model.Lit "g"; Model.item_star := false |} ];
                 Model.to_end := true |})
    as (Hexample & Hdefault & _).
  - reflexivity.
  - reflexivity.
  - reflexivity.
  - reflexivity.
  - split; [exact Hexample|].
    destruct (Hdefault Model.alpine_store 9000%Z tt
                (Model.alpine Model.minute ∅ Model.last_scan "")
                {| Model.tag_Repository :=
                     {| Model.registry := "index.docker.io";
                        Model.repository := "library/alpine" |};
                   Model.tag := "latest" |}
                [remote.WithContext] ["v1.0.0"; "v1.0.0.sig"; "latest"]
                eq_refl eq_refl eq_refl)
      as (r & err & Hscan).
    exists r, err. rewrite Hscan. vm_compute. reflexivity.
Defined.

Lemma scan_listing_error_witness :
  ∃ imageRepo',
    @V1.scan Model.imported Model.packages Model.unreachable
      Model.store Model.database Model.fluxmeta
      Model.alpine_store 9000%Z tt
      (Model.alpine Model.minute ∅ Model.last_scan "")
      {| Model.tag_Repository :=
           {| Model.registry := "index.docker.io";
              Model.repository := "library/alpine" |};
         Model.tag := "latest" |}
    = (imageRepo', Model.alpine_store, Some "registry unreachable")
    ∧ readiness (imagev1.Status imageRepo')
      = Some {| metav1.Type_ := imagev1.ReadyCondition;
                metav1.Status := metav1.ConditionFalse;
                metav1.Reason := metav1.ReconciliationFailedReason;
                metav1.Message := "registry unreachable" |}
    ∧ imagev1.LastScanResult (imagev1.Status imageRepo') = Model.last_scan.
Proof.
  apply (@scan_listing_error Model.imported Model.packages Model.unreachable
           Model.store Model.database Model.fluxmeta
           Model.alpine_store 9000%Z tt
           (Model.alpine Model.minute ∅ Model.last_scan "")
           {| Model.tag_Repository :=
                {| Model.registry := "index.docker.io";
                   Model.repository := "library/alpine" |};
              Model.tag := "latest" |}
           [remote.WithContext]).
  - reflexivity.
  - reflexivity.
Defined.

Lemma transportFromSecret_certificates_witness :
  @V1.transportFromSecret Model.imported Model.packages Model.unreachable
    Model.cert_only
  = Err "client certificate found, but no key".
Proof.
  destruct (@transportFromSecret_certificates Model.imported Model.packages
              Model.unreachable Model.cert_only)
    as (_ & _ & Hcert & _).
  apply Hcert.
  - eexists. reflexivity.
  - reflexivity.
Defined.

(** C8 as the claim has it fails on a secret with keyFile and no
    certFile: one of the two is there, and a transport without
    certificate is returned, not an error. *)
Lemma transportFromSecret_key_without_cert :
  corev1.Data Model.key_only !! V1.ClientCert = None
  ∧ corev1.Data Model.key_only !! V1.ClientKey = Some [Byte.x2d; Byte.x2d]
  ∧ @V1.transportFromSecret Model.imported Model.packages Model.unreachable
      Model.key_only
    = Ok {| http.TLSClientConfig :=
             {| tls.Certificates := []; tls.RootCAs := None |} |}.
Proof. repeat split. Qed.

Lemma request_handled_witness :
  ∃ r,
    out_imageRepo
      (@V2.Reconcile Model.imported Model.packages Model.unreachable
         (Model.apiserver (Model.alpine Model.minute Model.requested Model.last_scan ""))
         Model.store Model.database Model.fluxmeta Model.alpine_store 5000%Z 9000%Z)
    = Some r
    ∧ out_patched
        (@V2.Reconcile Model.imported Model.packages Model.unreachable
           (Model.apiserver (Model.alpine Model.minute Model.requested Model.last_scan ""))
           Model.store Model.database Model.fluxmeta Model.alpine_store 5000%Z 9000%Z)
      = [imagev1.Status r]
    ∧ imagev1.LastHandledReconcileRequest (imagev1.Status r) = "t1".
Proof.
  destruct (@request_handled Model.imported Model.packages Model.unreachable
              (Model.apiserver
                 (Model.alpine Model.minute Model.requested Model.last_scan ""))
              Model.store Model.database Model.fluxmeta)
    as (Hsecond & _).
  apply (Hsecond Model.alpine_store 5000%Z 9000%Z
           (Model.alpine Model.minute Model.requested Model.last_scan "") "t1");
    reflexivity.
Defined.

(** C9 as the claim has it fails on the first variant: the annotation
    holds the token "t1", the scan is due and is attempted, the registry
    cannot be reached, and the status that the pass submits still has the
    empty lastHandledReconcileRequest. *)
Lemma failed_scan_leaves_request :
  ReconcileAnnotationValue (FluxMeta := Model.fluxmeta)
    (imagev1.GetAnnotations (Model.alpine Model.minute Model.requested Model.last_scan ""))
  = Some "t1"
  ∧ @V1.shouldScan _ Model.database Model.fluxmeta Model.alpine_store
      (Model.alpine Model.minute Model.requested Model.last_scan "") 5000%Z
    = (true, Model.minute, None)
  ∧ out_err
      (@V1.Reconcile Model.imported Model.packages Model.unreachable
         (Model.apiserver (Model.alpine Model.minute Model.requested Model.last_scan ""))
         Model.store Model.database Model.fluxmeta Model.alpine_store 5000%Z 9000%Z tt)
    = Some "registry unreachable"
  ∧ imagev1.LastHandledReconcileRequest <$>
      out_patched
        (@V1.Reconcile Model.imported Model.packages Model.unreachable
           (Model.apiserver (Model.alpine Model.minute Model.requested Model.last_scan ""))
           Model.store Model.database Model.fluxmeta Model.alpine_store 5000%Z 9000%Z tt)
    = [""].
Proof. vm_compute. repeat split. Qed.

(** * Further properties of the controller *)

(** ** The answer of the scheduler *)

Section scheduler_answer.
Context {DB : Type} `{!Database DB} `{!FluxMeta}.

(** X1.  An error comes with "not due" and the whole interval; "due" comes
    with the whole interval and no error; and "not due" without error
    never asks to come back in less than a second. *)
Theorem shouldScan_answer (db : DB) (repo : imagev1.ImageRepository) (now : Z)
    (ok : bool) (when : Z) (err : option error) :
  V1.shouldScan db repo now = (ok, when, err) →
  (err ≠ None → ok = false ∧ when = imagev1.Interval (imagev1.Spec repo))
  ∧ (ok = true → when = imagev1.Interval (imagev1.Spec repo) ∧ err = None)
  ∧ (ok = false → err = None → time.Second ≤ when)%Z.
Proof.
  unfold V1.shouldScan. intros Hs.
  repeat (case_scrutinee Hs); injection Hs as <- <- <-;
    repeat split; try done.
  all: intros _ _; by apply Z.ltb_ge.
Qed.

End scheduler_answer.

(** ** What a scan leaves behind *)

Section scan_outcome.
Context `{Imported} `{!Packages} `{!Environment}.
Context {DB : Type} `{!Database DB} `{!FluxMeta}.

Lemma scan_inv (db db' : DB) (scanTime : Z) (providerOptions : ProviderOptions)
    (imageRepo r : imagev1.ImageRepository) (ref : Reference) (e : option error) :
  V1.scan db scanTime providerOptions imageRepo ref = (r, db', e) →
  let name := Repository_String (Reference_Context ref) in
  let patterns := imagev1.ExclusionList (imagev1.Spec (defaulted imageRepo)) in
  (∃ err, V1.scanOptions imageRepo ref providerOptions = Return r err
          ∧ db' = db ∧ e = Some err)
  ∨ (∃ options err,
       V1.scanOptions imageRepo ref providerOptions = Continue options
       ∧ remote_List (Reference_Context ref) options = Err err
       ∧ r = V1.notReady imageRepo err ∧ db' = db ∧ e = Some err)
  ∨ (∃ options tags err,
       V1.scanOptions imageRepo ref providerOptions = Continue options
       ∧ remote_List (Reference_Context ref) options = Ok tags
       ∧ V1.filterTags patterns tags [] = Err err
       ∧ r = defaulted imageRepo ∧ db' = db ∧ e = Some err)
  ∨ (∃ options tags filteredTags err,
       V1.scanOptions imageRepo ref providerOptions = Continue options
       ∧ remote_List (Reference_Context ref) options = Ok tags
       ∧ V1.filterTags patterns tags [] = Ok filteredTags
       ∧ SetTags db name filteredTags = (db', Some err)
       ∧ r = defaulted imageRepo
       ∧ e = Some ("failed to set tags for " +:+ strconv.Quote name +:+ ": " +:+ err))
  ∨ (∃ options tags filteredTags,
       V1.scanOptions imageRepo ref providerOptions = Continue options
       ∧ remote_List (Reference_Context ref) options = Ok tags
       ∧ V1.filterTags patterns tags [] = Ok filteredTags
       ∧ SetTags db name filteredTags = (db', None)
       ∧ e = None
       ∧ imagev1.ObjectMeta r = imagev1.ObjectMeta imageRepo
       ∧ imagev1.Spec r = imagev1.Spec (defaulted imageRepo)
       ∧ imagev1.CanonicalImageName (imagev1.Status r)
         = imagev1.CanonicalImageName (imagev1.Status imageRepo)
       ∧ imagev1.LastScanResult (imagev1.Status r)
         = Some {| imagev1.TagCount := Z.of_nat (length filteredTags);
                   imagev1.ScanTime := scanTime |}
       ∧ imagev1.LastHandledReconcileRequest (imagev1.Status r)
         = default (imagev1.LastHandledReconcileRequest (imagev1.Status imageRepo))
             (ReconcileAnnotationValue (imagev1.GetAnnotations imageRepo))
       ∧ readiness (imagev1.Status r)
         = Some {| metav1.Type_ := imagev1.ReadyCondition;
                   metav1.Status := metav1.ConditionTrue;
                   metav1.Reason := metav1.ReconciliationSucceededReason;
                   metav1.Message :=
                     "successful scan, found "
                     +:+ itoa (length filteredTags) +:+ " tags" |}).
Proof.
  intros Hscan name patterns. unfold V1.scan in Hscan. fold (defaulted imageRepo) in Hscan.
  assert (imagev1.ObjectMeta (defaulted imageRepo) = imagev1.ObjectMeta imageRepo
          ∧ imagev1.Status (defaulted imageRepo) = imagev1.Status imageRepo)
    as [Hmeta Hstatus].
  { unfold defaulted. by destruct (length _ =? 0)%nat. }
  destruct (V1.scanOptions imageRepo ref providerOptions) as [r0 e0|options] eqn:Hopts;
    [left; injection Hscan as <- <- <-; by repeat econstructor|].
  right.
  destruct (remote_List _ _) as [tags|err] eqn:Hlist;
    [|left; injection Hscan as <- <- <-; by repeat econstructor].
  right. fold patterns in Hscan.
  destruct (V1.filterTags patterns tags []) as [filteredTags|err] eqn:Hfilter;
    [|left; injection Hscan as <- <- <-; by repeat econstructor].
  right. fold name in Hscan.
  destruct (SetTags db name filteredTags) as [db1 [err|]] eqn:Hset.
  - left. injection Hscan as <- <- <-. by repeat econstructor.
  - right. injection Hscan as <- <- <-.
    exists options, tags, filteredTags.
    do 5 (split; [done|]).
    unfold imagev1.GetAnnotations. cbn [imagev1.with_Status imagev1.ObjectMeta].
    rewrite Hmeta.
    destruct (ReconcileAnnotationValue _) as [token|]; cbn;
      (split; [exact Hmeta|]); (split; [reflexivity|]);
      (split; [by rewrite Hstatus|]); (split; [reflexivity|]);
      (split; [by rewrite ?Hstatus|]);
      apply (Find_SetStatusCondition _
               {| metav1.Type_ := imagev1.ReadyCondition;
                  metav1.Status := metav1.ConditionTrue;
                  metav1.Reason := metav1.ReconciliationSucceededReason;
                  metav1.Message := _ |}).
Qed.

Lemma scanOptions_Return_eq (imageRepo r : imagev1.ImageRepository) (ref : Reference)
    (providerOptions : ProviderOptions) (err : error) :
  V1.scanOptions imageRepo ref providerOptions = Return r err →
  r = imageRepo ∨ r = V1.notReady imageRepo err.
Proof.
  unfold V1.scanOptions, V1.scanAuth, V1.scanCert, V1.scanServiceAccount.
  intros Hret. repeat (case_scrutinee Hret; try discriminate);
    injection Hret as <- <-; by eauto.
Qed.

Lemma defaulted_cases (imageRepo : imagev1.ImageRepository) :
  (imagev1.ExclusionList (imagev1.Spec imageRepo) ≠ [] ∧ defaulted imageRepo = imageRepo)
  ∨ (imagev1.ExclusionList (imagev1.Spec imageRepo) = []
     ∧ defaulted imageRepo
       = imagev1.with_Spec imageRepo
           (imagev1.with_ExclusionList (imagev1.Spec imageRepo) [V1.CosignObjectRegex])).
Proof.
  unfold defaulted.
  destruct (imagev1.ExclusionList (imagev1.Spec imageRepo)) as [|p l] eqn:Hl;
    [right|left]; done.
Qed.

(** X2.  What a scan without error leaves:
    the listing was filtered by the patterns of the object, the result
    went to the store under the canonical name of the reference, the
    status has the number of stored tags and the time of the scan, and
    the object is ready with that number in the message. *)
Theorem scan_success (db db' : DB) (scanTime : Z) (providerOptions : ProviderOptions)
    (imageRepo r : imagev1.ImageRepository) (ref : Reference) :
  V1.scan db scanTime providerOptions imageRepo ref = (r, db', None) →
  ∃ options tags filteredTags,
    V1.scanOptions imageRepo ref providerOptions = Continue options
    ∧ remote_List (Reference_Context ref) options = Ok tags
    ∧ V1.filterTags (imagev1.ExclusionList (imagev1.Spec r)) tags [] = Ok filteredTags
    ∧ SetTags db (Repository_String (Reference_Context ref)) filteredTags = (db', None)
    ∧ imagev1.LastScanResult (imagev1.Status r)
      = Some {| imagev1.TagCount := Z.of_nat (length filteredTags);
                imagev1.ScanTime := scanTime |}
    ∧ readiness (imagev1.Status r)
      = Some {| metav1.Type_ := imagev1.ReadyCondition;
                metav1.Status := metav1.ConditionTrue;
                metav1.Reason := metav1.ReconciliationSucceededReason;
                metav1.Message :=
                  "successful scan, found " +:+ itoa (length filteredTags) +:+ " tags" |}.
Proof.
  intros Hscan.
  destruct (scan_inv _ _ _ _ _ _ _ _ Hscan)
    as [(err & _ & _ & ?)|[(? & err & _ & _ & _ & _ & ?)|[(? & ? & err & _ & _ & _ & _ & _ & ?)
       |[(? & ? & ? & err & _ & _ & _ & _ & _ & ?)
        |(options & tags & filteredTags & Hopts & Hlist & Hfilter & Hset & _
          & _ & Hspec & _ & Hlast & _ & Hready)]]]];
    try discriminate.
  exists options, tags, filteredTags. rewrite Hspec. done.
Qed.

(** X3.  After a scan without error, on a store that gives back what was
    written, and with the canonical name of the reference in the status:
    if no tag was stored the next scan is due at once, whatever the time;
    otherwise the schedule runs from the time of the scan, also when a
    request by annotation had been pending. *)
Theorem scan_then_shouldScan (db db' : DB) (scanTime : Z)
    (providerOptions : ProviderOptions) (imageRepo r : imagev1.ImageRepository)
    (ref : Reference) :
  V1.scan db scanTime providerOptions imageRepo ref = (r, db', None) →
  (∀ (d d' : DB) name tags, SetTags d name tags = (d', None) → Tags d' name = Ok tags) →
  imagev1.CanonicalImageName (imagev1.Status imageRepo)
  = Repository_String (Reference_Context ref) →
  ∃ n : nat,
    imagev1.LastScanResult (imagev1.Status r)
    = Some {| imagev1.TagCount := Z.of_nat n; imagev1.ScanTime := scanTime |}
    ∧ ∀ now,
        V1.shouldScan db' r now
        = let I := imagev1.Interval (imagev1.Spec imageRepo) in
          if (n =? 0)%nat then (true, I, None)
          else
            let remaining := time.sub I (time.Sub now scanTime) in
            if (remaining <? time.Second)%Z then (true, I, None)
            else (false, remaining, None).
Proof.
  intros Hscan Hlaw Hname.
  destruct (scan_inv _ _ _ _ _ _ _ _ Hscan)
    as [(err & _ & _ & ?)|[(? & err & _ & _ & _ & _ & ?)|[(? & ? & err & _ & _ & _ & _ & _ & ?)
       |[(? & ? & ? & err & _ & _ & _ & _ & _ & ?)
        |(options & tags & filteredTags & _ & _ & _ & Hset & _
          & Hmeta & Hspec & Hcanon & Hlast & Hhandled & _)]]]];
    try discriminate.
  exists (length filteredTags). split; [exact Hlast|].
  intros now. unfold V1.shouldScan, imagev1.GetAnnotations,
    imagev1.GetLastHandledReconcileRequest.
  rewrite Hlast, Hmeta, Hhandled, Hcanon, Hname, (Hlaw _ _ _ _ Hset), Hspec.
  assert (imagev1.Interval (imagev1.Spec (defaulted imageRepo))
          = imagev1.Interval (imagev1.Spec imageRepo)) as ->.
  { by destruct (defaulted_cases imageRepo) as [[_ ->]|[_ ->]]. }
  unfold imagev1.GetAnnotations.
  destruct (ReconcileAnnotationValue _) as [token|]; cbn [default negb];
    rewrite ?String.eqb_refl; reflexivity.
Qed.

(** X4.  A scan that returns an error leaves the object's metadata,
    status.lastScanResult, status.canonicalImageName and
    status.lastHandledReconcileRequest as they were; the whole status is
    as it was, or the object was marked not ready with the text of that
    error. *)
Theorem scan_failure_keeps_status (db db' : DB) (scanTime : Z)
    (providerOptions : ProviderOptions) (imageRepo r : imagev1.ImageRepository)
    (ref : Reference) (err : error) :
  V1.scan db scanTime providerOptions imageRepo ref = (r, db', Some err) →
  imagev1.ObjectMeta r = imagev1.ObjectMeta imageRepo
  ∧ imagev1.LastScanResult (imagev1.Status r)
    = imagev1.LastScanResult (imagev1.Status imageRepo)
  ∧ imagev1.CanonicalImageName (imagev1.Status r)
    = imagev1.CanonicalImageName (imagev1.Status imageRepo)
  ∧ imagev1.LastHandledReconcileRequest (imagev1.Status r)
    = imagev1.LastHandledReconcileRequest (imagev1.Status imageRepo)
  ∧ (imagev1.Status r = imagev1.Status imageRepo
     ∨ imagev1.Status r = imagev1.Status (V1.notReady imageRepo err)).
Proof.
  intros Hscan.
  assert (imagev1.ObjectMeta (defaulted imageRepo) = imagev1.ObjectMeta imageRepo
          ∧ imagev1.Status (defaulted imageRepo) = imagev1.Status imageRepo)
    as [Hmeta Hstatus].
  { by destruct (defaulted_cases imageRepo) as [[_ ->]|[_ ->]]. }
  destruct (scan_inv _ _ _ _ _ _ _ _ Hscan)
    as [(e & Hret & _ & [= <-])
       |[(? & e & _ & _ & -> & _ & [= <-])
        |[(? & ? & e & _ & _ & _ & -> & _ & _)
         |[(? & ? & ? & e & _ & _ & _ & _ & -> & _)
          |(? & ? & ? & _ & _ & _ & _ & ? & _)]]]];
    try discriminate.
  - destruct (scanOptions_Return_eq _ _ _ _ _ Hret) as [->| ->]; by eauto 10.
  - by eauto 10.
  - rewrite Hmeta, Hstatus. by eauto 10.
  - rewrite Hmeta, Hstatus. by eauto 10.
Qed.

(** X5.  Whatever its outcome, a scan changes of the object only the
    status and, once the registry has listed the tags, an empty exclusion
    list of the spec, which becomes the list with the pattern of the
    signatures. *)
Theorem scan_frame (db db' : DB) (scanTime : Z) (providerOptions : ProviderOptions)
    (imageRepo r : imagev1.ImageRepository) (ref : Reference) (e : option error) :
  V1.scan db scanTime providerOptions imageRepo ref = (r, db', e) →
  imagev1.ObjectMeta r = imagev1.ObjectMeta imageRepo
  ∧ imagev1.CanonicalImageName (imagev1.Status r)
    = imagev1.CanonicalImageName (imagev1.Status imageRepo)
  ∧ (imagev1.Spec r = imagev1.Spec imageRepo
     ∨ (imagev1.ExclusionList (imagev1.Spec imageRepo) = []
        ∧ (∃ options tags,
             V1.scanOptions imageRepo ref providerOptions = Continue options
             ∧ remote_List (Reference_Context ref) options = Ok tags)
        ∧ imagev1.Spec r
          = imagev1.with_ExclusionList (imagev1.Spec imageRepo) [V1.CosignObjectRegex])).
Proof.
  intros Hscan.
  assert (imagev1.ObjectMeta (defaulted imageRepo) = imagev1.ObjectMeta imageRepo
          ∧ imagev1.Status (defaulted imageRepo) = imagev1.Status imageRepo)
    as [Hmeta Hstatus].
  { by destruct (defaulted_cases imageRepo) as [[_ ->]|[_ ->]]. }
  assert (∀ options tags,
            V1.scanOptions imageRepo ref providerOptions = Continue options →
            remote_List (Reference_Context ref) options = Ok tags →
            imagev1.Spec (defaulted imageRepo) = imagev1.Spec imageRepo
            ∨ (imagev1.ExclusionList (imagev1.Spec imageRepo) = []
               ∧ (∃ options tags,
                    V1.scanOptions imageRepo ref providerOptions = Continue options
                    ∧ remote_List (Reference_Context ref) options = Ok tags)
               ∧ imagev1.Spec (defaulted imageRepo)
                 = imagev1.with_ExclusionList (imagev1.Spec imageRepo)
                     [V1.CosignObjectRegex])) as Hspec.
  { intros options tags Hopts Hlist.
    destruct (defaulted_cases imageRepo) as [[_ ->]|[Hnil ->]]; [by left|right].
    by eauto 10. }
  destruct (scan_inv _ _ _ _ _ _ _ _ Hscan)
    as [(err & Hret & _ & _)
       |[(? & err & _ & _ & -> & _ & _)
        |[(? & ? & err & Hopts & Hlist & _ & -> & _ & _)
         |[(? & ? & ? & err & Hopts & Hlist & _ & _ & -> & _)
          |(? & ? & ? & Hopts & Hlist & _ & _ & _ & Hm & Hs & Hc & _)]]]].
  - destruct (scanOptions_Return_eq _ _ _ _ _ Hret) as [->| ->]; by eauto.
  - by eauto.
  - rewrite Hmeta, Hstatus. by eauto.
  - rewrite Hmeta, Hstatus. by eauto.
  - rewrite Hm, Hc, Hs. by eauto.
Qed.

(** X6.  A scan writes the store at most once, and under the canonical
    name of the reference: the store that it returns is the one it was
    given, or the one that SetTags makes of it; it is the one it was given
    whenever the options, the listing or a pattern fail. *)
Theorem scan_store (db db' : DB) (scanTime : Z) (providerOptions : ProviderOptions)
    (imageRepo r : imagev1.ImageRepository) (ref : Reference) (e : option error) :
  V1.scan db scanTime providerOptions imageRepo ref = (r, db', e) →
  (db' = db ∧ e ≠ None)
  ∨ ∃ options tags filteredTags,
      V1.scanOptions imageRepo ref providerOptions = Continue options
      ∧ remote_List (Reference_Context ref) options = Ok tags
      ∧ V1.filterTags (imagev1.ExclusionList (imagev1.Spec r)) tags [] = Ok filteredTags
      ∧ db' = (SetTags db (Repository_String (Reference_Context ref)) filteredTags).1.
Proof.
  intros Hscan.
  destruct (scan_inv _ _ _ _ _ _ _ _ Hscan)
    as [(err & _ & -> & ->)
       |[(? & err & _ & _ & _ & -> & ->)
        |[(? & ? & err & _ & _ & _ & _ & -> & ->)
         |[(options & tags & filteredTags & err & Hopts & Hlist & Hfilter & Hset & -> & _)
          |(options & tags & filteredTags & Hopts & Hlist & Hfilter & Hset & _
            & _ & Hspec & _)]]]];
    try (by left).
  - right. exists options, tags, filteredTags. by rewrite Hset.
  - right. exists options, tags, filteredTags. by rewrite Hspec, Hset.
Qed.

End scan_outcome.

(** ** Patterns *)

Section patterns.
Context `{Imported} `{!Packages} `{!Environment}.
Context {DB : Type} `{!Database DB} `{!FluxMeta}.

Lemma filterTags_bad_pattern (before after : list string) (res : list Regexp)
    (regex : string) (err : error) (tags filteredTags : list string) :
  Forall2 (λ regex r, regexp_Compile regex = Ok r) before res →
  regexp_Compile regex = Err err →
  V1.filterTags (before ++ regex :: after) tags filteredTags
  = Err ("failed to compile regex " +:+ regex +:+ ": " +:+ err).
Proof.
  intros Hall Hbad. revert filteredTags.
  induction Hall as [|p r before res Hc _ IH]; intros acc; simpl.
  - by rewrite Hbad.
  - by rewrite Hc, IH.
Qed.

(** X7.  With the patterns compiled, a listed tag is stored unless every
    pattern matches it; nothing else is stored, and no more than the
    listing once for each pattern. *)
Theorem filterTags_membership (exclusionList : list string) (res : list Regexp)
    (tags filteredTags : list string) :
  Forall2 (λ regex r, regexp_Compile regex = Ok r) exclusionList res →
  V1.filterTags exclusionList tags [] = Ok filteredTags →
  (∀ tag, tag ∈ filteredTags
          ↔ tag ∈ tags ∧ ∃ r, r ∈ res ∧ Regexp_MatchString r tag = false)
  ∧ (length filteredTags ≤ length res * length tags)%nat.
Proof.
  intros Hall Hfilter. rewrite (filterTags_compiled _ res tags [] Hall) in Hfilter.
  injection Hfilter as <-. cbn [app]. clear Hall. split.
  - intros tag. rewrite list_elem_of_In, in_concat. split.
    + intros (l & Hl & Htag). apply in_map_iff in Hl as (r & <- & Hr).
      unfold kept in Htag. apply filter_In in Htag as [Htag Hm].
      split; [by apply list_elem_of_In|]. exists r.
      split; [by apply list_elem_of_In|]. by apply negb_true_iff.
    + intros [Htag (r & Hr & Hm)]. exists (kept r tags). split.
      * apply in_map_iff. exists r. split; [reflexivity|]. by apply list_elem_of_In.
      * unfold kept. apply filter_In. split; [by apply list_elem_of_In|].
        by rewrite Hm.
  - induction res as [|r res IH]; simpl; [lia|].
    rewrite length_app. unfold kept at 1.
    pose proof (filter_length_le (λ tag, negb (Regexp_MatchString r tag)) tags). lia.
Qed.

(** X8.  A pattern that does not compile stops the scan after the listing: the
    error names the pattern, and the object and the store are returned as
    they were given; the object is not even marked not ready. *)
Theorem scan_bad_pattern (db : DB) (scanTime : Z) (providerOptions : ProviderOptions)
    (imageRepo : imagev1.ImageRepository) (ref : Reference)
    (options : list remote.Option) (tags before after : list string)
    (res : list Regexp) (regex : string) (err : error) :
  V1.scanOptions imageRepo ref providerOptions = Continue options →
  remote_List (Reference_Context ref) options = Ok tags →
  imagev1.ExclusionList (imagev1.Spec imageRepo) = before ++ regex :: after →
  Forall2 (λ regex r, regexp_Compile regex = Ok r) before res →
  regexp_Compile regex = Err err →
  V1.scan db scanTime providerOptions imageRepo ref
  = (imageRepo, db, Some ("failed to compile regex " +:+ regex +:+ ": " +:+ err)).
Proof.
  intros Hopts Hlist Hpatterns Hall Hbad. unfold V1.scan.
  rewrite Hopts, Hlist, Hpatterns.
  assert ((length (before ++ regex :: after) =? 0)%nat = false) as ->.
  { rewrite length_app. simpl. apply Nat.eqb_neq. lia. }
  by rewrite Hpatterns, (filterTags_bad_pattern _ _ res _ err).
Qed.

End patterns.

(** ** References, hosts and credentials *)

Lemma TrimPrefix_app (p r : string) : strings.TrimPrefix (p +:+ r) p = r.
Proof.
  unfold strings.TrimPrefix. rewrite HasPrefix_app.
  induction p as [|c p IH]; simpl; [reflexivity|exact IH].
Qed.

Lemma find_app_first {A : Type} (f : A → bool) (l1 l2 : list A) :
  List.find f (l1 ++ l2)
  = match List.find f l1 with
    | Some x => Some x
    | None => List.find f l2
    end.
Proof.
  induction l1 as [|x l1 IH]; simpl; [reflexivity|]. by destruct (f x).
Qed.

Section credentials.
Context `{Imported} `{!Packages} `{!Environment}.

Lemma parseImageReference_unparsed (url : string) (err : error) :
  strings.Cut url "://" = None →
  name_ParseReference url = Err err →
  V1.parseImageReference url = Err err.
Proof.
  intros Hcut Hparse. unfold V1.parseImageReference.
  by rewrite (Split_no_sep _ _ Hcut), Hparse.
Qed.

(** X9.  [parseImageReference] accepts exactly the texts without "://" that
    the parser of references accepts and that have no ":" behind the
    registry host of the parsed reference; so a port in the host, which
    is part of what is taken off the front, is not taken for a tag. *)
Theorem parseImageReference_accepts (url : string) (ref : Reference) :
  (V1.parseImageReference url = Ok ref
   ↔ ¬ strings.Contains url "://"
     ∧ name_ParseReference url = Ok ref
     ∧ ¬ strings.Contains
           (strings.TrimPrefix url (Repository_RegistryStr (Reference_Context ref))) ":")
  ∧ (∀ path,
       url = Repository_RegistryStr (Reference_Context ref) +:+ path →
       ¬ strings.Contains url "://" →
       name_ParseReference url = Ok ref →
       ¬ strings.Contains path ":" →
       V1.parseImageReference url = Ok ref).
Proof.
  assert (¬ strings.Contains url "://" →
          name_ParseReference url = Ok ref →
          ¬ strings.Contains
              (strings.TrimPrefix url (Repository_RegistryStr (Reference_Context ref))) ":" →
          V1.parseImageReference url = Ok ref) as Hif.
  { intros Hno Hparse Htag.
    rewrite (parseImageReference_parsed _ ref); [|by apply Cut_not_Contains|exact Hparse].
    by rewrite Cut_not_Contains. }
  split.
  - split; [|intros (? & ? & ?); by apply Hif].
    intros Hok.
    destruct (strings.Cut url "://") as [[scheme rest]|] eqn:Hcut.
    { rewrite (parseImageReference_scheme _ _ _ Hcut) in Hok. discriminate. }
    destruct (name_ParseReference url) as [ref'|err] eqn:Hparse.
    2:{ rewrite (parseImageReference_unparsed _ _ Hcut Hparse) in Hok. discriminate. }
    rewrite (parseImageReference_parsed _ ref' Hcut Hparse) in Hok.
    destruct (strings.Cut (strings.TrimPrefix url _) ":") as [[name after]|] eqn:Hc;
      [discriminate|].
    injection Hok as ->. split; [by apply Cut_None|]. split; [reflexivity|].
    by apply Cut_None.
  - intros path Hurl Hno Hparse Hpath. apply Hif; [done|done|].
    by rewrite Hurl, TrimPrefix_app.
Qed.

(** X10.  [getURLHost] gives a host exactly when the key is not a bare scheme
    and the parser of URLs finds a host in the key, which is taken as it
    is if it starts with [http://] or [https://] and between [https://]
    and [/] if not; the host it gives is never empty. *)
Theorem getURLHost_host (urlStr host : string) :
  V1.getURLHost urlStr = Ok host
  ↔ urlStr ≠ "http://" ∧ urlStr ≠ "https://" ∧ host ≠ ""
    ∧ ∃ u, url_Parse (with_scheme urlStr) = Ok u ∧ URL_Host u = host.
Proof.
  unfold V1.getURLHost. fold (with_scheme urlStr).
  destruct (String.eqb_spec urlStr "http://") as [->|Hhttp].
  { split; [discriminate|]. by intros [? _]. }
  destruct (String.eqb_spec urlStr "https://") as [->|Hhttps].
  { split; [discriminate|]. by intros (_ & ? & _). }
  cbn [orb]. destruct (url_Parse (with_scheme urlStr)) as [u|err].
  - destruct (String.eqb_spec (URL_Host u) "") as [Hempty|Hhost].
    + split; [discriminate|]. intros (_ & _ & Hne & u' & [= <-] & <-). done.
    + split.
      * intros [= <-]. by eauto 10.
      * by intros (_ & _ & _ & u' & [= <-] & <-).
  - split; [discriminate|]. by intros (_ & _ & _ & u' & ? & _).
Qed.

Lemma parseAuthMap_range_lookup (auths : list (string * AuthConfig))
    (auth m : gmap string AuthConfig) :
  V1.parseAuthMap_range auths auth = Ok m →
  ∀ host,
    m !! host
    = match host_entry V1.getURLHost auths host with
      | Some entry => Some entry
      | None => auth !! host
      end.
Proof.
  revert auth. induction auths as [|[url entry] auths IH]; intros auth; simpl.
  - intros [= <-] host. reflexivity.
  - destruct (V1.getURLHost url) as [h|err] eqn:Hurl; [|discriminate].
    intros Hrange host. rewrite (IH _ Hrange host).
    unfold host_entry. simpl. rewrite find_app_first.
    destruct (List.find _ (rev auths)) as [kv|]; [reflexivity|].
    simpl. rewrite Hurl. destruct (String.eqb_spec h host) as [->|Hne]; simpl.
    + by rewrite lookup_insert_eq.
    + by rewrite lookup_insert_ne.
Qed.

Lemma parseAuthMap_range_Ok (auths : list (string * AuthConfig))
    (auth : gmap string AuthConfig) :
  (∃ m, V1.parseAuthMap_range auths auth = Ok m)
  ↔ Forall (λ kv, ∃ host, V1.getURLHost kv.1 = Ok host) auths.
Proof.
  revert auth. induction auths as [|[url entry] auths IH]; intros auth; simpl.
  - split; [by constructor|by eauto].
  - destruct (V1.getURLHost url) as [h|err] eqn:Hurl.
    + rewrite IH. split.
      * intros Hall. constructor; [by eauto|exact Hall].
      * by inversion 1.
    + split; [by intros [m ?]|]. inversion 1 as [|? ? [h Hh]]; subst.
      simpl in Hh. congruence.
Qed.

(** X11.  [parseAuthMap] gives a map exactly when every key of the
    configuration has a host, and an error of a key is the error of the
    whole; the map gives for a host the credentials of the entry visited
    last among those whose key has that host. *)
Theorem parseAuthMap_lookup (config : dockerConfig) :
  ((∃ m, V1.parseAuthMap config = Ok m)
   ↔ Forall (λ kv, ∃ host, V1.getURLHost kv.1 = Ok host) (Auths config))
  ∧ (∀ m host,
       V1.parseAuthMap config = Ok m →
       m !! host = host_entry V1.getURLHost (Auths config) host)
  ∧ (∀ err,
       V1.parseAuthMap config = Err err →
       ∃ kv, kv ∈ Auths config ∧ V1.getURLHost kv.1 = Err err).
Proof.
  unfold V1.parseAuthMap. split; [apply parseAuthMap_range_Ok|]. split.
  - intros m host Hm. rewrite (parseAuthMap_range_lookup _ _ _ Hm host).
    destruct (host_entry _ _ _); [reflexivity|apply lookup_empty].
  - generalize (∅ : gmap string AuthConfig).
    induction (Auths config) as [|[url entry] auths IH]; intros auth err; simpl;
      [discriminate|].
    destruct (V1.getURLHost url) as [h|e] eqn:Hurl.
    + intros (kv & Hin & Hkv)%IH. exists kv. split; [by right|exact Hkv].
    + intros [= <-]. exists (url, entry). split; [by left|exact Hurl].
Qed.

(** X12.  [authFromSecret] gives an authenticator only for a secret of the type
    of docker configurations, and then it is made of the credentials
    that the decoded configuration gives for the registry host of the
    reference; a secret of another type is refused with its type in the
    error, and a configuration without entry for the host with the host
    and the name of the secret in the error. *)
Theorem authFromSecret_result (secret : corev1.Secret) (ref : Reference) :
  let registry := Repository_RegistryStr (Reference_Context ref) in
  (∀ auth,
     V1.authFromSecret secret ref = Ok auth →
     corev1.Type_ secret = "kubernetes.io/dockerconfigjson"
     ∧ ∃ config entry,
         json_Decode (default [] (corev1.Data secret !! ".dockerconfigjson")) = Ok config
         ∧ host_entry V1.getURLHost (Auths config) registry = Some entry
         ∧ auth = authn_FromConfig entry)
  ∧ (corev1.Type_ secret ≠ "kubernetes.io/dockerconfigjson" →
     V1.authFromSecret secret ref
     = Err ("unknown secret type " +:+ strconv.Quote (corev1.Type_ secret)))
  ∧ (∀ config,
       corev1.Type_ secret = "kubernetes.io/dockerconfigjson" →
       json_Decode (default [] (corev1.Data secret !! ".dockerconfigjson")) = Ok config →
       Forall (λ kv, ∃ host, V1.getURLHost kv.1 = Ok host) (Auths config) →
       host_entry V1.getURLHost (Auths config) registry = None →
       V1.authFromSecret secret ref
       = Err ("auth for " +:+ strconv.Quote registry +:+ " not found in secret "
              +:+ corev1.Namespace secret +:+ "/" +:+ corev1.Name secret)).
Proof.
  intros registry. unfold V1.authFromSecret. fold registry. split; [|split].
  - intros auth Hauth.
    destruct (String.eqb_spec (corev1.Type_ secret) "kubernetes.io/dockerconfigjson")
      as [Htype|]; [|discriminate].
    split; [exact Htype|].
    destruct (json_Decode _) as [config|]; [|discriminate].
    destruct (V1.parseAuthMap config) as [authMap|] eqn:Hmap; [|discriminate].
    destruct (authMap !! registry) as [entry|] eqn:Hentry; [|discriminate].
    injection Hauth as <-. exists config, entry. split; [reflexivity|].
    split; [|reflexivity].
    unfold V1.parseAuthMap in Hmap.
    rewrite (parseAuthMap_range_lookup _ _ _ Hmap registry) in Hentry.
    destruct (host_entry _ _ _); [exact Hentry|by rewrite lookup_empty in Hentry].
  - intros Htype. by destruct (String.eqb_spec (corev1.Type_ secret)
                                 "kubernetes.io/dockerconfigjson").
  - intros config Htype Hdecode Hall Hnone.
    rewrite Htype, String.eqb_refl, Hdecode.
    apply parseAuthMap_range_Ok with (auth := ∅) in Hall as [authMap Hmap].
    unfold V1.parseAuthMap. rewrite Hmap.
    rewrite (parseAuthMap_range_lookup _ _ _ Hmap registry), Hnone, lookup_empty.
    reflexivity.
Qed.

(** X13.  The secrets of a service account are read in the order of their
    names: all of them are given when all can be read, and otherwise the
    error is that of the first that cannot. *)
Theorem getPullSecrets_result (namespace : string)
    (ips : list imagev1.LocalObjectReference) :
  (∀ secrets,
     V1.getPullSecrets namespace ips = Ok secrets
     ↔ Forall2 (λ r s, Get_Secret namespace (imagev1.RefName r) = Ok s) ips secrets)
  ∧ (∀ err,
       V1.getPullSecrets namespace ips = Err err
       ↔ ∃ before r after secrets,
           ips = before ++ r :: after
           ∧ Forall2 (λ r s, Get_Secret namespace (imagev1.RefName r) = Ok s)
               before secrets
           ∧ Get_Secret namespace (imagev1.RefName r) = Err err).
Proof.
  induction ips as [|r ips [IHok IHerr]]; simpl.
  - split.
    + intros secrets. split; [intros [= <-]; constructor|by inversion 1].
    + intros err. split; [discriminate|].
      intros (before & r & after & secrets & Heq & _). by destruct before.
  - destruct (Get_Secret namespace (imagev1.RefName r)) as [s|e] eqn:Hget.
    + destruct (V1.getPullSecrets namespace ips) as [l|e] eqn:Hrest.
      * split.
        -- intros secrets. split.
           ++ intros [= <-]. constructor; [exact Hget|]. by apply IHok.
           ++ inversion 1 as [|? s' ? l' Hs Hl]; subst.
              apply IHok in Hl as [= <-]. congruence.
        -- intros err. split; [discriminate|].
           intros (before & r' & after & secrets & Heq & Hall & Hbad).
           destruct before as [|r0 before]; simpl in Heq; injection Heq as -> ->.
           ++ congruence.
           ++ inversion Hall as [|? ? ? secrets' _ Hall']; subst.
              assert (Ok l = Err err) as Habs; [|discriminate Habs].
              apply IHerr. by exists before, r', after, secrets'.
      * split.
        -- intros secrets. split; [discriminate|].
           inversion 1 as [|? s' ? l' Hs Hl]; subst. by apply IHok in Hl.
        -- intros err. split.
           ++ intros [= <-].
              destruct (proj1 (IHerr e) eq_refl)
                as (before & r' & after & secrets & -> & Hall & Hbad).
              exists (r :: before), r', after, (s :: secrets).
              split; [reflexivity|]. split; [by constructor|exact Hbad].
           ++ intros (before & r' & after & secrets & Heq & Hall & Hbad).
              destruct before as [|r0 before]; simpl in Heq; injection Heq as -> ->.
              ** congruence.
              ** inversion Hall as [|? ? ? secrets' _ Hall']; subst.
                 apply (IHerr err). by exists before, r', after, secrets'.
    + split.
      * intros secrets. split; [discriminate|].
        inversion 1 as [|? s' ? l' Hs Hl]; subst. congruence.
      * intros err. split.
        -- intros [= <-]. exists [], r, ips, []. by repeat split; [constructor|].
        -- intros (before & r' & after & secrets & Heq & Hall & Hbad).
           destruct before as [|r0 before]; simpl in Heq; injection Heq as -> ->.
           ++ congruence.
           ++ inversion Hall as [|? s' ? ? Hs _]; subst. congruence.
Qed.

(** X14.  The functions that the two variants have in common give the same
    results in both. *)
Theorem helpers_variants_agree :
  (∀ urlStr, V1.getURLHost urlStr = V2.getURLHost urlStr)
  ∧ (∀ config, V1.parseAuthMap config = V2.parseAuthMap config)
  ∧ (∀ secret ref, V1.authFromSecret secret ref = V2.authFromSecret secret ref)
  ∧ (∀ certSecret, V1.transportFromSecret certSecret = V2.transportFromSecret certSecret).
Proof.
  assert (∀ urlStr, V1.getURLHost urlStr = V2.getURLHost urlStr) as Hhost.
  { intros urlStr. unfold V1.getURLHost, V2.getURLHost.
    destruct (_ || _); [reflexivity|]. by destruct (url_Parse _). }
  assert (∀ config, V1.parseAuthMap config = V2.parseAuthMap config) as Hmap.
  { intros [auths]. unfold V1.parseAuthMap, V2.parseAuthMap. cbn [Auths].
    generalize (∅ : gmap string AuthConfig).
    induction auths as [|[url entry] auths IH]; intros auth; simpl; [reflexivity|].
    pose proof (Hhost url) as Hurl.
    destruct (V1.getURLHost url), (V2.getURLHost url); try discriminate;
      injection Hurl as <-; [apply IH|reflexivity]. }
  split; [exact Hhost|]. split; [exact Hmap|]. split.
  - intros secret ref. unfold V1.authFromSecret, V2.authFromSecret.
    destruct (String.eqb _ _); [|reflexivity].
    destruct (json_Decode _) as [config|]; [|reflexivity].
    pose proof (Hmap config) as Hconfig.
    destruct (V1.parseAuthMap config), (V2.parseAuthMap config); try discriminate;
      by injection Hconfig as <-.
  - intros certSecret. unfold V1.transportFromSecret, V2.transportFromSecret.
    unfold V1.ClientCert, V2.ClientCert, V1.ClientKey, V2.ClientKey, V1.CACert, V2.CACert.
    reflexivity.
Qed.

End credentials.

(** ** A pass of the reconciler *)

Lemma AddFinalizer_frame (o : imagev1.ImageRepository) (finalizer : string) :
  imagev1.Spec (controllerutil.AddFinalizer o finalizer) = imagev1.Spec o
  ∧ imagev1.Status (controllerutil.AddFinalizer o finalizer) = imagev1.Status o
  ∧ metav1.DeletionTimestamp
      (imagev1.ObjectMeta (controllerutil.AddFinalizer o finalizer))
    = metav1.DeletionTimestamp (imagev1.ObjectMeta o)
  ∧ metav1.Annotations (imagev1.ObjectMeta (controllerutil.AddFinalizer o finalizer))
    = metav1.Annotations (imagev1.ObjectMeta o)
  ∧ finalizer
    ∈ metav1.Finalizers (imagev1.ObjectMeta (controllerutil.AddFinalizer o finalizer)).
Proof.
  unfold controllerutil.AddFinalizer, controllerutil.ContainsFinalizer.
  destruct (bool_decide _) eqn:Hc.
  - apply bool_decide_eq_true in Hc. done.
  - repeat split. simpl. set_solver.
Qed.

Lemma RemoveFinalizer_frame (o : imagev1.ImageRepository) (finalizer : string) :
  imagev1.Spec (controllerutil.RemoveFinalizer o finalizer) = imagev1.Spec o
  ∧ imagev1.Status (controllerutil.RemoveFinalizer o finalizer) = imagev1.Status o
  ∧ finalizer
    ∉ metav1.Finalizers (imagev1.ObjectMeta (controllerutil.RemoveFinalizer o finalizer)).
Proof.
  repeat split. simpl. rewrite list_elem_of_filter. by intros [? _].
Qed.

Section pass.
Context `{Imported} `{!Packages} `{!Environment} `{!APIServer}.
Context {DB : Type} `{!Database DB} `{!FluxMeta}.

Lemma finalizer_step (obj : imagev1.ImageRepository) :
  registered obj →
  (if negb (controllerutil.ContainsFinalizer obj imagev1.ImageRepositoryFinalizer)
   then
     match Patch (controllerutil.AddFinalizer obj imagev1.ImageRepositoryFinalizer) with
     | Some err =>
         Return (controllerutil.AddFinalizer obj imagev1.ImageRepositoryFinalizer) err
     | None => Continue (controllerutil.AddFinalizer obj imagev1.ImageRepositoryFinalizer)
     end
   else Continue obj)
  = Continue (controllerutil.AddFinalizer obj imagev1.ImageRepositoryFinalizer).
Proof.
  intros [Hc|Hp].
  - rewrite Hc. unfold controllerutil.AddFinalizer. by rewrite Hc.
  - destruct (controllerutil.ContainsFinalizer obj _) eqn:Hc; cbn [negb].
    + unfold controllerutil.AddFinalizer. by rewrite Hc.
    + by rewrite Hp.
Qed.

(** The object is the one it was, when the name that is put into its
    status is the one it has. *)
Lemma with_CanonicalImageName_same (o : imagev1.ImageRepository) (c : string) :
  imagev1.CanonicalImageName (imagev1.Status o) = c →
  imagev1.with_Status o (imagev1.with_CanonicalImageName (imagev1.Status o) c) = o.
Proof. destruct o as [m sp [conds name last handled]]. cbn. by intros ->. Qed.

(** X15.  The two results of a pass of the first variant: an error never comes
    with a time to come back after, and a pass without error never asks
    for the immediate requeue.  In the second variant a pass without
    error does not ask for it either, and an error comes with a time to
    come back after only when it is the patch at the end that failed; the
    error is then the error of that patch.  That does happen: a failure
    of the patch at the end always makes the pass return an error, and
    when the scan is not due the pass still returns the wait of the
    scheduler as the time to come back after. *)
Theorem Reconcile_result (db : DB) (reconcileStart scanTime : Z)
    (providerOptions : ProviderOptions) :
  ((out_err (V1.Reconcile db reconcileStart scanTime providerOptions) ≠ None →
    ctrl.RequeueAfter (out_result (V1.Reconcile db reconcileStart scanTime providerOptions))
    = 0%Z)
   ∧ (out_err (V1.Reconcile db reconcileStart scanTime providerOptions) = None →
      ctrl.Requeue (out_result (V1.Reconcile db reconcileStart scanTime providerOptions))
      = false))
  ∧ ((out_err (V2.Reconcile db reconcileStart scanTime) = None →
      ctrl.Requeue (out_result (V2.Reconcile db reconcileStart scanTime)) = false)
     ∧ (out_err (V2.Reconcile db reconcileStart scanTime) ≠ None →
        ctrl.RequeueAfter (out_result (V2.Reconcile db reconcileStart scanTime)) ≠ 0%Z →
        ∃ r err,
          out_imageRepo (V2.Reconcile db reconcileStart scanTime) = Some r
          ∧ Helper_Patch r = Some err
          ∧ out_err (V2.Reconcile db reconcileStart scanTime) = Some err
          ∧ ctrl.Requeue (out_result (V2.Reconcile db reconcileStart scanTime)) = false)
     ∧ (∀ r err,
          out_imageRepo (V2.Reconcile db reconcileStart scanTime) = Some r →
          out_patched (V2.Reconcile db reconcileStart scanTime) = [imagev1.Status r] →
          Helper_Patch r = Some err →
          out_err (V2.Reconcile db reconcileStart scanTime) ≠ None)
     ∧ (∀ obj ref when,
          Get_ImageRepository = Found obj →
          imagev1.Suspend (imagev1.Spec obj) = false →
          patch_NewHelper obj = None →
          name_ParseReference (imagev1.Image (imagev1.Spec obj)) = Ok ref →
          V2.shouldScan db
            (imagev1.with_Status obj
               (imagev1.with_CanonicalImageName (imagev1.Status obj)
                  (Repository_String (Reference_Context ref))))
            reconcileStart
          = (false, when, None) →
          out_result (V2.Reconcile db reconcileStart scanTime)
          = {| ctrl.Requeue := false; ctrl.RequeueAfter := when |})).
Proof.
  split.
  - unfold V1.Reconcile. repeat case_match; cbn; split; congruence.
  - split; [|split; [|split]].
    + unfold V2.Reconcile, V2.reconcile.
      repeat case_match; cbn; try congruence; simplify_eq; cbn in *; congruence.
    + unfold V2.Reconcile, V2.reconcile.
      repeat case_match; cbn; try congruence; simplify_eq; cbn in *;
        try congruence; intros _ _; by eauto 10.
    + intros r err. unfold V2.Reconcile.
      destruct Get_ImageRepository as [obj| |]; cbn; try discriminate.
      destruct (imagev1.Suspend _); cbn; [discriminate|].
      destruct (patch_NewHelper _); cbn; [discriminate|].
      destruct (V2.reconcile _ _ _ _) as [[[res retErr] r0] db0]. cbn.
      intros [= <-] _ Hpatch. rewrite Hpatch. discriminate.
    + intros obj ref when Hget Hsusp Hhelper Hparse Hdue.
      unfold V2.Reconcile, V2.reconcile.
      rewrite Hget, Hsusp, Hhelper, Hparse.
      destruct (String.eqb_spec (imagev1.CanonicalImageName (imagev1.Status obj))
                  (Repository_String (Reference_Context ref))) as [Hc|_]; cbn [negb].
      * rewrite (with_CanonicalImageName_same _ _ Hc) in Hdue. by rewrite Hdue.
      * by rewrite Hdue.
Qed.

(** X16.  A pass changes the store only by a scan that the scheduler said was
    due.  That scan is run on the object that the API server gave, with
    the finalizer added and the canonical name of the reference in the
    status, and on the reference that [parseImageReference] makes of its
    spec.image; the scheduler has been asked about that same object, so
    that it reads the store under the name under which the scan writes
    it; and the object in memory at the end is the one that the scan
    leaves. *)
Theorem Reconcile_store (db : DB) (reconcileStart scanTime : Z)
    (providerOptions : ProviderOptions) :
  out_db (V1.Reconcile db reconcileStart scanTime providerOptions) = db
  ∨ ∃ found ref when,
      let obj :=
        imagev1.with_Status
          (controllerutil.AddFinalizer found imagev1.ImageRepositoryFinalizer)
          (imagev1.with_CanonicalImageName (imagev1.Status found)
             (Repository_String (Reference_Context ref))) in
      Get_ImageRepository = Found found
      ∧ V1.parseImageReference (imagev1.Image (imagev1.Spec found)) = Ok ref
      ∧ V1.shouldScan db obj reconcileStart = (true, when, None)
      ∧ out_db (V1.Reconcile db reconcileStart scanTime providerOptions)
        = (V1.scan db scanTime providerOptions obj ref).1.2
      ∧ out_imageRepo (V1.Reconcile db reconcileStart scanTime providerOptions)
        = Some (V1.scan db scanTime providerOptions obj ref).1.1.
Proof.
  unfold V1.Reconcile.
  destruct Get_ImageRepository as [found| |] eqn:Hget; [|by left..].
  destruct (if negb _ then _ else _) as [r0 e0|obj1] eqn:Hreg in |- *; [by left|].
  assert (obj1 = controllerutil.AddFinalizer found imagev1.ImageRepositoryFinalizer)
    as ->.
  { unfold controllerutil.AddFinalizer.
    destruct (controllerutil.ContainsFinalizer found _) eqn:Hc; cbn [negb] in Hreg.
    - by injection Hreg as <-.
    - unfold controllerutil.AddFinalizer in Hreg. rewrite Hc in Hreg.
      destruct (Patch _); [discriminate|]. by injection Hreg as <-. }
  clear Hreg.
  destruct (AddFinalizer_frame found imagev1.ImageRepositoryFinalizer)
    as (Hspec & Hstatus & _).
  rewrite Hspec.
  destruct (bool_decide _); [destruct (Update _); by left|].
  destruct (imagev1.Suspend _); [destruct (V1.patchStatus _); by left|].
  destruct (if MetricsRecorder then _ else _); [by left|].
  destruct (V1.parseImageReference _) as [ref|err] eqn:Hparse;
    [|destruct (V1.patchStatus _); by left].
  destruct (negb (String.eqb _ _)) eqn:Hname.
  - destruct (V1.patchStatus _); [by left|].
    rewrite Hstatus.
    destruct (V1.shouldScan _ _ _) as [[ok when] [e|]] eqn:Hdue; [by left|].
    destruct ok; [|by left]. right.
    exists found, ref, when. cbv zeta.
    split; [reflexivity|]. split; [exact Hparse|]. split; [exact Hdue|].
    destruct (V1.scan _ _ _ _ _) as [[r db'] e].
    destruct (V1.patchStatus _); [done|]. by destruct e.
  - apply negb_false_iff, String.eqb_eq in Hname.
    rewrite <- (with_CanonicalImageName_same _ _ Hname). rewrite Hstatus.
    destruct (V1.shouldScan _ _ _) as [[ok when] [e|]] eqn:Hdue; [by left|].
    destruct ok; [|by left]. right.
    exists found, ref, when. cbv zeta.
    split; [reflexivity|]. split; [exact Hparse|]. split; [exact Hdue|].
    destruct (V1.scan _ _ _ _ _) as [[r db'] e].
    destruct (V1.patchStatus _); [done|]. by destruct e.
Qed.

(** X17.  A suspended object is not scanned.  The first variant marks it not
    ready for the reason of suspension, submits that status, and leaves
    the store and the record of the last scan alone; the second variant
    returns at once and submits nothing. *)
Theorem Reconcile_suspended (db : DB) (reconcileStart scanTime : Z)
    (providerOptions : ProviderOptions) (obj : imagev1.ImageRepository) :
  Get_ImageRepository = Found obj →
  imagev1.Suspend (imagev1.Spec obj) = true →
  (registered obj →
   metav1.DeletionTimestamp (imagev1.ObjectMeta obj) = None →
   ∃ r,
     out_imageRepo (V1.Reconcile db reconcileStart scanTime providerOptions) = Some r
     ∧ out_patched (V1.Reconcile db reconcileStart scanTime providerOptions)
       = [imagev1.Status r]
     ∧ out_db (V1.Reconcile db reconcileStart scanTime providerOptions) = db
     ∧ readiness (imagev1.Status r)
       = Some {| metav1.Type_ := imagev1.ReadyCondition;
                 metav1.Status := metav1.ConditionFalse;
                 metav1.Reason := metav1.SuspendedReason;
                 metav1.Message :=
                   "ImageRepository is suspended, skipping reconciliation" |}
     ∧ imagev1.LastScanResult (imagev1.Status r)
       = imagev1.LastScanResult (imagev1.Status obj)
     ∧ out_err (V1.Reconcile db reconcileStart scanTime providerOptions)
       = V1.patchStatus (imagev1.Status r)
     ∧ ctrl.RequeueAfter
         (out_result (V1.Reconcile db reconcileStart scanTime providerOptions)) = 0%Z)
  ∧ V2.Reconcile db reconcileStart scanTime
    = {| out_result := {| ctrl.Requeue := false; ctrl.RequeueAfter := 0%Z |};
         out_err := None; out_imageRepo := Some obj; out_db := db;
         out_patched := [] |}.
Proof.
  intros Hget Hsuspend. split.
  - intros Hreg Hdel. unfold V1.Reconcile. rewrite Hget. cbv zeta.
    rewrite (finalizer_step obj Hreg).
    destruct (AddFinalizer_frame obj imagev1.ImageRepositoryFinalizer)
      as (Hspec & Hstatus & Hdeletion & _).
    rewrite Hdeletion, Hdel, bool_decide_eq_false_2 by (intros Hne; by apply Hne).
    rewrite Hspec, Hsuspend.
    eexists. destruct (V1.patchStatus _) eqn:Hpatch; cbn [out_imageRepo out_patched
      out_db out_err out_result ctrl.RequeueAfter];
      (split; [reflexivity|]); (split; [reflexivity|]); (split; [reflexivity|]);
      (split; [apply readiness_Set|]); (split; [by rewrite <- Hstatus|]);
      by rewrite Hpatch.
  - unfold V2.Reconcile. by rewrite Hget, Hsuspend.
Qed.

(** X18.  An object that is being deleted is not scanned: the pass of the first
    variant takes the finalizer off, submits the object, and touches
    neither the store nor the status. *)
Theorem Reconcile_deleting (db : DB) (reconcileStart scanTime : Z)
    (providerOptions : ProviderOptions) (obj : imagev1.ImageRepository) :
  Get_ImageRepository = Found obj →
  registered obj →
  metav1.DeletionTimestamp (imagev1.ObjectMeta obj) ≠ None →
  ∃ r,
    out_imageRepo (V1.Reconcile db reconcileStart scanTime providerOptions) = Some r
    ∧ (imagev1.ImageRepositoryFinalizer ∉ metav1.Finalizers (imagev1.ObjectMeta r))
    ∧ imagev1.Status r = imagev1.Status obj
    ∧ out_err (V1.Reconcile db reconcileStart scanTime providerOptions) = Update r
    ∧ out_result (V1.Reconcile db reconcileStart scanTime providerOptions)
      = {| ctrl.Requeue := false; ctrl.RequeueAfter := 0%Z |}
    ∧ out_db (V1.Reconcile db reconcileStart scanTime providerOptions) = db
    ∧ out_patched (V1.Reconcile db reconcileStart scanTime providerOptions) = [].
Proof.
  intros Hget Hreg Hdel. unfold V1.Reconcile. rewrite Hget. cbv zeta.
  rewrite (finalizer_step obj Hreg).
  destruct (AddFinalizer_frame obj imagev1.ImageRepositoryFinalizer)
    as (Hspec & Hstatus & Hdeletion & _).
  rewrite Hdeletion, bool_decide_eq_true_2 by exact Hdel.
  destruct (RemoveFinalizer_frame
              (controllerutil.AddFinalizer obj imagev1.ImageRepositoryFinalizer)
              imagev1.ImageRepositoryFinalizer) as (_ & Hstatus' & Hnot).
  eexists. destruct (Update _) eqn:Hupdate; cbn [out_imageRepo out_patched
    out_db out_err out_result];
    (split; [reflexivity|]); (split; [exact Hnot|]);
    (split; [by rewrite Hstatus', Hstatus|]); by rewrite Hupdate.
Qed.

(** X19.  A spec.image that [parseImageReference] refuses is not scanned: the
    object is marked not ready for the reason of the invalid URL with the
    text of the refusal, that status is submitted, the pass ends in an
    error and asks for the requeue, and the store and the record of the
    last scan are as they were. *)
Theorem Reconcile_invalid_image (db : DB) (reconcileStart scanTime : Z)
    (providerOptions : ProviderOptions) (obj : imagev1.ImageRepository)
    (msg : error) :
  Get_ImageRepository = Found obj →
  at_work obj →
  V1.parseImageReference (imagev1.Image (imagev1.Spec obj)) = Err msg →
  ∃ r,
    out_imageRepo (V1.Reconcile db reconcileStart scanTime providerOptions) = Some r
    ∧ out_patched (V1.Reconcile db reconcileStart scanTime providerOptions)
      = [imagev1.Status r]
    ∧ readiness (imagev1.Status r)
      = Some {| metav1.Type_ := imagev1.ReadyCondition;
                metav1.Status := metav1.ConditionFalse;
                metav1.Reason := metav1.ImageURLInvalidReason;
                metav1.Message := msg |}
    ∧ imagev1.LastScanResult (imagev1.Status r)
      = imagev1.LastScanResult (imagev1.Status obj)
    ∧ out_err (V1.Reconcile db reconcileStart scanTime providerOptions)
      = Some (default
                ("Unable to parse image name: " +:+ imagev1.Image (imagev1.Spec obj)
                 +:+ ": " +:+ msg)
                (V1.patchStatus (imagev1.Status r)))
    ∧ out_result (V1.Reconcile db reconcileStart scanTime providerOptions)
      = {| ctrl.Requeue := true; ctrl.RequeueAfter := 0%Z |}
    ∧ out_db (V1.Reconcile db reconcileStart scanTime providerOptions) = db.
Proof.
  intros Hget (Hreg & Hdel & Hsuspend & Hmetrics) Hparse.
  unfold V1.Reconcile. rewrite Hget. cbv zeta.
  rewrite (finalizer_step obj Hreg).
  destruct (AddFinalizer_frame obj imagev1.ImageRepositoryFinalizer)
    as (Hspec & Hstatus & Hdeletion & _).
  rewrite Hdeletion, Hdel, bool_decide_eq_false_2 by (intros Hne; by apply Hne).
  rewrite Hspec, Hsuspend.
  assert ((if MetricsRecorder
           then reference_GetReference
                  (controllerutil.AddFinalizer obj imagev1.ImageRepositoryFinalizer)
           else None) = None) as ->.
  { destruct Hmetrics as [-> | ->]; [reflexivity|by destruct MetricsRecorder]. }
  rewrite Hparse.
  eexists. destruct (V1.patchStatus _) eqn:Hpatch; cbn [out_imageRepo out_patched
    out_db out_err out_result];
    (split; [reflexivity|]); (split; [reflexivity|]);
    (split; [apply readiness_Set|]); (split; [by rewrite <- Hstatus|]);
    rewrite Hpatch; cbn; by rewrite ?Hspec.
Qed.

End pass.

(** ** The schedule in time *)

Section schedule.
Context {DB : Type} `{!Database DB} `{!FluxMeta}.

Lemma remainder_exact (I T now : Z) :
  (0 ≤ I)%Z → time.wf I → (T ≤ now)%Z →
  (time.maxDuration < now - T)%Z ∧ (time.sub I (time.Sub now T) = I - time.maxDuration)%Z
  ∨ (now - T ≤ time.maxDuration)%Z ∧ (time.sub I (time.Sub now T) = I - (now - T))%Z.
Proof.
  intros HI Hwf HT. unfold time.wf, time.minDuration, time.maxDuration in *.
  destruct (Z_le_gt_dec (now - T) (2 ^ 63 - 1)) as [Hle|Hgt].
  - right. split; [exact Hle|]. unfold time.sub. rewrite Sub_wf.
    + apply wrap_wf. unfold time.wf, time.minDuration, time.maxDuration. lia.
    + unfold time.wf, time.minDuration, time.maxDuration. lia.
  - left. split; [lia|]. unfold time.sub. rewrite Sub_saturates_high.
    + apply wrap_wf. unfold time.wf, time.minDuration, time.maxDuration. lia.
    + unfold time.maxDuration. lia.
Qed.

(** X20.  With an interval that is not negative and a last scan that is not in
    the future, a wait that the scheduler recommends ends exactly when
    the interval since the last scan is over; it is at least a second and
    at most the interval. *)
Theorem shouldScan_wait (db : DB) (repo : imagev1.ImageRepository)
    (last : imagev1.ScanResult) (now when : Z) :
  imagev1.LastScanResult (imagev1.Status repo) = Some last →
  (0 ≤ imagev1.Interval (imagev1.Spec repo))%Z →
  time.wf (imagev1.Interval (imagev1.Spec repo)) →
  (imagev1.ScanTime last ≤ now)%Z →
  V1.shouldScan db repo now = (false, when, None) →
  (now + when = imagev1.ScanTime last + imagev1.Interval (imagev1.Spec repo))%Z
  ∧ (time.Second ≤ when ≤ imagev1.Interval (imagev1.Spec repo))%Z.
Proof.
  intros Hlast HI Hwf HT. unfold V1.shouldScan. rewrite Hlast.
  destruct (match ReconcileAnnotationValue _ with Some _ => _ | None => _ end);
    [discriminate|].
  destruct (Tags db _) as [tags|e]; [|discriminate].
  destruct (length tags =? 0)%nat; [discriminate|].
  destruct (Z.ltb_spec
              (time.sub (imagev1.Interval (imagev1.Spec repo))
                 (time.Sub now (imagev1.ScanTime last))) time.Second) as [|Hge];
    [discriminate|].
  intros [= <-].
  destruct (remainder_exact _ _ _ HI Hwf HT) as [[_ Heq]|[_ Heq]]; rewrite Heq in *.
  - unfold time.wf, time.maxDuration, time.Second in *. lia.
  - unfold time.Second in *. lia.
Qed.

(** X21.  With an interval that is not negative and a last scan that is not in
    the future, a scan that is due stays due as time goes on, as long as
    the object and the store do not change. *)
Theorem shouldScan_stays_due (db : DB) (repo : imagev1.ImageRepository)
    (now later : Z) :
  (0 ≤ imagev1.Interval (imagev1.Spec repo))%Z →
  time.wf (imagev1.Interval (imagev1.Spec repo)) →
  (∀ last, imagev1.LastScanResult (imagev1.Status repo) = Some last →
           imagev1.ScanTime last ≤ now)%Z →
  (now ≤ later)%Z →
  V1.shouldScan db repo now = (true, imagev1.Interval (imagev1.Spec repo), None) →
  V1.shouldScan db repo later = (true, imagev1.Interval (imagev1.Spec repo), None).
Proof.
  intros HI Hwf HT Hlater. unfold V1.shouldScan.
  destruct (imagev1.LastScanResult (imagev1.Status repo)) as [last|]; [|done].
  specialize (HT last eq_refl).
  destruct (match ReconcileAnnotationValue _ with Some _ => _ | None => _ end); [done|].
  destruct (Tags db _) as [tags|e]; [|done].
  destruct (length tags =? 0)%nat; [done|].
  destruct (Z.ltb_spec
              (time.sub (imagev1.Interval (imagev1.Spec repo))
                 (time.Sub now (imagev1.ScanTime last))) time.Second) as [Hlt|];
    [|discriminate].
  intros _.
  destruct (Z.ltb_spec
              (time.sub (imagev1.Interval (imagev1.Spec repo))
                 (time.Sub later (imagev1.ScanTime last))) time.Second) as [|Hge];
    [reflexivity|exfalso].
  destruct (remainder_exact _ (imagev1.ScanTime last) now HI Hwf HT) as [[? Heq]|[? Heq]];
    destruct (remainder_exact _ (imagev1.ScanTime last) later HI Hwf ltac:(lia))
      as [[? Heq']|[? Heq']];
    rewrite Heq in Hlt; rewrite Heq' in Hge; lia.
Qed.

End schedule.

(** ** The second variant's scan *)

Section second_scan.
Context `{Imported} `{!Packages} `{!Environment}.
Context {DB : Type} `{!Database DB} `{!FluxMeta}.

Lemma V2_scanOptions_Return_eq (imageRepo r : imagev1.ImageRepository)
    (ref : Reference) (err : error) :
  V2.scanOptions imageRepo ref = Return r err →
  r = imageRepo ∨ r = V2.notReady imageRepo err.
Proof.
  unfold V2.scanOptions. intros Hret.
  repeat (case_scrutinee Hret; try discriminate); simplify_eq; by eauto.
Qed.

(** X22.  The scan of the second variant stores the listing as the registry
    gives it, without exclusion; it changes of the object only the
    conditions and, when it succeeds, the record of the last scan, which
    counts the listed tags; it leaves the spec and the request that was
    handled last alone; and it leaves the store alone whenever the
    options or the listing fail. *)
Theorem V2_scan_outcome (db db' : DB) (scanTime : Z)
    (imageRepo r : imagev1.ImageRepository) (ref : Reference) (e : option error) :
  V2.scan db scanTime imageRepo ref = (r, db', e) →
  imagev1.ObjectMeta r = imagev1.ObjectMeta imageRepo
  ∧ imagev1.Spec r = imagev1.Spec imageRepo
  ∧ imagev1.CanonicalImageName (imagev1.Status r)
    = imagev1.CanonicalImageName (imagev1.Status imageRepo)
  ∧ imagev1.LastHandledReconcileRequest (imagev1.Status r)
    = imagev1.LastHandledReconcileRequest (imagev1.Status imageRepo)
  ∧ ((db' = db ∧ e ≠ None
      ∧ imagev1.LastScanResult (imagev1.Status r)
        = imagev1.LastScanResult (imagev1.Status imageRepo))
     ∨ ∃ options tags,
         V2.scanOptions imageRepo ref = Continue options
         ∧ remote_List (Reference_Context ref) (options ++ [remote.WithContext]) = Ok tags
         ∧ db' = (SetTags db (Repository_String (Reference_Context ref)) tags).1
         ∧ imagev1.LastScanResult (imagev1.Status r)
           = match e with
             | Some _ => imagev1.LastScanResult (imagev1.Status imageRepo)
             | None => Some {| imagev1.TagCount := Z.of_nat (length tags);
                               imagev1.ScanTime := scanTime |}
             end).
Proof.
  unfold V2.scan, V2.remote_ListWithContext. intros Hscan.
  destruct (V2.scanOptions imageRepo ref) as [r0 e0|options] eqn:Hopts.
  - injection Hscan as <- <- <-.
    destruct (V2_scanOptions_Return_eq _ _ _ _ Hopts) as [->| ->];
      repeat split; left; done.
  - destruct (remote_List _ _) as [tags|err] eqn:Hlist.
    + destruct (SetTags db _ tags) as [db1 [err|]] eqn:Hset;
        injection Hscan as <- <- <-; repeat split; right;
        exists options, tags; by rewrite Hset.
    + injection Hscan as <- <- <-. repeat split; left; done.
Qed.

End second_scan.

(** ** The failures of the transport *)

Section transport_failures.
Context `{Imported} `{!Packages} `{!Environment}.

(** X23.  [transportFromSecret] fails in three cases and no other: a certFile
    without keyFile; a certFile and a keyFile that do not make a key
    pair, with the error of the pairing; and a caFile when the pool of
    the system cannot be had, with the error of the pool, the client
    certificate being absent or in order. *)
Theorem transportFromSecret_fails (certSecret : corev1.Secret) (err : error) :
  let data := corev1.Data certSecret in
  V1.transportFromSecret certSecret = Err err
  ↔ (is_Some (data !! V1.ClientCert) ∧ data !! V1.ClientKey = None
     ∧ err = "client certificate found, but no key")
    ∨ (∃ clientCert clientKey,
         data !! V1.ClientCert = Some clientCert
         ∧ data !! V1.ClientKey = Some clientKey
         ∧ tls_X509KeyPair clientCert clientKey = Err err)
    ∨ ((data !! V1.ClientCert = None
        ∨ ∃ clientCert clientKey cert,
            data !! V1.ClientCert = Some clientCert
            ∧ data !! V1.ClientKey = Some clientKey
            ∧ tls_X509KeyPair clientCert clientKey = Ok cert)
       ∧ is_Some (data !! V1.CACert)
       ∧ x509_SystemCertPool = Err err).
Proof.
  intros data. unfold V1.transportFromSecret. fold data.
  destruct (data !! V1.ClientCert) as [clientCert|] eqn:Hcert.
  - destruct (data !! V1.ClientKey) as [clientKey|] eqn:Hkey.
    + destruct (tls_X509KeyPair clientCert clientKey) as [cert|e] eqn:Hpair.
      * destruct (data !! V1.CACert) as [caCert|] eqn:Hca.
        -- destruct x509_SystemCertPool as [syscerts|e] eqn:Hpool.
           ++ split; [discriminate|].
              intros [(_ & ? & _)|[(? & ? & [= <-] & [= <-] & ?)|(_ & _ & ?)]];
                congruence.
           ++ split.
              ** intros [= <-]. right. right. split; [right; by eauto 10|].
                 split; [by eexists|reflexivity].
              ** intros [(_ & ? & _)|[(? & ? & [= <-] & [= <-] & ?)|(_ & _ & ?)]];
                   congruence.
        -- split; [discriminate|].
           intros [(_ & ? & _)|[(? & ? & [= <-] & [= <-] & ?)|(_ & [? ?] & _)]];
             congruence.
      * split.
        -- intros [= <-]. right. left. by eauto.
        -- intros [(_ & ? & _)|[(? & ? & [= <-] & [= <-] & ?)
                               |([?|(? & ? & ? & [= <-] & [= <-] & ?)] & _ & _)]];
             congruence.
    + split.
      * intros [= <-]. left. split; [by eexists|done].
      * intros [(_ & _ & ->)|[(? & ? & _ & ? & _)
                             |([?|(? & ? & ? & _ & ? & _)] & _ & _)]];
          congruence.
  - destruct (data !! V1.CACert) as [caCert|] eqn:Hca.
    + destruct x509_SystemCertPool as [syscerts|e] eqn:Hpool.
      * split; [discriminate|].
        intros [([? ?] & _)|[(? & ? & ? & _)|(_ & _ & ?)]]; congruence.
      * split.
        -- intros [= <-]. right. right. split; [by left|]. split; [by eexists|done].
        -- intros [([? ?] & _)|[(? & ? & ? & _)|(_ & _ & ?)]]; congruence.
    + split; [discriminate|].
      intros [([? ?] & _)|[(? & ? & ? & _)|(_ & [? ?] & _)]]; congruence.
Qed.

End transport_failures.

(** ** The random names of the tests *)

Section random_names.
Context {G : Type} `{!Rand G}.

Lemma randRunes_runes (n : nat) (g : G) :
  (∀ g k, (0 < k)%nat → ((rand_Intn g k).1 < k)%nat) →
  ∃ b, (suite_test.randRunes n g).1 = Some b
       ∧ length b = n
       ∧ Forall (λ c, c ∈ suite_test.letterRunes) b.
Proof.
  intros Hlt. revert g. induction n as [|n IH]; intros g; simpl.
  - exists []. by repeat split.
  - pose proof (Hlt g (length suite_test.letterRunes) ltac:(simpl; lia)) as Hk.
    destruct (rand_Intn g _) as [k g1]. simpl in Hk.
    destruct (suite_test.letterRunes !! k) as [c|] eqn:Hc.
    + destruct (IH g1) as (b & Hb & Hlen & Hall).
      destruct (suite_test.randRunes n g1) as [b' g2]. simpl in Hb. subst b'.
      exists (c :: b). simpl. split; [reflexivity|]. split; [by rewrite Hlen|].
      constructor; [|exact Hall]. by eapply list_elem_of_lookup_2.
    + apply lookup_ge_None in Hc. simpl in Hc. lia.
Qed.

(** X24.  With a source whose numbers are under the bound they are asked for,
    [randStringRunes n] does not panic and gives a text of [n] bytes,
    each of them a lower-case letter or a digit of [letterRunes]. *)
Theorem randStringRunes_letters (n : nat) (g : G) :
  (∀ g k, (0 < k)%nat → ((rand_Intn g k).1 < k)%nat) →
  ∃ s, (suite_test.randStringRunes n g).1 = Some s
       ∧ String.length s = n
       ∧ Forall (λ c, c ∈ suite_test.letterRunes) (list_ascii_of_string s).
Proof.
  intros Hlt. destruct (randRunes_runes n g Hlt) as (b & Hb & Hlen & Hall).
  unfold suite_test.randStringRunes.
  destruct (suite_test.randRunes n g) as [b' g']. simpl in Hb. subst b'.
  exists (string_of_list_ascii b). simpl. split; [reflexivity|].
  rewrite list_ascii_of_string_of_list_ascii. split; [|exact Hall].
  rewrite <- Hlen. clear. induction b as [|c b IH]; simpl; [reflexivity|].
  by rewrite IH.
Qed.

End random_names.

(** ** The further properties at work on the instances *)

Lemma shouldScan_answer_witness :
  ((None : option error) ≠ None → false = false ∧ (Model.minute - 4000)%Z = Model.minute)
  ∧ (false = true → (Model.minute - 4000)%Z = Model.minute ∧ (None : option error) = None)
  ∧ (false = false → (None : option error) = None →
     (time.Second ≤ Model.minute - 4000)%Z).
Proof.
  apply (@shouldScan_answer _ Model.database Model.fluxmeta Model.alpine_store
           (Model.alpine Model.minute ∅ Model.last_scan "") 5000%Z
           false (Model.minute - 4000)%Z None).
  reflexivity.
Defined.

Lemma scan_success_witness :
  ∃ options tags filteredTags,
    @V1.scanOptions Model.imported Model.packages Model.listing
      Fixtures.requested_alpine Fixtures.alpine_ref tt = Continue options
    ∧ remote_List (Environment := Model.listing)
        (Model.tag_Repository Fixtures.alpine_ref) options = Ok tags
    ∧ @V1.filterTags Model.imported Model.packages
        (imagev1.ExclusionList (imagev1.Spec Fixtures.listing_scan.1.1)) tags []
      = Ok filteredTags
    ∧ SetTags (Database := Model.database) Model.alpine_store
        "index.docker.io/library/alpine" filteredTags
      = (Fixtures.listing_scan.1.2, None)
    ∧ imagev1.LastScanResult (imagev1.Status Fixtures.listing_scan.1.1)
      = Some {| imagev1.TagCount := Z.of_nat (length filteredTags);
                imagev1.ScanTime := 9000%Z |}
    ∧ readiness (imagev1.Status Fixtures.listing_scan.1.1)
      = Some {| metav1.Type_ := imagev1.ReadyCondition;
                metav1.Status := metav1.ConditionTrue;
                metav1.Reason := metav1.ReconciliationSucceededReason;
                metav1.Message :=
                  "successful scan, found " +:+ itoa (length filteredTags) +:+ " tags" |}.
Proof.
  apply (@scan_success Model.imported Model.packages Model.listing
           Model.store Model.database Model.fluxmeta
           Model.alpine_store Fixtures.listing_scan.1.2 9000%Z tt
           Fixtures.requested_alpine Fixtures.listing_scan.1.1 Fixtures.alpine_ref).
  vm_compute. reflexivity.
Defined.

Lemma database_gives_back (d d' : Model.store) (name : string) (tags : list string) :
  SetTags (Database := Model.database) d name tags = (d', None) →
  Tags (Database := Model.database) d' name = Ok tags.
Proof.
  intros [= <-]. simpl. by rewrite lookup_insert_eq.
Qed.

Lemma scan_then_shouldScan_witness :
  ∃ n : nat,
    imagev1.LastScanResult (imagev1.Status Fixtures.empty_scan.1.1)
    = Some {| imagev1.TagCount := Z.of_nat n; imagev1.ScanTime := 9000%Z |}
    ∧ ∀ now,
        @V1.shouldScan _ Model.database Model.fluxmeta
          Fixtures.empty_scan.1.2 Fixtures.empty_scan.1.1 now
        = let I := Model.minute in
          if (n =? 0)%nat then (true, I, None)
          else
            let remaining := time.sub I (time.Sub now 9000%Z) in
            if (remaining <? time.Second)%Z then (true, I, None)
            else (false, remaining, None).
Proof.
  apply (@scan_then_shouldScan Model.imported Model.packages Fixtures.empty_registry
           Model.store Model.database Model.fluxmeta
           Model.alpine_store Fixtures.empty_scan.1.2 9000%Z tt
           Fixtures.requested_alpine Fixtures.empty_scan.1.1 Fixtures.alpine_ref).
  - vm_compute. reflexivity.
  - exact database_gives_back.
  - reflexivity.
Defined.

Lemma scan_failure_keeps_status_witness :
  imagev1.ObjectMeta Fixtures.failed_scan.1.1
  = imagev1.ObjectMeta Fixtures.requested_alpine
  ∧ imagev1.LastScanResult (imagev1.Status Fixtures.failed_scan.1.1) = Model.last_scan
  ∧ imagev1.CanonicalImageName (imagev1.Status Fixtures.failed_scan.1.1)
    = "index.docker.io/library/alpine"
  ∧ imagev1.LastHandledReconcileRequest (imagev1.Status Fixtures.failed_scan.1.1) = ""
  ∧ (imagev1.Status Fixtures.failed_scan.1.1 = imagev1.Status Fixtures.requested_alpine
     ∨ imagev1.Status Fixtures.failed_scan.1.1
       = imagev1.Status (V1.notReady Fixtures.requested_alpine "registry unreachable")).
Proof.
  apply (@scan_failure_keeps_status Model.imported Model.packages Model.unreachable
           Model.store Model.database Model.fluxmeta
           Model.alpine_store Fixtures.failed_scan.1.2 9000%Z tt
           Fixtures.requested_alpine Fixtures.failed_scan.1.1 Fixtures.alpine_ref
           "registry unreachable").
  vm_compute. reflexivity.
Defined.

Lemma scan_frame_witness :
  imagev1.ObjectMeta Fixtures.listing_scan.1.1
  = imagev1.ObjectMeta Fixtures.requested_alpine
  ∧ imagev1.CanonicalImageName (imagev1.Status Fixtures.listing_scan.1.1)
    = "index.docker.io/library/alpine"
  ∧ (imagev1.Spec Fixtures.listing_scan.1.1 = imagev1.Spec Fixtures.requested_alpine
     ∨ (imagev1.ExclusionList (imagev1.Spec Fixtures.requested_alpine) = []
        ∧ (∃ options tags,
             @V1.scanOptions Model.imported Model.packages Model.listing
               Fixtures.requested_alpine Fixtures.alpine_ref tt = Continue options
             ∧ remote_List (Environment := Model.listing)
                 (Model.tag_Repository Fixtures.alpine_ref) options = Ok tags)
        ∧ imagev1.Spec Fixtures.listing_scan.1.1
          = imagev1.with_ExclusionList (imagev1.Spec Fixtures.requested_alpine)
              [V1.CosignObjectRegex])).
Proof.
  apply (@scan_frame Model.imported Model.packages Model.listing
           Model.store Model.database Model.fluxmeta
           Model.alpine_store Fixtures.listing_scan.1.2 9000%Z tt
           Fixtures.requested_alpine Fixtures.listing_scan.1.1 Fixtures.alpine_ref None).
  vm_compute. reflexivity.
Defined.

Lemma scan_store_witness :
  (Fixtures.failed_scan.1.2 = Model.alpine_store
   ∧ Some "registry unreachable" ≠ None)
  ∨ ∃ options tags filteredTags,
      @V1.scanOptions Model.imported Model.packages Model.unreachable
        Fixtures.requested_alpine Fixtures.alpine_ref tt = Continue options
      ∧ remote_List (Environment := Model.unreachable)
          (Model.tag_Repository Fixtures.alpine_ref) options = Ok tags
      ∧ @V1.filterTags Model.imported Model.packages
          (imagev1.ExclusionList (imagev1.Spec Fixtures.failed_scan.1.1)) tags []
        = Ok filteredTags
      ∧ Fixtures.failed_scan.1.2
        = (SetTags (Database := Model.database) Model.alpine_store
             "index.docker.io/library/alpine" filteredTags).1.
Proof.
  apply (@scan_store Model.imported Model.packages Model.unreachable
           Model.store Model.database Model.fluxmeta
           Model.alpine_store Fixtures.failed_scan.1.2 9000%Z tt
           Fixtures.requested_alpine Fixtures.failed_scan.1.1 Fixtures.alpine_ref
           (Some "registry unreachable")).
  vm_compute. reflexivity.
Defined.

Lemma filterTags_membership_witness :
  (∀ tag, tag ∈ ["latest"; "v1.0.0"; "latest"]
          ↔ tag ∈ ["v1.0.0"; "v1.0.0.sig"; "latest"]
            ∧ ∃ r, r ∈ [Fixtures.compiled "^v.*$"; Fixtures.compiled "^.*\.sig$"]
                   ∧ Model.MatchString r tag = false)
  ∧ (length ["latest"; "v1.0.0"; "latest"]
     ≤ length [Fixtures.compiled "^v.*$"; Fixtures.compiled "^.*\.sig$"]
       * length ["v1.0.0"; "v1.0.0.sig"; "latest"])%nat.
Proof.
  apply (@filterTags_membership Model.imported Model.packages
           ["^v.*$"; "^.*\.sig$"]
           [Fixtures.compiled "^v.*$"; Fixtures.compiled "^.*\.sig$"]
           ["v1.0.0"; "v1.0.0.sig"; "latest"] ["latest"; "v1.0.0"; "latest"]).
  - repeat constructor.
  - reflexivity.
Defined.

Lemma scan_bad_pattern_witness :
  @V1.scan Model.imported Model.packages Model.listing Model.store Model.database
    Model.fluxmeta Model.alpine_store 9000%Z tt
    (Fixtures.with_exclusions Fixtures.requested_alpine ["^v.*$"; "("])
    Fixtures.alpine_ref
  = (Fixtures.with_exclusions Fixtures.requested_alpine ["^v.*$"; "("],
     Model.alpine_store,
     Some "failed to compile regex (: error parsing regexp").
Proof.
  apply (@scan_bad_pattern Model.imported Model.packages Model.listing
           Model.store Model.database Model.fluxmeta
           Model.alpine_store 9000%Z tt
           (Fixtures.with_exclusions Fixtures.requested_alpine ["^v.*$"; "("])
           Fixtures.alpine_ref [remote.WithContext]
           ["v1.0.0"; "v1.0.0.sig"; "latest"] ["^v.*$"] []
           [Fixtures.compiled "^v.*$"] "(" "error parsing regexp").
  - reflexivity.
  - reflexivity.
  - reflexivity.
  - repeat constructor.
  - reflexivity.
Defined.

Lemma parseImageReference_accepts_witness :
  @V1.parseImageReference Model.imported Model.packages "localhost:5000/app"
  = Ok {| Model.tag_Repository :=
            {| Model.registry := "localhost:5000"; Model.repository := "app" |};
          Model.tag := "latest" |}.
Proof.
  destruct (@parseImageReference_accepts Model.imported Model.packages
              "localhost:5000/app"
              {| Model.tag_Repository :=
                   {| Model.registry := "localhost:5000"; Model.repository := "app" |};
                 Model.tag := "latest" |})
    as [_ Hport].
  apply (Hport "/app").
  - reflexivity.
  - apply Cut_None. reflexivity.
  - reflexivity.
  - apply Cut_None. reflexivity.
Defined.

Lemma getURLHost_host_witness :
  "ghcr.io" ≠ "http://" ∧ "ghcr.io" ≠ "https://" ∧ "ghcr.io" ≠ ""
  ∧ ∃ u, Model.url_Parse (with_scheme "ghcr.io") = Ok u ∧ Model.Host u = "ghcr.io".
Proof.
  apply (proj1 (@getURLHost_host Model.imported Model.packages "ghcr.io" "ghcr.io")).
  reflexivity.
Defined.

Lemma parseAuthMap_lookup_witness :
  ∃ m, @V1.parseAuthMap Model.imported Model.packages Fixtures.two_keys = Ok m
       ∧ m !! "index.docker.io" = Some Fixtures.admin
       ∧ m !! "ghcr.io" = Some Fixtures.guest.
Proof.
  destruct (@parseAuthMap_lookup Model.imported Model.packages Fixtures.two_keys)
    as (Hmap & Hlookup & _).
  destruct (proj2 Hmap) as [m Hm].
  - repeat constructor; eexists; reflexivity.
  - exists m. split; [exact Hm|]. split.
    + rewrite (Hlookup m "index.docker.io" Hm). reflexivity.
    + rewrite (Hlookup m "ghcr.io" Hm). reflexivity.
Defined.

Lemma authFromSecret_result_witness :
  (corev1.Type_ Fixtures.pull_secret = "kubernetes.io/dockerconfigjson"
   ∧ ∃ config entry,
       json_Decode (Packages := Fixtures.packages)
         (default [] (corev1.Data Fixtures.pull_secret !! ".dockerconfigjson"))
       = Ok config
       ∧ host_entry (@V1.getURLHost Model.imported Fixtures.packages) (Auths config)
           "index.docker.io"
         = Some entry
       ∧ Fixtures.admin = entry)
  ∧ @V1.authFromSecret Model.imported Fixtures.packages
      Fixtures.odd_secret Fixtures.alpine_ref
    = Err ("unknown secret type "
           +:+ String "034"%char ("a\\b" +:+ String "034"%char EmptyString)).
Proof.
  split.
  - destruct (@authFromSecret_result Model.imported Fixtures.packages
                Fixtures.pull_secret Fixtures.alpine_ref)
      as (Hok & _).
    apply (Hok Fixtures.admin). reflexivity.
  - destruct (@authFromSecret_result Model.imported Fixtures.packages
                Fixtures.odd_secret Fixtures.alpine_ref)
      as (_ & Hother & _).
    rewrite Hother; [reflexivity|]. vm_compute. discriminate.
Defined.

Lemma getPullSecrets_result_witness :
  Forall2
    (λ r s, Get_Secret (Environment := Fixtures.cluster) "flux-system" (imagev1.RefName r)
            = Ok s)
    [ {| imagev1.RefName := "regcred" |} ] [Fixtures.pull_secret].
Proof.
  destruct (@getPullSecrets_result Model.imported Fixtures.cluster "flux-system"
              [ {| imagev1.RefName := "regcred" |} ])
    as (Hok & _).
  apply (Hok [Fixtures.pull_secret]). reflexivity.
Defined.

Lemma Reconcile_result_witness :
  ctrl.RequeueAfter
    (out_result
       (@V1.Reconcile Model.imported Model.packages Model.unreachable
          (Model.apiserver Fixtures.requested_alpine)
          Model.store Model.database Model.fluxmeta Model.alpine_store 5000%Z 9000%Z tt))
  = 0%Z
  ∧ out_err
      (@V2.Reconcile Model.imported Model.packages Model.listing
         (Fixtures.refusing (Model.alpine Model.minute ∅ Model.last_scan ""))
         Model.store Model.database Model.fluxmeta Model.alpine_store 5000%Z 9000%Z)
    = Some "conflict"
  ∧ out_result
      (@V2.Reconcile Model.imported Model.packages Model.listing
         (Fixtures.refusing (Model.alpine Model.minute ∅ Model.last_scan ""))
         Model.store Model.database Model.fluxmeta Model.alpine_store 5000%Z 9000%Z)
    = {| ctrl.Requeue := false; ctrl.RequeueAfter := 59999996000%Z |}.
Proof.
  split.
  - destruct (@Reconcile_result Model.imported Model.packages Model.unreachable
                (Model.apiserver Fixtures.requested_alpine)
                Model.store Model.database Model.fluxmeta Model.alpine_store
                5000%Z 9000%Z tt)
      as ((Herr & _) & _).
    apply Herr. vm_compute. discriminate.
  - destruct (@Reconcile_result Model.imported Model.packages Model.listing
                (Fixtures.refusing (Model.alpine Model.minute ∅ Model.last_scan ""))
                Model.store Model.database Model.fluxmeta Model.alpine_store
                5000%Z 9000%Z tt)
      as (_ & _ & Honly & Hfails & Hwait).
    assert (out_result
              (@V2.Reconcile Model.imported Model.packages Model.listing
                 (Fixtures.refusing (Model.alpine Model.minute ∅ Model.last_scan ""))
                 Model.store Model.database Model.fluxmeta Model.alpine_store
                 5000%Z 9000%Z)
            = {| ctrl.Requeue := false; ctrl.RequeueAfter := 59999996000%Z |}) as Hres.
    { apply (Hwait (Model.alpine Model.minute ∅ Model.last_scan "")
               Fixtures.alpine_ref 59999996000%Z); reflexivity. }
    split; [|exact Hres].
    destruct Honly as (r & err & Hr & Hpatch & Herr & _).
    + apply (Hfails (Model.alpine Model.minute ∅ Model.last_scan "") "conflict");
        reflexivity.
    + rewrite Hres. discriminate.
    + rewrite Herr. f_equal. vm_compute in Hpatch. by injection Hpatch as <-.
Defined.

Lemma Reconcile_store_witness :
  ∃ found ref when,
    let obj :=
      imagev1.with_Status
        (controllerutil.AddFinalizer found imagev1.ImageRepositoryFinalizer)
        (imagev1.with_CanonicalImageName (imagev1.Status found)
           (Repository_String (Packages := Model.packages)
              (Reference_Context (Packages := Model.packages) ref))) in
    Get_ImageRepository (APIServer := Model.apiserver Fixtures.requested_alpine)
    = Found found
    ∧ @V1.parseImageReference Model.imported Model.packages
        (imagev1.Image (imagev1.Spec found)) = Ok ref
    ∧ @V1.shouldScan _ Model.database Model.fluxmeta Model.alpine_store obj 5000%Z
      = (true, when, None)
    ∧ out_db
        (@V1.Reconcile Model.imported Model.packages Model.listing
           (Model.apiserver Fixtures.requested_alpine)
           Model.store Model.database Model.fluxmeta Model.alpine_store 5000%Z 9000%Z tt)
      = (@V1.scan Model.imported Model.packages Model.listing Model.store
           Model.database Model.fluxmeta Model.alpine_store 9000%Z tt obj ref).1.2
    ∧ out_imageRepo
        (@V1.Reconcile Model.imported Model.packages Model.listing
           (Model.apiserver Fixtures.requested_alpine)
           Model.store Model.database Model.fluxmeta Model.alpine_store 5000%Z 9000%Z tt)
      = Some (@V1.scan Model.imported Model.packages Model.listing Model.store
                Model.database Model.fluxmeta Model.alpine_store 9000%Z tt obj ref).1.1.
Proof.
  destruct (@Reconcile_store Model.imported Model.packages Model.listing
              (Model.apiserver Fixtures.requested_alpine)
              Model.store Model.database Model.fluxmeta Model.alpine_store
              5000%Z 9000%Z tt)
    as [Hsame|Hscan].
  - apply (f_equal Model.writes) in Hsame. vm_compute in Hsame. discriminate Hsame.
  - exact Hscan.
Defined.

Lemma Reconcile_suspended_witness :
  out_db
    (@V1.Reconcile Model.imported Model.packages Model.listing
       (Model.apiserver (Fixtures.suspended Fixtures.requested_alpine))
       Model.store Model.database Model.fluxmeta Model.alpine_store 5000%Z 9000%Z tt)
  = Model.alpine_store
  ∧ out_patched
      (@V2.Reconcile Model.imported Model.packages Model.listing
         (Model.apiserver (Fixtures.suspended Fixtures.requested_alpine))
         Model.store Model.database Model.fluxmeta Model.alpine_store 5000%Z 9000%Z)
    = [].
Proof.
  destruct (@Reconcile_suspended Model.imported Model.packages Model.listing
              (Model.apiserver (Fixtures.suspended Fixtures.requested_alpine))
              Model.store Model.database Model.fluxmeta Model.alpine_store
              5000%Z 9000%Z tt (Fixtures.suspended Fixtures.requested_alpine))
    as (Hfirst & Hsecond).
  - reflexivity.
  - reflexivity.
  - destruct Hfirst as (r & _ & _ & Hdb & _).
    + left. reflexivity.
    + reflexivity.
    + split; [exact Hdb|]. rewrite Hsecond. reflexivity.
Defined.

Lemma Reconcile_deleting_witness :
  ∃ r,
    out_imageRepo
      (@V1.Reconcile Model.imported Model.packages Model.listing
         (Model.apiserver (Fixtures.deleted Fixtures.requested_alpine))
         Model.store Model.database Model.fluxmeta Model.alpine_store 5000%Z 9000%Z tt)
    = Some r
    ∧ (imagev1.ImageRepositoryFinalizer ∉ metav1.Finalizers (imagev1.ObjectMeta r)).
Proof.
  destruct (@Reconcile_deleting Model.imported Model.packages Model.listing
              (Model.apiserver (Fixtures.deleted Fixtures.requested_alpine))
              Model.store Model.database Model.fluxmeta Model.alpine_store
              5000%Z 9000%Z tt (Fixtures.deleted Fixtures.requested_alpine))
    as (r & Hr & Hfinalizer & _).
  - reflexivity.
  - left. reflexivity.
  - discriminate.
  - exists r. split; [exact Hr|exact Hfinalizer].
Defined.

Lemma Reconcile_invalid_image_witness :
  out_db
    (@V1.Reconcile Model.imported Model.packages Model.listing
       (Model.apiserver
          (Fixtures.with_image Fixtures.requested_alpine "docker.io/library/alpine:3.19"))
       Model.store Model.database Model.fluxmeta Model.alpine_store 5000%Z 9000%Z tt)
  = Model.alpine_store.
Proof.
  destruct (@Reconcile_invalid_image Model.imported Model.packages Model.listing
              (Model.apiserver
                 (Fixtures.with_image Fixtures.requested_alpine
                    "docker.io/library/alpine:3.19"))
              Model.store Model.database Model.fluxmeta Model.alpine_store
              5000%Z 9000%Z tt
              (Fixtures.with_image Fixtures.requested_alpine
                 "docker.io/library/alpine:3.19")
              ".spec.image value should not contain a tag; remove ':3.19'")
    as (r & _ & _ & _ & _ & _ & _ & Hdb).
  - reflexivity.
  - split; [left; reflexivity|]. split; [reflexivity|]. split; [reflexivity|].
    left. reflexivity.
  - reflexivity.
  - exact Hdb.
Defined.

Lemma shouldScan_wait_witness :
  (5000 + (Model.minute - 4000) = 1000 + Model.minute)%Z
  ∧ (time.Second ≤ Model.minute - 4000 ≤ Model.minute)%Z.
Proof.
  apply (@shouldScan_wait _ Model.database Model.fluxmeta Model.alpine_store
           (Model.alpine Model.minute ∅ Model.last_scan "")
           {| imagev1.TagCount := 2%Z; imagev1.ScanTime := 1000%Z |}
           5000%Z (Model.minute - 4000)%Z).
  - reflexivity.
  - vm_compute. discriminate.
  - vm_compute. split; discriminate.
  - vm_compute. discriminate.
  - reflexivity.
Defined.

Lemma shouldScan_stays_due_witness :
  @V1.shouldScan _ Model.database Model.fluxmeta Model.alpine_store
    (Model.alpine Model.minute ∅ Model.last_scan "") (2000 + Model.minute)%Z
  = (true, Model.minute, None).
Proof.
  apply (@shouldScan_stays_due _ Model.database Model.fluxmeta Model.alpine_store
           (Model.alpine Model.minute ∅ Model.last_scan "")
           (1000 + Model.minute)%Z (2000 + Model.minute)%Z).
  - vm_compute. discriminate.
  - vm_compute. split; discriminate.
  - intros last [= <-]. vm_compute. discriminate.
  - vm_compute. discriminate.
  - reflexivity.
Defined.

Lemma V2_scan_outcome_witness :
  imagev1.Spec Fixtures.second_scan.1.1 = imagev1.Spec Fixtures.requested_alpine
  ∧ imagev1.LastHandledReconcileRequest (imagev1.Status Fixtures.second_scan.1.1) = ""
  ∧ Tags (Database := Model.database) Fixtures.second_scan.1.2
      "index.docker.io/library/alpine"
    = Ok ["v1.0.0"; "v1.0.0.sig"; "latest"].
Proof.
  destruct (@V2_scan_outcome Model.imported Model.packages Model.listing
              Model.store Model.database
              Model.alpine_store Fixtures.second_scan.1.2 9000%Z
              Fixtures.requested_alpine Fixtures.second_scan.1.1 Fixtures.alpine_ref None)
    as (_ & Hspec & _ & Hhandled & _).
  - vm_compute. reflexivity.
  - split; [exact Hspec|]. split; [exact Hhandled|]. reflexivity.
Defined.

Lemma transportFromSecret_fails_witness :
  @V1.transportFromSecret Model.imported Model.packages Model.unreachable
    Model.cert_only
  = Err "client certificate found, but no key".
Proof.
  apply (proj2 (@transportFromSecret_fails Model.imported Model.packages
                  Model.unreachable Model.cert_only
                  "client certificate found, but no key")).
  left. split; [eexists; reflexivity|]. split; reflexivity.
Defined.

Lemma randStringRunes_letters_witness :
  ∃ s, (suite_test.randStringRunes (Rand0 := Fixtures.lcg) 5 42).1 = Some s
       ∧ String.length s = 5%nat
       ∧ Forall (λ c, c ∈ suite_test.letterRunes) (list_ascii_of_string s).
Proof.
  apply (@randStringRunes_letters nat Fixtures.lcg 5 42).
  intros g k Hk. simpl. apply Nat.mod_upper_bound. lia.
Defined.
